(** * The DQN training engine of rocket_circularization (DQN.py)

    A shallow embedding of [ExperienceReplay] and [DeepQNetwork]: the bounded
    replay buffer, epsilon-greedy action selection, the episode loop, the
    Bellman update, epsilon annealing, the training driver and persistence.

    Python objects are records passed explicitly; a method that mutates
    [self] returns the new [self].  Exceptions are the [Raise] outcome of
    [result].  The libraries the code calls (NumPy's arithmetic and random
    generator, the Keras network, the gym environment, pickle) are interfaces:
    type classes whose operations the model calls exactly where the code
    does. *)

From Stdlib Require Import ZArith Reals Lra Lia.
From stdpp Require Import base option list gmap strings.

Open Scope Z_scope.

(** ** Outcomes of a call *)

(** The Python exceptions the modelled code can raise. *)
Inductive exn :=
| ValueError
| ZeroDivisionError
| IndexError
| UnboundLocalError
| AttributeError
| FileNotFoundError
| NotFoundError
| InvalidArgumentError
| UnpicklingError.

(** A call returns, raises, or (for the episode loop, which has no bound of
    its own) is still running when the fuel of the model is spent. *)
Inductive result (A : Type) :=
| Ok (a : A)
| Raise (e : exn)
| OutOfFuel.
Arguments Ok {A} a.
Arguments Raise {A} e.
Arguments OutOfFuel {A}.

#[global] Instance result_ret : MRet result := fun A a => Ok a.
#[global] Instance result_bind : MBind result := fun A B f m =>
  match m with
  | Ok a => f a
  | Raise e => Raise e
  | OutOfFuel => OutOfFuel
  end.

Definition of_option {A} (e : exn) (o : option A) : result A :=
  match o with
  | Some a => Ok a
  | None => Raise e
  end.

(** Python's [a % b] on ints: the sign follows the divisor, as [Z.modulo]. *)
Definition py_mod (a b : Z) : result Z :=
  if b =? 0 then Raise ZeroDivisionError else Ok (a mod b).

(** [range(n)] as a list of ints. *)
Definition py_range (n : Z) : list Z :=
  Z.of_nat <$> seq 0 (Z.to_nat n).

(** [l[-1]] on a Python list. *)
Definition py_last {A} (l : list A) : result A :=
  of_option IndexError (last l).

(** ** Interfaces of the libraries *)

(** Floating-point numbers with the operations the code applies to them. *)
Class Numeric (F : Type) := {
  zero : F;
  one : F;
  add : F -> F -> F;
  sub : F -> F -> F;
  mul : F -> F -> F;
  (** [step / total_steps] on two ints, for a divisor other than 0 *)
  truediv : Z -> Z -> F;
  (** [np.power] *)
  power : F -> F -> F;
  (** [<] *)
  ltb : F -> F -> bool;
  (** the cast of [np.array(_, dtype=np.float32)] *)
  float32 : F -> F;
  (** [tf.reduce_max] and [tf.reduce_mean] over one axis *)
  reduce_max : list F -> F;
  reduce_mean : list F -> F
}.

(** [x <= y] is "not [y < x]". *)
Definition le {F} `{Numeric F} (x y : F) : Prop := ltb y x = false.

(** What the proofs below use of the arithmetic, each stated where it is
    used.  All hold of IEEE floats that are not nan, and of the reals. *)

(** [<] is a strict order whose [<=] is transitive. *)
Definition order_laws {F} `{Numeric F} : Prop :=
  (forall x : F, ltb x x = false) /\
  (forall x y z : F, ltb x y = true -> ltb y z = true -> ltb x z = true) /\
  (forall x y z : F, le x y -> le y z -> le x z).

(** [0 / n] is 0 and [n / n] is 1; [d ** 0] is 1 and [d ** 1] is [d];
    [e * 1] is [e]. *)
Definition unit_laws {F} `{Numeric F} : Prop :=
  (forall n : Z, n <> 0 -> truediv 0 n = zero /\ truediv n n = one) /\
  (forall d : F, power d zero = one /\ power d one = d) /\
  (forall e : F, mul e one = e).

(** A quotient of non-negative ints is non-negative; a power of a base in
    [[0, 1]] with a non-negative exponent is in [[0, 1]]; the product of a
    non-negative [e] and a factor in [[0, 1]] is in [[0, e]]. *)
Definition range_laws {F} `{Numeric F} : Prop :=
  (forall a b : Z, 0 <= a -> 0 < b -> le zero (truediv a b)) /\
  (forall d t : F, le zero d -> le d one -> le zero t ->
     le zero (power d t) /\ le (power d t) one) /\
  (forall e p : F, le zero e -> le zero p -> le p one ->
     le zero (mul e p) /\ le (mul e p) e).

(** The function approximator: [nn.create_mlp] and the Keras model. *)
Class Approximator (F W Opt : Type) := {
  (** [create_mlp(dims, final_activation='linear')] *)
  create_mlp : list Z -> W;
  (** [tf.keras.models.clone_model]: same architecture, fresh weights *)
  clone_model : W -> W;
  (** the model applied to one row of a batch *)
  call : W -> list F -> list F;
  (** whether saved weights fit a model: [load_weights] restores those *)
  same_architecture : W -> W -> bool;
  (** [load_weights] of saved weights that do not fit the model, from the
      model's weights and the saved ones: TensorFlow raises for some and
      restores the part that matches for others *)
  load_mismatched : W -> W -> result W;
  (** [tf.optimizers.Adam(learning_rate=_)] *)
  adam : F -> Opt;
  (** [tape.gradient] of the batch loss in the online weights followed by
      [optimizer.apply_gradients]: from the optimizer, the online weights,
      the sampled states and actions and the targets [y] *)
  apply_gradients : Opt -> W -> list (list F) -> list Z -> list F -> Opt * W
}.

(** The gym environment. *)
Class Environment (F E : Type) := {
  env_reset : E -> list F * E;
  env_step : E -> Z -> (list F * F * bool) * E;
  env_render : E -> E;
  env_show : E -> bool -> option string -> E
}.

(** NumPy's global random generator. *)
Class RandomState (F G : Type) := {
  (** [np.random.uniform()] *)
  uniform : G -> F * G;
  (** the draw of [np.random.randint(low, high)] when [low < high] *)
  randint_draw : G -> Z -> Z -> Z * G;
  (** [permutation(n)], from which [choice(n, k, replace=False)] takes its
      first [k] entries *)
  permutation : G -> nat -> list nat * G
}.

(** [pickle.dump] and [pickle.load] of a value of type [A] to bytes [B]. *)
Class Pickle (A B : Type) := {
  pickle_dumps : A -> B;
  pickle_loads : B -> option A
}.

(** ** collections.deque(maxlen=_) *)

Module Deque.

Record t (A : Type) := mk { maxlen : Z; items : list A }.
Arguments mk {A} maxlen items.
Arguments maxlen {A} _.
Arguments items {A} _.

(** [deque(maxlen=n)] raises ValueError for a negative [n].  The ints are
    those CPython's index type holds, from [-2^63] to [2^63 - 1] on a 64-bit
    platform; an int outside them is refused with OverflowError before the
    deque looks at it, and is not a capacity this model is about. *)
Definition create {A} (n : Z) : result (t A) :=
  if n <? 0 then Raise ValueError else Ok (mk n []).

Definition len {A} (d : t A) : Z := Z.of_nat (length (items d)).

(** [append] adds on the right and, when the length then exceeds
    [maxlen], removes the leftmost item. *)
Definition append {A} (d : t A) (x : A) : t A :=
  let l := items d ++ [x] in
  mk (maxlen d) (if maxlen d <? Z.of_nat (length l) then drop 1 l else l).

(** [d[i]] for an index drawn from [range(len(d))]. *)
Definition index {A} (d : t A) (i : nat) : result A :=
  of_option IndexError (items d !! i).

End Deque.

(** [np.random.choice(a, size, replace=False)] for ints [a] and [size]. *)
Definition np_random_choice {F G} `{RandomState F G}
    (g : G) (a size : Z) : result (list nat * G) :=
  if (a <=? 0) && negb (size =? 0) then Raise ValueError
  else if a <? size then Raise ValueError
  else if size <? 0 then Raise ValueError
  else let '(p, g') := permutation g (Z.to_nat a) in
       Ok (take (Z.to_nat size) p, g').

(** What the code relies on from the generator: [permutation(n)] is a
    permutation of [range(n)]. *)
Definition permutation_law {F G} `{RandomState F G} : Prop :=
  forall (g : G) (n : nat), (permutation g n).1 ≡ₚ seq 0 n.

(** And [randint(low, high)], for [low < high], draws from [[low, high)]. *)
Definition randint_law {F G} `{RandomState F G} : Prop :=
  forall (g : G) (low high : Z),
    low < high -> low <= (randint_draw g low high).1 < high.

(** [np.random.randint(low, high)] raises ValueError unless [low < high]. *)
Definition np_random_randint {F G} `{RandomState F G}
    (g : G) (low high : Z) : result (Z * G) :=
  if high <=? low then Raise ValueError else Ok (randint_draw g low high).

(** ** ExperienceReplay *)

Module ExperienceReplay.

Section Replay.
Context {F G : Type} `{Numeric F} `{RandomState F G}.

(** The namedtuple [Experience]. *)
Record Experience := mkExperience {
  state : list F;
  action : Z;
  reward : F;
  done : bool;
  new_state : list F
}.

Record t := mk { buffer : Deque.t Experience }.

(** What [sample] returns: five parallel arrays. *)
Record Batch := mkBatch {
  states : list (list F);
  actions : list Z;
  rewards : list F;
  dones : list bool;
  next_states : list (list F)
}.

Definition init (capacity : Z) : result t :=
  d ← Deque.create capacity; mret (mk d).

Definition len (self : t) : Z := Deque.len (buffer self).

Definition append (self : t) (experience : Experience) : t :=
  mk (Deque.append (buffer self) experience).

(** The star-unpacked [zip] of the records, assigned to five names:
    ValueError when there is no record, the five columns otherwise. *)
Definition unzip5 (records : list Experience) : result Batch :=
  match records with
  | [] => Raise ValueError
  | _ => Ok (mkBatch (state <$> records) (action <$> records)
                     (float32 ∘ reward <$> records) (done <$> records)
                     (new_state <$> records))
  end.

Definition sample (self : t) (g : G) (batch_size : Z)
    : result (Batch * G) :=
  '(indices, g') ← np_random_choice g (len self) batch_size;
  records ← mapM (M := result) (Deque.index (buffer self)) indices;
  b ← unzip5 records;
  mret (b, g').

(** The buffer after a sequence of [append] calls, oldest call first. *)
Definition appended (self : t) (experiences : list Experience) : t :=
  foldl append self experiences.

End Replay.

Arguments Experience F : clear implicits.
Arguments t F : clear implicits.
Arguments Batch F : clear implicits.

End ExperienceReplay.

(** ** TensorFlow and NumPy array operations used by the agent *)

Section Arrays.
Context {F : Type} `{Numeric F}.

(** The scan behind [tf.argmax]: the running maximum is replaced only by a
    strictly larger entry, so the first of equal maxima is kept. *)
Fixpoint argmax_from (best : F) (besti i : Z) (l : list F) : Z :=
  match l with
  | [] => besti
  | x :: r =>
      if ltb best x then argmax_from x i (i + 1) r
      else argmax_from best besti (i + 1) r
  end.

(** [tf.argmax(output)] on a vector; an empty reduction axis is refused. *)
Definition tf_argmax (output : list F) : result Z :=
  match output with
  | [] => Raise InvalidArgumentError
  | x :: r => Ok (argmax_from x 0 1 r)
  end.

(** [q[act]] on a row tensor: negative indices count from the end. *)
Definition tensor_item (q : list F) (act : Z) : result F :=
  let n := Z.of_nat (length q) in
  if (0 <=? act) && (act <? n) then
    of_option InvalidArgumentError (q !! Z.to_nat act)
  else if (- n <=? act) && (act <? 0) then
    of_option InvalidArgumentError (q !! Z.to_nat (n + act))
  else Raise InvalidArgumentError.

(** [np.where(c, x, y)] on three arrays of one length. *)
Definition np_where (c : list bool) (x y : list F) : list F :=
  zip_with (fun (d : bool) xy => if d then xy.1 else xy.2) c (zip x y).

(** [tf.math.square]. *)
Definition square (x : F) : F := mul x x.

End Arrays.

(** ** DeepQNetwork *)

Module DeepQNetwork.

Section Agent.
Context {F W Opt E G B : Type}.
Context `{Numeric F} `{Approximator F W Opt} `{Environment F E}.
Context `{RandomState F G} `{Pickle (ExperienceReplay.t F) B}.

Abbreviation Experience := (ExperienceReplay.Experience F).
Abbreviation Batch := (ExperienceReplay.Batch F).

(** The attributes [__init__] sets.  [q_target] and [target_frequency]
    exist only when [use_target] is true. *)
Record t := mk {
  dims : list Z;
  q_net : W;
  use_target : bool;
  q_target : option W;
  target_frequency : option Z;
  epsilon_init : F;
  epsilon : F;
  epsilon_decay : F;
  gamma : F;
  memory : Z;
  replay : ExperienceReplay.t F;
  start_updating : Z;
  batch_size : Z;
  descent_frequency : Z;
  update_frequency : Z;
  optimizer : Opt
}.

Definition set_epsilon (self : t) (e : F) : t :=
  mk (dims self) (q_net self) (use_target self) (q_target self)
     (target_frequency self) (epsilon_init self) e (epsilon_decay self)
     (gamma self) (memory self) (replay self) (start_updating self)
     (batch_size self) (descent_frequency self) (update_frequency self)
     (optimizer self).

Definition set_replay (self : t) (r : ExperienceReplay.t F) : t :=
  mk (dims self) (q_net self) (use_target self) (q_target self)
     (target_frequency self) (epsilon_init self) (epsilon self)
     (epsilon_decay self) (gamma self) (memory self) r
     (start_updating self) (batch_size self) (descent_frequency self)
     (update_frequency self) (optimizer self).

Definition set_q_target (self : t) (w : W) : t :=
  mk (dims self) (q_net self) (use_target self) (Some w)
     (target_frequency self) (epsilon_init self) (epsilon self)
     (epsilon_decay self) (gamma self) (memory self) (replay self)
     (start_updating self) (batch_size self) (descent_frequency self)
     (update_frequency self) (optimizer self).

Definition set_q_net (self : t) (w : W) : t :=
  mk (dims self) w (use_target self) (q_target self)
     (target_frequency self) (epsilon_init self) (epsilon self)
     (epsilon_decay self) (gamma self) (memory self) (replay self)
     (start_updating self) (batch_size self) (descent_frequency self)
     (update_frequency self) (optimizer self).

Definition set_optimizer (self : t) (o : Opt) : t :=
  mk (dims self) (q_net self) (use_target self) (q_target self)
     (target_frequency self) (epsilon_init self) (epsilon self)
     (epsilon_decay self) (gamma self) (memory self) (replay self)
     (start_updating self) (batch_size self) (descent_frequency self)
     (update_frequency self) o.

(** [__init__]: no argument is checked; the only call that can raise is
    the deque constructor inside [ExperienceReplay(memory)]. *)
Definition init (dims : list Z) (epsilon epsilon_decay gamma : F)
    (memory start_updating batch_size : Z) (learning_rate : F)
    (descent_frequency update_frequency : Z)
    (use_target : bool) (target_frequency : Z) : result t :=
  let q_net := create_mlp dims in
  let q_target := if use_target then Some (clone_model q_net) else None in
  let target_frequency :=
    if use_target then Some target_frequency else None in
  replay ← ExperienceReplay.init memory;
  mret (mk dims q_net use_target q_target target_frequency
           epsilon epsilon epsilon_decay gamma
           memory replay start_updating
           batch_size descent_frequency update_frequency
           (adam learning_rate)).

(** [act]: the condition [not evaluation and uniform() < epsilon] draws
    from the generator only when [evaluation] is false. *)
Definition act (self : t) (g : G) (state : list F) (evaluation : bool)
    : result (Z * G) :=
  let '(explore, g1) :=
    if negb evaluation then
      let '(u, g1) := uniform g in (ltb u (epsilon self), g1)
    else (false, g) in
  if explore then
    n ← py_last (dims self);
    np_random_randint g1 0 n
  else
    let output := call (q_net self) state in
    a ← tf_argmax output;
    mret (a, g1).

(** The [while not done] loop of [simulate]; [done] is false on entry. *)
Fixpoint simulate_loop (fuel : nat) (self : t) (env : E) (g : G)
    (render evaluation : bool) (state : list F)
    (iters : Z) (total_rwd : F) (states : list (list F))
    : result (Z * F * list (list F) * t * E * G) :=
  match fuel with
  | O => OutOfFuel
  | S fuel' =>
      let env1 := if render then env_render env else env in
      '(action, g1) ← act self g state evaluation;
      let '(new_state, reward, done, env2) := env_step env1 action in
      let record :=
        ExperienceReplay.mkExperience state action reward done new_state in
      let self1 :=
        set_replay self (ExperienceReplay.append (replay self) record) in
      let iters1 := iters + 1 in
      let total_rwd1 := add total_rwd reward in
      let states1 := states ++ [new_state] in
      if done then Ok (iters1, total_rwd1, states1, self1, env2, g1)
      else simulate_loop fuel' self1 env2 g1 render evaluation
             new_state iters1 total_rwd1 states1
  end.

Definition simulate (fuel : nat) (self : t) (env : E) (g : G)
    (render evaluation graph : bool) (path : option string)
    : result (Z * F * list (list F) * t * E * G) :=
  let '(state, env0) := env_reset env in
  '(iters, total_rwd, states, self1, env1, g1) ←
    simulate_loop fuel self env0 g render evaluation state 0 zero [];
  let env2 := if render then env_show env1 graph path else env1 in
  mret (iters, total_rwd, states, self1, env2, g1).

(** [self.q_target.set_weights(self.q_net.get_weights())] when targets are
    in use and [updates % target_frequency == 0]. *)
Definition sync_target (self : t) (updates : Z) : result t :=
  if use_target self then
    target_frequency ← of_option AttributeError (target_frequency self);
    m ← py_mod updates target_frequency;
    if m =? 0 then
      _ ← of_option AttributeError (q_target self);
      mret (set_q_target self (q_net self))
    else mret self
  else mret self.

(** [[q[act] for q, act in zip(self.q_net(states), actions)]]. *)
Definition this_Q (self : t) (b : Batch) : result (list F) :=
  mapM (M := result) (fun qa : list F * Z => tensor_item qa.1 qa.2)
    (zip (call (q_net self) <$> ExperienceReplay.states b)
         (ExperienceReplay.actions b)).

(** The network whose maxima bootstrap the targets. *)
Definition bootstrap_net (self : t) : result W :=
  if use_target self then of_option AttributeError (q_target self)
  else Ok (q_net self).

(** [tf.reduce_max(Q'(new_states), axis=-1)]. *)
Definition next_Q (self : t) (b : Batch) : result (list F) :=
  w ← bootstrap_net self;
  mret (reduce_max ∘ call w <$> ExperienceReplay.next_states b).

(** [y = np.where(dones, rewards, np.array(rewards) + gamma * next_Q)]. *)
Definition bellman_y (gamma : F) (b : Batch) (next_Q : list F) : list F :=
  np_where (ExperienceReplay.dones b) (ExperienceReplay.rewards b)
    (zip_with add (ExperienceReplay.rewards b) (mul gamma <$> next_Q)).

(** [tf.reduce_mean(tf.math.square(y - this_Q))]. *)
Definition bellman_loss (y this_Q : list F) : F :=
  reduce_mean (square <$> zip_with sub y this_Q).

(** One pass of the [for updates in range(descent_frequency)] body. *)
Definition descent_iteration (self : t) (g : G) (gamma : F) (updates : Z)
    : result (F * t * G) :=
  '(b, g1) ← ExperienceReplay.sample (replay self) g (batch_size self);
  self1 ← sync_target self updates;
  this_Q ← this_Q self1 b;
  next_Q ← next_Q self1 b;
  let y := bellman_y gamma b next_Q in
  let loss := bellman_loss y this_Q in
  let '(opt, w) :=
    apply_gradients (optimizer self1) (q_net self1)
      (ExperienceReplay.states b) (ExperienceReplay.actions b) y in
  mret (loss, set_optimizer (set_q_net self1 w) opt, g1).

(** The descent loop; [loss] is unbound until the first pass assigns it. *)
Fixpoint descent_loop (self : t) (g : G) (gamma : F) (indices : list Z)
    (loss : option F) : result (option F * t * G) :=
  match indices with
  | [] => Ok (loss, self, g)
  | updates :: rest =>
      '(l, self1, g1) ← descent_iteration self g gamma updates;
      descent_loop self1 g1 gamma rest (Some l)
  end.

Definition _update_weights (self : t) (g : G) (gamma : F)
    : result (F * t * G) :=
  '(loss, self1, g1) ←
    descent_loop self g gamma (py_range (descent_frequency self)) None;
  l ← of_option UnboundLocalError loss;
  mret (l, self1, g1).

(** [epsilon_init * np.power(epsilon_decay, step / total_steps)]. *)
Definition _epsilon (self : t) (step total_steps : Z) : result F :=
  if total_steps =? 0 then Raise ZeroDivisionError
  else Ok (mul (epsilon_init self)
               (power (epsilon_decay self) (truediv step total_steps))).

(** The body of [for episode in range(episodes)] in [train]. *)
Definition train_episode (fuel : nat) (self : t) (env : E) (g : G)
    (episodes render_frequency : Z) (summary : bool) (episode : Z)
    : result (t * E * G) :=
  e ← _epsilon self episode episodes;
  let self1 := set_epsilon self e in
  r ← py_mod episode render_frequency;
  '(iters, total_rwd, _, self2, env2, g2) ←
    simulate fuel self1 env g (r =? 0) false summary None;
  update ←
    (if start_updating self2 <=? ExperienceReplay.len (replay self2) then
       m ← py_mod episode (update_frequency self2);
       mret (m =? 0)
     else mret false);
  if update : bool then
    '(loss, self3, g3) ← _update_weights self2 g2 (gamma self2);
    mret (self3, env2, g3)
  else mret (self2, env2, g2).

Fixpoint train_loop (fuel : nat) (self : t) (env : E) (g : G)
    (episodes render_frequency : Z) (summary : bool) (indices : list Z)
    : result (t * E * G) :=
  match indices with
  | [] => Ok (self, env, g)
  | episode :: rest =>
      '(self1, env1, g1) ←
        train_episode fuel self env g episodes render_frequency summary
          episode;
      train_loop fuel self1 env1 g1 episodes render_frequency summary rest
  end.

Definition train (fuel : nat) (self : t) (env : E) (g : G)
    (episodes render_frequency : Z) (summary : bool) : result (t * E * G) :=
  train_loop fuel self env g episodes render_frequency summary
    (py_range episodes).

(** The files under a path: TensorFlow checkpoints by prefix, and ordinary
    files by name.  Names are the strings the code passes, compared as
    written: two spellings of one location are two names here, so the model
    is of calls that spell each location one way. *)
Record FileSystem := mkFS {
  checkpoints : gmap string W;
  files : gmap string B
}.

(** [save], into a directory that exists and can be written. *)
Definition save (self : t) (fs : FileSystem) (path : string) : FileSystem :=
  let fs1 := mkFS (<[path := q_net self]> (checkpoints fs)) (files fs) in
  mkFS (checkpoints fs1)
       (<[path +:+ "experience.pk" := pickle_dumps (replay self)]> (files fs1)).

(** [load]: TensorFlow's NotFoundError when there is no checkpoint under
    the path, [open]'s FileNotFoundError when the pickle file is missing.
    The model is of pickle files that hold a replay buffer or cannot be
    read. *)
Definition load (self : t) (fs : FileSystem) (path : string) : result t :=
  saved ← of_option NotFoundError (checkpoints fs !! path);
  w ← (if same_architecture (q_net self) saved then Ok saved
       else load_mismatched (q_net self) saved);
  let self1 := set_q_net self w in
  file ← of_option FileNotFoundError (files fs !! (path +:+ "experience.pk"));
  replay ← of_option UnpicklingError (pickle_loads file);
  mret (set_replay self1 replay).

Definition clear_experience (self : t) : result t :=
  replay ← ExperienceReplay.init (memory self);
  mret (set_replay self replay).

(** The assignments to [self] the methods are made of: a whole [simulate],
    one pass of the descent loop, the assignment of [epsilon] at the start
    of an episode of [train], [load] and [clear_experience].  ([act] and
    [save] assign nothing.) *)
Inductive step : t -> t -> Prop :=
| step_simulate fuel self env g render evaluation graph path
      iters total_rwd states self' env' g' :
    simulate fuel self env g render evaluation graph path =
      Ok (iters, total_rwd, states, self', env', g') ->
    step self self'
| step_descent self g gamma updates loss self' g' :
    descent_iteration self g gamma updates = Ok (loss, self', g') ->
    step self self'
| step_epsilon self episode episodes e :
    0 <= episode < episodes ->
    _epsilon self episode episodes = Ok e ->
    step self (set_epsilon self e)
| step_load self fs path self' :
    load self fs path = Ok self' ->
    step self self'
| step_clear self self' :
    clear_experience self = Ok self' ->
    step self self'.

(** The agent-state invariant on the exploration rate. *)
Definition epsilon_invariant (self : t) : Prop :=
  le zero (epsilon self) /\ le (epsilon self) (epsilon_init self).

(** The attributes [__init__] sets when [use_target] is true are there. *)
Definition target_defined (self : t) : Prop :=
  use_target self = true ->
  is_Some (q_target self) /\ is_Some (target_frequency self).

(** The same agent constructed with [use_target=False]: no target network
    and no target frequency. *)
Definition without_target (self : t) : t :=
  mk (dims self) (q_net self) false None None
     (epsilon_init self) (epsilon self) (epsilon_decay self) (gamma self)
     (memory self) (replay self) (start_updating self) (batch_size self)
     (descent_frequency self) (update_frequency self) (optimizer self).

(** What [_update_weights] returns, with the target network of the
    returned agent dropped. *)
Definition forget_target (r : result (F * t * G)) : result (F * t * G) :=
  '(loss, self, g) ← r; mret (loss, without_target self, g).

End Agent.

Arguments t : clear implicits.
Arguments FileSystem : clear implicits.

End DeepQNetwork.

(** ** A small world to run the agent in

    Real numbers for the floats, a two-action table for the network, an
    environment whose episodes end after one step, and a generator with
    fixed draws.  The theorems below hold for every instance of the
    interfaces; this one supplies concrete runs. *)

Module World.

(** [np.power] on the reals: [x ** 0 = 1], a positive base through [exp]
    and [ln], [x ** 1 = x], and 0 for what is left ([0 ** y] for the
    positive [y]; NumPy's nan and inf have no real value). *)
Definition real_power (x y : R) : R :=
  if Req_dec_T y 0 then 1%R
  else if Rlt_dec 0 x then Rpower x y
  else if Req_dec_T y 1 then x
  else 0%R.

Definition real_ltb (x y : R) : bool :=
  if Rlt_dec x y then true else false.

Definition real_sum (l : list R) : R := foldr Rplus 0%R l.

#[global] Instance real_numeric : Numeric R := {|
  zero := 0%R;
  one := 1%R;
  add := Rplus;
  sub := Rminus;
  mul := Rmult;
  truediv := fun a b => (IZR a / IZR b)%R;
  power := real_power;
  ltb := real_ltb;
  float32 := fun x => x;
  reduce_max := fun l => foldr Rmax (hd 0%R l) l;
  reduce_mean := fun l => (real_sum l / INR (length l))%R
|}.

(** The network is its output row, whatever the state; the optimizer step
    of this instance has learning rate 0. *)
#[global] Instance table_net : Approximator R (list R) unit := {|
  create_mlp := fun dims => replicate (Z.to_nat (default 0 (last dims))) 0%R;
  clone_model := fun w => replicate (length w) 0%R;
  call := fun w _ => w;
  same_architecture := fun w w' => bool_decide (length w = length w');
  load_mismatched := fun _ _ => Raise ValueError;
  adam := fun _ => tt;
  apply_gradients := fun o w _ _ _ => (o, w)
|}.

(** Every step ends the episode with reward 1; the state counts steps. *)
#[global] Instance one_step_env : Environment R nat := {|
  env_reset := fun e => ([0%R], e);
  env_step := fun e _ => (([1%R], 1%R, true), S e);
  env_render := fun e => e;
  env_show := fun e _ _ => e
|}.

(** The generator counts its draws: [uniform()] is 1/2, [randint] its lower
    bound, [permutation(n)] the reversed range. *)
#[global] Instance fixed_draws : RandomState R nat := {|
  uniform := fun g => ((/ 2)%R, S g);
  randint_draw := fun g low _ => (low, S g);
  permutation := fun g n => (reverse (seq 0 n), S g)
|}.

(** Pickling keeps the value. *)
#[global] Instance value_pickle
    : Pickle (ExperienceReplay.t R) (ExperienceReplay.t R) := {|
  pickle_dumps := fun r => r;
  pickle_loads := fun b => Some b
|}.

Abbreviation Agent := (DeepQNetwork.t R (list R) unit).

(** A transition with the given reward. *)
Definition transition (reward : R) (done : bool)
    : ExperienceReplay.Experience R :=
  ExperienceReplay.mkExperience [0%R] 0 reward done [1%R].

(** A buffer of capacity 3 holding one transition. *)
Definition one_record : ExperienceReplay.t R :=
  ExperienceReplay.mk (Deque.mk 3 [transition 1 true]).

(** The buffer of capacity 3 after transitions with rewards 1 to 4 were
    appended: it holds the last three. *)
Definition last_three : ExperienceReplay.t R :=
  ExperienceReplay.mk
    (Deque.mk 3 [transition 2 false; transition 3 false; transition 4 true]).

(** Four transitions with rewards 1, 2, 3 and 4. *)
Definition four_records : list (ExperienceReplay.Experience R) :=
  [transition 1 false; transition 2 false; transition 3 false;
   transition 4 true].

(** The agent [DeepQNetwork([1, 2], epsilon, epsilon_decay, 1, memory,
    start_updating, batch_size, 0.001, 1, update_frequency, False, 1)]
    of this world. *)
Definition agent (epsilon epsilon_decay : R)
    (memory start_updating batch_size update_frequency : Z) : Agent :=
  DeepQNetwork.mk [1; 2] [0%R; 0%R] false None None
    epsilon epsilon epsilon_decay 1%R
    memory (ExperienceReplay.mk (Deque.mk memory []))
    start_updating batch_size 1 update_frequency tt.

(** An agent whose network scores three actions 1, 3 and 3, with the
    given exploration rate. *)
Definition tied (epsilon : R) : Agent :=
  DeepQNetwork.set_q_net (agent epsilon (/ 2) 3 1 1 1) [1%R; 3%R; 3%R].

(** One sampled non-terminal transition with reward 1. *)
Definition one_sample : ExperienceReplay.Batch R :=
  ExperienceReplay.mkBatch [[0%R]] [0] [1%R] [false] [[1%R]].

(** An agent with one record in its buffer, and with a target network
    scoring 5 and 5 when [use_target] is set. *)
Definition learner (batch_size descent_frequency : Z) (use_target : bool)
    (target_frequency : Z) : Agent :=
  DeepQNetwork.mk [1; 2] [0%R; 0%R] use_target
    (if use_target then Some [5%R; 5%R] else None)
    (if use_target then Some target_frequency else None)
    1%R 1%R (/ 2)%R 1%R
    3 one_record 1 batch_size descent_frequency 1 tt.

(** A buffer holding a terminal transition with reward 5 and a
    non-terminal one with reward 1. *)
Definition two_records : ExperienceReplay.t R :=
  ExperienceReplay.mk (Deque.mk 3 [transition 5 true; transition 1 false]).

(** An agent over that buffer, without a target network, whose network
    scores 2 and 0; each of its two descent passes samples both records. *)
Definition regressor : Agent :=
  DeepQNetwork.mk [1; 2] [2%R; 0%R] false None None
    1%R 1%R (/ 2)%R (9 / 10)%R
    3 two_records 1 2 2 1 tt.

(** What [sample(2)] returns on that buffer: the generator's permutation
    is 1, 0. *)
Definition both_sampled : ExperienceReplay.Batch R :=
  ExperienceReplay.mkBatch [[0%R]; [0%R]] [0; 0] [1%R; 5%R] [false; true]
    [[1%R]; [1%R]].

(** No file saved yet. *)
Definition no_files
    : DeepQNetwork.FileSystem (list R) (ExperienceReplay.t R) :=
  DeepQNetwork.mkFS ∅ ∅.

End World.

(** * Properties

    ** The bounded deque *)

Section DequeFacts.
Context {A : Type}.

Lemma deque_append_items (d : Deque.t A) (x : A) :
  0 <= Deque.maxlen d ->
  (length (Deque.items d) <= Z.to_nat (Deque.maxlen d))%nat ->
  Deque.items (Deque.append d x) =
    drop (length (Deque.items d ++ [x]) - Z.to_nat (Deque.maxlen d))
         (Deque.items d ++ [x]).
Proof.
  intros Hc Hlen. unfold Deque.append. cbn [Deque.items Deque.maxlen].
  rewrite length_app in *. cbn [length] in *.
  destruct (Z.ltb_spec (Deque.maxlen d) (Z.of_nat (length (Deque.items d) + 1))) as [Hlt|Hge].
  - replace (length (Deque.items d) + 1 - Z.to_nat (Deque.maxlen d))%nat with 1%nat by lia.
    reflexivity.
  - replace (length (Deque.items d) + 1 - Z.to_nat (Deque.maxlen d))%nat with 0%nat by lia.
    reflexivity.
Qed.

Lemma deque_append_maxlen (d : Deque.t A) (x : A) :
  Deque.maxlen (Deque.append d x) = Deque.maxlen d.
Proof. reflexivity. Qed.

Lemma deque_foldl_append (xs : list A) : forall d : Deque.t A,
  0 <= Deque.maxlen d ->
  (length (Deque.items d) <= Z.to_nat (Deque.maxlen d))%nat ->
  Deque.maxlen (foldl Deque.append d xs) = Deque.maxlen d /\
  Deque.items (foldl Deque.append d xs) =
    drop (length (Deque.items d ++ xs) - Z.to_nat (Deque.maxlen d))
         (Deque.items d ++ xs).
Proof.
  induction xs as [|x xs IH]; intros d Hc Hlen; cbn [foldl].
  - split; [reflexivity|]. rewrite app_nil_r.
    replace (length (Deque.items d) - Z.to_nat (Deque.maxlen d))%nat with 0%nat by lia.
    reflexivity.
  - pose proof (deque_append_items d x Hc Hlen) as Hit.
    assert (Hlen' : (length (Deque.items (Deque.append d x)) <= Z.to_nat (Deque.maxlen d))%nat).
    { rewrite Hit, length_drop. lia. }
    destruct (IH (Deque.append d x)) as [Hm Hi];
      [rewrite deque_append_maxlen; exact Hc
      |rewrite deque_append_maxlen; exact Hlen'|].
    rewrite deque_append_maxlen in Hm, Hi.
    split; [exact Hm|]. rewrite Hi, Hit.
    set (c := Z.to_nat (Deque.maxlen d)) in *.
    set (l := Deque.items d) in *.
    assert (Hl1 : length (l ++ [x]) = S (length l)) by (rewrite length_app; cbn; lia).
    assert (Hl2 : length (l ++ x :: xs) = (length l + S (length xs))%nat)
      by (rewrite length_app; cbn; lia).
    rewrite Hl1, Hl2.
    destruct (decide (S (length l) <= c)%nat) as [Hle|Hgt].
    + replace (S (length l) - c)%nat with 0%nat by lia. rewrite drop_0.
      rewrite <- (assoc_L (++) l [x] xs). cbn [app].
      rewrite Hl2. reflexivity.
    + assert (length l = c) by lia.
      replace (S (length l) - c)%nat with 1%nat by lia.
      assert (Hd : drop 1 (l ++ [x]) ++ xs = drop 1 (l ++ x :: xs)).
      { rewrite (cons_middle x l xs), (assoc_L (++) l [x] xs).
        rewrite (drop_app_le (l ++ [x]) xs 1); [reflexivity|]. lia. }
      rewrite Hd, drop_drop, length_drop, Hl2. f_equal. lia.
Qed.
End DequeFacts.

(** ** ExperienceReplay.append *)

Section ReplayAppend.
Context {F : Type}.

Abbreviation Experience := (ExperienceReplay.Experience F).

Lemma appended_buffer (xs : list Experience) : forall r : ExperienceReplay.t F,
  ExperienceReplay.buffer (ExperienceReplay.appended r xs) =
  foldl Deque.append (ExperienceReplay.buffer r) xs.
Proof.
  induction xs as [|x xs IH]; intros r; [reflexivity|].
  unfold ExperienceReplay.appended in *. cbn [foldl]. rewrite IH. reflexivity.
Qed.

Lemma appended_fresh (C : Z) (xs : list Experience) :
  0 <= C ->
  Deque.items (ExperienceReplay.buffer
                 (ExperienceReplay.appended (ExperienceReplay.mk (Deque.mk C [])) xs)) =
  drop (length xs - Z.to_nat C) xs.
Proof.
  intros HC. rewrite appended_buffer.
  destruct (deque_foldl_append xs (Deque.mk C [])) as [_ Hi];
    cbn [Deque.maxlen Deque.items length]; [lia|lia|].
  exact Hi.
Qed.

(** C2. Starting from a fresh buffer of capacity [C >= 1], after any
    sequence [xs] of appends, and after every prefix of it, the length is
    at most [C]; the length is [min (length xs) C] and the contents are the
    last that many records of [xs], in insertion order. *)
Theorem append_keeps_last_records (C : Z) (xs : list Experience) :
  1 <= C ->
  exists r0 : ExperienceReplay.t F,
    ExperienceReplay.init C = Ok r0 /\
    (forall n : nat, ExperienceReplay.len (ExperienceReplay.appended r0 (take n xs)) <= C) /\
    ExperienceReplay.len (ExperienceReplay.appended r0 xs) = Z.min (Z.of_nat (length xs)) C /\
    Deque.items (ExperienceReplay.buffer (ExperienceReplay.appended r0 xs)) =
      drop (length xs - Z.to_nat C) xs.
Proof.
  intros HC. exists (ExperienceReplay.mk (Deque.mk C [])).
  assert (Hlen : forall ys : list Experience,
    ExperienceReplay.len (ExperienceReplay.appended (ExperienceReplay.mk (Deque.mk C [])) ys) =
    Z.min (Z.of_nat (length ys)) C).
  { intros ys. unfold ExperienceReplay.len, Deque.len.
    rewrite appended_fresh, length_drop by lia. lia. }
  split; [|split; [|split]].
  - unfold ExperienceReplay.init, Deque.create.
    destruct (Z.ltb_spec C 0); [lia|reflexivity].
  - intros n. rewrite Hlen. lia.
  - apply Hlen.
  - apply appended_fresh. lia.
Qed.

End ReplayAppend.

(** ** ExperienceReplay.sample *)

Section ResultFacts.
Context {A B : Type}.

Lemma mapM_result_Forall2 (f : A -> result B) (l : list A) (k : list B) :
  Forall2 (fun x y => f x = Ok y) l k -> mapM (M := result) f l = Ok k.
Proof.
  induction 1 as [|x y l k Hxy _ IH]; [reflexivity|].
  change (mapM (M := result) f (x :: l))
    with (f x ≫= λ y', mapM (M := result) f l ≫= λ k', mret (y' :: k')).
  rewrite Hxy, IH. reflexivity.
Qed.

Lemma Forall2_lookup_total (items : list B) (indices : list nat) :
  Forall (fun i => (i < length items)%nat) indices ->
  exists records : list B,
    Forall2 (fun i r => items !! i = Some r) indices records.
Proof.
  induction 1 as [|i indices Hi _ [records IH]].
  - exists []. constructor.
  - destruct (lookup_lt_is_Some_2 items i Hi) as [r Hr].
    exists (r :: records). constructor; assumption.
Qed.

End ResultFacts.

Section ReplaySample.
Context {F G : Type} `{Numeric F} `{RandomState F G}.

Lemma np_random_choice_ok (g : G) (a size : Z) :
  1 <= size <= a ->
  np_random_choice g a size =
    Ok (take (Z.to_nat size) (permutation g (Z.to_nat a)).1,
        (permutation g (Z.to_nat a)).2).
Proof.
  intros Hk. unfold np_random_choice.
  destruct (Z.leb_spec a 0); [lia|]. cbn [andb].
  destruct (Z.ltb_spec a size); [lia|].
  destruct (Z.ltb_spec size 0); [lia|].
  destruct (permutation g (Z.to_nat a)). reflexivity.
Qed.

Lemma np_random_choice_larger (g : G) (a size : Z) :
  a < size -> np_random_choice g a size = Raise ValueError.
Proof.
  intros Hk. unfold np_random_choice.
  destruct ((a <=? 0) && negb (size =? 0)); [reflexivity|].
  destruct (Z.ltb_spec a size); [reflexivity|lia].
Qed.

Lemma drawn_indices (g : G) (n k : nat) :
  permutation_law -> (k <= n)%nat ->
  let indices := take k (permutation g n).1 in
  NoDup indices /\ length indices = k /\
  Forall (fun i => (i < n)%nat) indices.
Proof.
  intros Hperm Hk indices. subst indices.
  pose proof (Hperm g n) as Hp.
  assert (Hlen : length (permutation g n).1 = n)
    by (rewrite Hp; apply length_seq).
  split; [|split].
  - eapply sublist_NoDup; [|apply sublist_take].
    rewrite Hp. apply NoDup_seq.
  - rewrite length_take. lia.
  - apply Forall_forall. intros i Hi.
    apply (subseteq_take k) in Hi. rewrite Hp in Hi.
    apply elem_of_seq in Hi. lia.
Qed.

End ReplaySample.

(** ** Outcomes *)

Section Outcomes.
Context {A B : Type}.

Lemma bind_Ok (m : result A) (f : A -> result B) (b : B) :
  m ≫= f = Ok b -> exists a : A, m = Ok a /\ f a = Ok b.
Proof.
  destruct m as [a| |]; cbn; intros Hb; try discriminate.
  exists a. split; [reflexivity|exact Hb].
Qed.

Lemma of_option_Ok (e : exn) (o : option A) (a : A) :
  of_option e o = Ok a -> o = Some a.
Proof. destruct o; cbn; congruence. Qed.

End Outcomes.

Ltac bind_inv H :=
  let a := fresh "a" in
  let Ha := fresh "Ha" in
  apply bind_Ok in H; destruct H as (a & Ha & H).

(** ** What each method leaves alone *)

Section Frames.
Context {F W Opt E G : Type}.
Context `{Numeric F} `{Approximator F W Opt} `{Environment F E}.
Context `{RandomState F G}.

Abbreviation Agent := (DeepQNetwork.t F W Opt).

(** [simulate] assigns nothing but [self.replay]. *)
Lemma simulate_loop_frame (fuel : nat) :
  forall (self : Agent) (env : E) (g : G) (render evaluation : bool)
         (state : list F) (iters : Z) (total : F) (states : list (list F))
         iters' total' states' self' env' g',
  DeepQNetwork.simulate_loop fuel self env g render evaluation state
    iters total states = Ok (iters', total', states', self', env', g') ->
  self' = DeepQNetwork.set_replay self (DeepQNetwork.replay self').
Proof.
  induction fuel as [|fuel IH]; intros * Hrun; [discriminate|].
  cbn [DeepQNetwork.simulate_loop] in Hrun.
  bind_inv Hrun. destruct a as [action g1].
  destruct (env_step _ action) as [[[new_state reward] done] env2].
  destruct done.
  - injection Hrun as <- <- <- <- <- <-. destruct self; reflexivity.
  - apply IH in Hrun. rewrite Hrun at 1. destruct self; reflexivity.
Qed.

Lemma simulate_frame (fuel : nat) (self : Agent) (env : E) (g : G)
    (render evaluation graph : bool) (path : option string)
    iters total states self' env' g' :
  DeepQNetwork.simulate fuel self env g render evaluation graph path =
    Ok (iters, total, states, self', env', g') ->
  self' = DeepQNetwork.set_replay self (DeepQNetwork.replay self').
Proof.
  unfold DeepQNetwork.simulate. destruct (env_reset env) as [state env0].
  intros Hrun. bind_inv Hrun.
  destruct a as [[[[[iters1 total1] states1] self1] env1] g1].
  injection Hrun as <- <- <- <- <- <-.
  eapply simulate_loop_frame. exact Ha.
Qed.

(** The copy into the target network, when it happens, takes the online
    weights of that moment; nothing else is assigned. *)
Lemma sync_target_cases (self self1 : Agent) (updates : Z) :
  DeepQNetwork.sync_target self updates = Ok self1 ->
  self1 = self \/
  (DeepQNetwork.use_target self = true /\
   self1 = DeepQNetwork.set_q_target self (DeepQNetwork.q_net self)).
Proof.
  unfold DeepQNetwork.sync_target.
  destruct (DeepQNetwork.use_target self) eqn:Hu.
  - intros Hs. bind_inv Hs. bind_inv Hs.
    destruct (a0 =? 0).
    + bind_inv Hs. injection Hs as <-. right. split; reflexivity.
    + injection Hs as <-. left. reflexivity.
  - intros [= <-]. left. reflexivity.
Qed.

(** One pass of the descent loop, taken apart. *)
Lemma descent_iteration_inv (self self' : Agent) (g g' : G) (gamma loss : F)
    (updates : Z) :
  DeepQNetwork.descent_iteration self g gamma updates = Ok (loss, self', g') ->
  exists (b : ExperienceReplay.Batch F) (self1 : Agent) (tq nq : list F),
    ExperienceReplay.sample (DeepQNetwork.replay self) g
      (DeepQNetwork.batch_size self) = Ok (b, g') /\
    DeepQNetwork.sync_target self updates = Ok self1 /\
    DeepQNetwork.this_Q self1 b = Ok tq /\
    DeepQNetwork.next_Q self1 b = Ok nq /\
    let y := DeepQNetwork.bellman_y gamma b nq in
    loss = DeepQNetwork.bellman_loss y tq /\
    let step := apply_gradients (DeepQNetwork.optimizer self1)
                  (DeepQNetwork.q_net self1) (ExperienceReplay.states b)
                  (ExperienceReplay.actions b) y in
    self' = DeepQNetwork.set_optimizer
              (DeepQNetwork.set_q_net self1 step.2) step.1.
Proof.
  unfold DeepQNetwork.descent_iteration. intros Hit.
  bind_inv Hit. destruct a as [b g1].
  bind_inv Hit. bind_inv Hit. bind_inv Hit.
  exists b, a, a0, a1.
  destruct (apply_gradients _ _ _ _ _) as [opt w] eqn:Hstep.
  injection Hit as <- <- <-.
  repeat (split; [assumption || reflexivity|]).
  reflexivity.
Qed.

(** A pass of the descent loop samples from the buffer and leaves it as it
    was. *)
Lemma descent_iteration_replay (self self' : Agent) (g g' : G)
    (gamma loss : F) (updates : Z) :
  DeepQNetwork.descent_iteration self g gamma updates = Ok (loss, self', g') ->
  DeepQNetwork.replay self' = DeepQNetwork.replay self.
Proof.
  intros Hit. apply descent_iteration_inv in Hit.
  destruct Hit as (b & self1 & tq & nq & _ & Hsync & _ & _ & _ & ->).
  apply sync_target_cases in Hsync. destruct Hsync as [->|[_ ->]]; reflexivity.
Qed.

End Frames.

(** ** The Bellman targets of [_update_weights] *)

Section Bellman.
Context {F W Opt : Type} `{Numeric F} `{Approximator F W Opt}.

Lemma np_where_lookup (c : list bool) (x y : list F) (i : nat)
    (d : bool) (xi yi : F) :
  c !! i = Some d -> x !! i = Some xi -> y !! i = Some yi ->
  np_where c x y !! i = Some (if d then xi else yi).
Proof.
  intros Hc Hx Hy. unfold np_where.
  assert (Hz : zip x y !! i = Some (xi, yi)).
  { rewrite lookup_zip_with, Hx. cbn. rewrite Hy. reflexivity. }
  rewrite lookup_zip_with, Hc. cbn [mbind option_bind].
  rewrite Hz. reflexivity.
Qed.

End Bellman.

(** ** The methods as sequences of steps *)

Section Steps.
Context {F W Opt E G B : Type}.
Context `{Numeric F} `{Approximator F W Opt} `{Environment F E}.
Context `{RandomState F G} `{Pickle (ExperienceReplay.t F) B}.

Abbreviation Agent := (DeepQNetwork.t F W Opt).
Abbreviation step := (DeepQNetwork.step (E := E) (G := G) (B := B)).

Lemma load_inv (self self' : Agent) (fs : DeepQNetwork.FileSystem W B)
    (path : string) :
  DeepQNetwork.load self fs path = Ok self' ->
  exists (saved w : W) (file : B) (r : ExperienceReplay.t F),
    DeepQNetwork.checkpoints fs !! path = Some saved /\
    (if same_architecture (DeepQNetwork.q_net self) saved then w = saved
     else load_mismatched (DeepQNetwork.q_net self) saved = Ok w) /\
    DeepQNetwork.files fs !! (path +:+ "experience.pk") = Some file /\
    pickle_loads file = Some r /\
    self' = DeepQNetwork.set_replay (DeepQNetwork.set_q_net self w) r.
Proof.
  unfold DeepQNetwork.load. intros Hl.
  bind_inv Hl. apply of_option_Ok in Ha.
  bind_inv Hl. bind_inv Hl. apply of_option_Ok in Ha1.
  bind_inv Hl. apply of_option_Ok in Ha2. injection Hl as <-.
  exists a, a0, a1, a2. split; [exact Ha|]. split.
  - destruct (same_architecture _ a); [congruence|exact Ha0].
  - repeat (split; [assumption|]). reflexivity.
Qed.

Lemma clear_experience_inv (self self' : Agent) :
  DeepQNetwork.clear_experience self = Ok self' ->
  exists r : ExperienceReplay.t F,
    ExperienceReplay.init (DeepQNetwork.memory self) = Ok r /\
    self' = DeepQNetwork.set_replay self r.
Proof.
  unfold DeepQNetwork.clear_experience. intros Hc. bind_inv Hc.
  injection Hc as <-. exists a. split; [exact Ha|reflexivity].
Qed.

(** A step leaves the target weights alone or replaces them by the online
    weights the step started with. *)
Lemma step_q_target (self self' : Agent) :
  step self self' ->
  DeepQNetwork.q_target self' = DeepQNetwork.q_target self \/
  DeepQNetwork.q_target self' = Some (DeepQNetwork.q_net self).
Proof.
  intros [fuel s env g render evaluation graph path iters total states s' env' g' Hrun
         |s g gamma updates loss s' g' Hit
         |s episode episodes e _ _
         |s fs path s' Hl
         |s s' Hc].
  - apply simulate_frame in Hrun. rewrite Hrun. left. reflexivity.
  - apply descent_iteration_inv in Hit.
    destruct Hit as (b & s1 & tq & nq & _ & Hsync & _ & _ & _ & ->).
    apply sync_target_cases in Hsync. destruct Hsync as [->|[_ ->]].
    + left. reflexivity.
    + right. reflexivity.
  - left. reflexivity.
  - apply load_inv in Hl. destruct Hl as (saved & w & file & r & _ & _ & _ & _ & ->).
    left. reflexivity.
  - apply clear_experience_inv in Hc. destruct Hc as (r & _ & ->).
    left. reflexivity.
Qed.

Lemma descent_loop_steps (indices : list Z) :
  forall (self self' : Agent) (g g' : G) (gamma : F) (loss loss' : option F),
  DeepQNetwork.descent_loop self g gamma indices loss = Ok (loss', self', g') ->
  rtc step self self'.
Proof.
  induction indices as [|updates rest IH]; intros * Hrun.
  - injection Hrun as <- <- <-. apply rtc_refl.
  - cbn [DeepQNetwork.descent_loop] in Hrun. bind_inv Hrun.
    destruct a as [[l self1] g1].
    eapply rtc_l; [|eapply IH; exact Hrun].
    eapply DeepQNetwork.step_descent. exact Ha.
Qed.

Lemma _update_weights_steps (self self' : Agent) (g g' : G) (gamma loss : F) :
  DeepQNetwork._update_weights self g gamma = Ok (loss, self', g') ->
  rtc step self self'.
Proof.
  unfold DeepQNetwork._update_weights. intros Hrun. bind_inv Hrun.
  destruct a as [[l self1] g1]. bind_inv Hrun. injection Hrun as <- <- <-.
  eapply descent_loop_steps. exact Ha.
Qed.

Lemma train_episode_steps (fuel : nat) (self self' : Agent) (env env' : E)
    (g g' : G) (episodes render_frequency episode : Z) (summary : bool) :
  0 <= episode < episodes ->
  DeepQNetwork.train_episode fuel self env g episodes render_frequency
    summary episode = Ok (self', env', g') ->
  rtc step self self'.
Proof.
  intros Hep. unfold DeepQNetwork.train_episode. intros Hrun.
  apply bind_Ok in Hrun. destruct Hrun as (e & He & Hrun).
  apply bind_Ok in Hrun. destruct Hrun as (r & _ & Hrun).
  apply bind_Ok in Hrun. destruct Hrun as (sim & Hsim & Hrun).
  destruct sim as [[[[[iters total] states] self2] env2] g2].
  apply bind_Ok in Hrun. destruct Hrun as (update & _ & Hrun).
  eapply rtc_l; [eapply DeepQNetwork.step_epsilon; [exact Hep|exact He]|].
  eapply rtc_l; [eapply DeepQNetwork.step_simulate; exact Hsim|].
  destruct update.
  - apply bind_Ok in Hrun. destruct Hrun as (upd & Hupd & Hrun).
    destruct upd as [[loss self3] g3].
    injection Hrun as <- <- <-.
    eapply _update_weights_steps. exact Hupd.
  - injection Hrun as <- <- <-. apply rtc_refl.
Qed.

Lemma train_loop_steps (fuel : nat) (episodes render_frequency : Z)
    (summary : bool) (indices : list Z) :
  Forall (fun episode => 0 <= episode < episodes) indices ->
  forall (self self' : Agent) (env env' : E) (g g' : G),
  DeepQNetwork.train_loop fuel self env g episodes render_frequency summary
    indices = Ok (self', env', g') ->
  rtc step self self'.
Proof.
  induction 1 as [|episode rest Hep _ IH]; intros * Hrun.
  - injection Hrun as <- <- <-. apply rtc_refl.
  - cbn [DeepQNetwork.train_loop] in Hrun. bind_inv Hrun.
    destruct a as [[self1 env1] g1].
    etransitivity; [eapply train_episode_steps; [exact Hep|exact Ha]|].
    eapply IH. exact Hrun.
Qed.

Lemma py_range_bounds (n : Z) : Forall (fun i => 0 <= i < n) (py_range n).
Proof.
  unfold py_range. apply Forall_fmap, Forall_forall. intros i Hi.
  apply elem_of_seq in Hi. cbn. lia.
Qed.

Lemma train_steps (fuel : nat) (self self' : Agent) (env env' : E)
    (g g' : G) (episodes render_frequency : Z) (summary : bool) :
  DeepQNetwork.train fuel self env g episodes render_frequency summary =
    Ok (self', env', g') ->
  rtc step self self'.
Proof.
  unfold DeepQNetwork.train. apply train_loop_steps, py_range_bounds.
Qed.

(** C5. Every step leaves the target weights alone or overwrites them with
    the online weights of that moment, so after any run of steps (such as
    [_update_weights] and [train], which are runs of steps) the target
    weights are the initial ones or the online weights of a state the run
    went through; the gradient step of a pass writes the online weights
    only.  Right after the copy of a pass, the target network is the online
    network, so both give the same output on every state. *)
Theorem target_only_copied :
  (forall self self' : Agent,
     rtc step self self' ->
     DeepQNetwork.q_target self' = DeepQNetwork.q_target self \/
     exists s : Agent,
       rtc step self s /\ rtc step s self' /\
       DeepQNetwork.q_target self' = Some (DeepQNetwork.q_net s)) /\
  (forall (self self' : Agent) (g g' : G) (gamma loss : F),
     DeepQNetwork._update_weights self g gamma = Ok (loss, self', g') ->
     rtc step self self') /\
  (forall (fuel : nat) (self self' : Agent) (env env' : E) (g g' : G)
          (episodes render_frequency : Z) (summary : bool),
     DeepQNetwork.train fuel self env g episodes render_frequency summary =
       Ok (self', env', g') ->
     rtc step self self') /\
  (forall (self self1 : Agent) (updates target_frequency : Z),
     DeepQNetwork.use_target self = true ->
     DeepQNetwork.target_frequency self = Some target_frequency ->
     py_mod updates target_frequency = Ok 0 ->
     DeepQNetwork.sync_target self updates = Ok self1 ->
     DeepQNetwork.q_net self1 = DeepQNetwork.q_net self /\
     exists Q' : W,
       DeepQNetwork.q_target self1 = Some Q' /\
       DeepQNetwork.bootstrap_net self1 = Ok Q' /\
       forall state : list F,
         call Q' state = call (DeepQNetwork.q_net self1) state).
Proof.
  split; [|split; [|split]].
  - intros self self' Hrun.
    induction Hrun as [|self s self' Hstep Hrest IH].
    + left. reflexivity.
    + destruct IH as [Hsame|(s0 & Hs0 & Hs0' & Hq)].
      * destruct (step_q_target _ _ Hstep) as [Hq|Hq].
        -- left. congruence.
        -- right. exists self. split; [apply rtc_refl|]. split.
           ++ eapply rtc_l; eassumption.
           ++ congruence.
      * right. exists s0. split; [eapply rtc_l; eassumption|].
        split; assumption.
  - intros *. apply _update_weights_steps.
  - intros *. apply train_steps.
  - intros self self1 updates tf Hu Htf Hmod Hsync.
    unfold DeepQNetwork.sync_target in Hsync.
    rewrite Hu, Htf in Hsync. cbn in Hsync. rewrite Hmod in Hsync.
    cbn in Hsync. bind_inv Hsync. injection Hsync as <-.
    split; [reflexivity|]. exists (DeepQNetwork.q_net self).
    split; [reflexivity|]. split; [|reflexivity].
    unfold DeepQNetwork.bootstrap_net. cbn. rewrite Hu. reflexivity.
Qed.

End Steps.

(** ** Greedy action selection *)

Section Argmax.
Context {F : Type} `{Numeric F}.
Hypothesis order : order_laws.

Lemma ltb_asym (x y : F) : ltb x y = true -> ltb y x = false.
Proof.
  destruct order as (Hirr & Htrans & _). intros Hxy.
  destruct (ltb y x) eqn:Hyx; [|reflexivity].
  pose proof (Htrans x y x Hxy Hyx) as Hxx. rewrite Hirr in Hxx. discriminate.
Qed.

(** The scan returns the index it started with when no later entry is
    larger, and otherwise the first index of the largest later entry. *)
Lemma argmax_from_spec (l : list F) : forall (best : F) (besti i : Z),
  (argmax_from best besti i l = besti /\
   Forall (fun x => ltb best x = false) l) \/
  (exists (k : nat) (x : F),
     argmax_from best besti i l = i + Z.of_nat k /\
     l !! k = Some x /\ ltb best x = true /\
     (forall (j : nat) (y : F), l !! j = Some y -> ltb x y = false) /\
     (forall (j : nat) (y : F),
        (j < k)%nat -> l !! j = Some y -> ltb y x = true)).
Proof.
  destruct order as (Hirr & Htrans & Hle).
  induction l as [|x r IH]; intros best besti i; cbn [argmax_from].
  - left. split; [reflexivity|constructor].
  - destruct (ltb best x) eqn:Hbx.
    + right. destruct (IH x i (i + 1)) as [[Hr Hall]|(k & m & Hr & Hk & Hxm & Hmax & Hfirst)].
      * exists 0%nat, x. rewrite Hr. split; [lia|]. split; [reflexivity|].
        split; [exact Hbx|]. split.
        -- intros [|j] y Hy; cbn in Hy.
           ++ injection Hy as <-. apply Hirr.
           ++ rewrite Forall_forall in Hall. apply Hall.
              eapply list_elem_of_lookup_2. exact Hy.
        -- intros j y Hj. lia.
      * exists (S k), m. rewrite Hr. split; [lia|]. split; [exact Hk|].
        split; [eapply Htrans; eassumption|]. split.
        -- intros [|j] y Hy; cbn in Hy.
           ++ injection Hy as <-. apply ltb_asym. exact Hxm.
           ++ eapply Hmax. exact Hy.
        -- intros [|j] y Hj Hy; cbn in Hy.
           ++ injection Hy as <-. exact Hxm.
           ++ eapply Hfirst; [|exact Hy]. lia.
    + destruct (IH best besti (i + 1)) as [[Hr Hall]|(k & m & Hr & Hk & Hbm & Hmax & Hfirst)].
      * left. split; [exact Hr|]. constructor; assumption.
      * right. exists (S k), m. rewrite Hr. split; [lia|]. split; [exact Hk|].
        split; [exact Hbm|]. split.
        -- intros [|j] y Hy; cbn in Hy.
           ++ injection Hy as <-.
              destruct (ltb m x) eqn:Hmx; [|reflexivity].
              rewrite (Htrans best m x Hbm Hmx) in Hbx. discriminate.
           ++ eapply Hmax. exact Hy.
        -- intros [|j] y Hj Hy; cbn in Hy.
           ++ injection Hy as <-.
              destruct (ltb x m) eqn:Hxm; [reflexivity|].
              pose proof (Hle m x best Hxm Hbx) as Hmb.
              unfold le in Hmb. rewrite Hbm in Hmb. discriminate.
           ++ eapply Hfirst; [|exact Hy]. lia.
Qed.

(** [tf.argmax] of a non-empty vector is the lowest index of a maximum. *)
Lemma tf_argmax_lowest (output : list F) :
  output <> [] ->
  exists (a : Z) (m : F),
    tf_argmax output = Ok a /\ 0 <= a /\
    output !! Z.to_nat a = Some m /\
    (forall (j : nat) (y : F), output !! j = Some y -> le y m) /\
    (forall (j : nat) (y : F),
       (j < Z.to_nat a)%nat -> output !! j = Some y -> ltb y m = true).
Proof.
  destruct order as (Hirr & Htrans & Hle).
  destruct output as [|x r]; [congruence|]. intros _. cbn [tf_argmax].
  destruct (argmax_from_spec r x 0 1)
    as [[Hr Hall]|(k & m & Hr & Hk & Hxm & Hmax & Hfirst)].
  - exists 0, x. rewrite Hr. split; [reflexivity|]. split; [lia|].
    split; [reflexivity|]. split.
    + intros [|j] y Hy; cbn in Hy.
      * injection Hy as <-. apply Hirr.
      * rewrite Forall_forall in Hall. apply Hall.
        eapply list_elem_of_lookup_2. exact Hy.
    + intros j y Hj. cbn in Hj. lia.
  - exists (1 + Z.of_nat k), m. rewrite Hr. split; [reflexivity|].
    split; [lia|].
    replace (Z.to_nat (1 + Z.of_nat k)) with (S k) by lia.
    split; [exact Hk|]. split.
    + intros [|j] y Hy; cbn in Hy.
      * injection Hy as <-. apply ltb_asym. exact Hxm.
      * eapply Hmax. exact Hy.
    + intros [|j] y Hj Hy; cbn in Hy.
      * injection Hy as <-. exact Hxm.
      * eapply Hfirst; [|exact Hy]. lia.
Qed.

End Argmax.

Section Act.
Context {F W Opt G : Type}.
Context `{Numeric F} `{Approximator F W Opt} `{RandomState F G}.

Lemma act_evaluation (self : DeepQNetwork.t F W Opt) (g : G) (state : list F) :
  DeepQNetwork.act self g state true =
  (a ← tf_argmax (call (DeepQNetwork.q_net self) state); mret (a, g)).
Proof. reflexivity. Qed.

(** C6. In evaluation mode two agents with the same online weights,
    whatever their [epsilon] and whatever the state of the random generator,
    pick the same action for a state, and draw nothing from the generator.
    With an ordered output of at least one action value, that action is the
    lowest index at which the output is maximal. *)
Theorem act_evaluation_deterministic (self self' : DeepQNetwork.t F W Opt)
    (g g' : G) (state : list F) :
  order_laws ->
  DeepQNetwork.q_net self = DeepQNetwork.q_net self' ->
  call (DeepQNetwork.q_net self) state <> [] ->
  exists (a : Z) (m : F),
    DeepQNetwork.act self g state true = Ok (a, g) /\
    DeepQNetwork.act self' g' state true = Ok (a, g') /\
    0 <= a /\
    call (DeepQNetwork.q_net self) state !! Z.to_nat a = Some m /\
    (forall (j : nat) (y : F),
       call (DeepQNetwork.q_net self) state !! j = Some y -> le y m) /\
    (forall (j : nat) (y : F),
       (j < Z.to_nat a)%nat ->
       call (DeepQNetwork.q_net self) state !! j = Some y -> ltb y m = true).
Proof.
  intros Horder Hnet Hout.
  destruct (tf_argmax_lowest Horder _ Hout)
    as (a & m & Harg & Ha & Hm & Hmax & Hfirst).
  exists a, m. rewrite !act_evaluation, <- Hnet, Harg.
  repeat (split; [reflexivity || assumption|]). exact Hfirst.
Qed.

End Act.

(** ** Epsilon annealing *)

Section Annealing.
Context {F W Opt E G B : Type}.
Context `{Numeric F} `{Approximator F W Opt} `{Environment F E}.
Context `{RandomState F G} `{Pickle (ExperienceReplay.t F) B}.

Abbreviation Agent := (DeepQNetwork.t F W Opt).
Abbreviation step := (DeepQNetwork.step (E := E) (G := G) (B := B)).

(** C4. For [N > 0], [_epsilon(step, N)] is
    [epsilon_init * epsilon_decay ** (step / N)]; at step 0 it is
    [epsilon_init] and at step [N] it is [epsilon_init * epsilon_decay]. *)
Theorem epsilon_annealing (self : Agent) (step N : Z) :
  unit_laws -> 0 < N ->
  DeepQNetwork._epsilon self step N =
    Ok (mul (DeepQNetwork.epsilon_init self)
            (power (DeepQNetwork.epsilon_decay self) (truediv step N))) /\
  DeepQNetwork._epsilon self 0 N = Ok (DeepQNetwork.epsilon_init self) /\
  DeepQNetwork._epsilon self N N =
    Ok (mul (DeepQNetwork.epsilon_init self) (DeepQNetwork.epsilon_decay self)).
Proof.
  intros (Hdiv & Hpow & Hmul) HN.
  assert (Hne : N <> 0) by lia.
  destruct (Hdiv N Hne) as [Hzero Hone].
  unfold DeepQNetwork._epsilon.
  destruct (Z.eqb_spec N 0) as [|_]; [lia|].
  split; [reflexivity|]. split.
  - rewrite Hzero. destruct (Hpow (DeepQNetwork.epsilon_decay self)) as [-> _].
    rewrite Hmul. reflexivity.
  - rewrite Hone. destruct (Hpow (DeepQNetwork.epsilon_decay self)) as [_ ->].
    reflexivity.
Qed.

(** A step keeps [epsilon_init] and [epsilon_decay], and keeps [epsilon]
    unless it is the assignment at the start of an episode. *)
Lemma step_rates (self self' : Agent) :
  step self self' ->
  DeepQNetwork.epsilon_init self' = DeepQNetwork.epsilon_init self /\
  DeepQNetwork.epsilon_decay self' = DeepQNetwork.epsilon_decay self /\
  (DeepQNetwork.epsilon self' = DeepQNetwork.epsilon self \/
   exists episode episodes : Z,
     0 <= episode < episodes /\
     DeepQNetwork._epsilon self episode episodes =
       Ok (DeepQNetwork.epsilon self')).
Proof.
  intros [fuel s env g render evaluation graph path iters total states s' env' g' Hrun
         |s g gamma updates loss s' g' Hit
         |s episode episodes e Hep He
         |s fs path s' Hl
         |s s' Hc].
  - apply simulate_frame in Hrun. rewrite Hrun. auto.
  - apply descent_iteration_inv in Hit.
    destruct Hit as (b & s1 & tq & nq & _ & Hsync & _ & _ & _ & ->).
    apply sync_target_cases in Hsync. destruct Hsync as [->|[_ ->]]; auto.
  - split; [reflexivity|]. split; [reflexivity|].
    right. exists episode, episodes. split; assumption.
  - apply load_inv in Hl. destruct Hl as (saved & w & file & r & _ & _ & _ & _ & ->).
    auto.
  - apply clear_experience_inv in Hc. destruct Hc as (r & _ & ->). auto.
Qed.

Lemma annealed_in_range (self : Agent) (episode episodes : Z) (e : F) :
  range_laws ->
  le zero (DeepQNetwork.epsilon_init self) ->
  le zero (DeepQNetwork.epsilon_decay self) ->
  le (DeepQNetwork.epsilon_decay self) one ->
  0 <= episode < episodes ->
  DeepQNetwork._epsilon self episode episodes = Ok e ->
  le zero e /\ le e (DeepQNetwork.epsilon_init self).
Proof.
  intros (Hdiv & Hpow & Hmul) Hinit Hd0 Hd1 Hep.
  unfold DeepQNetwork._epsilon.
  destruct (Z.eqb_spec episodes 0) as [|_]; [lia|].
  intros [= <-].
  destruct (Hpow (DeepQNetwork.epsilon_decay self) (truediv episode episodes))
    as [Hp0 Hp1]; [assumption|assumption|apply Hdiv; lia|].
  apply Hmul; assumption.
Qed.

(** C8, as the code has it.  When [epsilon_init >= 0] and
    [0 <= epsilon_decay <= 1], the invariant [0 <= epsilon <= epsilon_init]
    holds of a newly constructed agent and is kept by every step of the
    agent, the assignment of [_epsilon(episode, episodes)] in [train]
    included.  (The constructor checks neither condition.) *)
Theorem epsilon_invariant_kept :
  order_laws -> range_laws ->
  (forall (dims : list Z) (epsilon epsilon_decay gamma : F)
          (memory start_updating batch_size : Z) (learning_rate : F)
          (descent_frequency update_frequency : Z) (use_target : bool)
          (target_frequency : Z) (self : Agent),
     le zero epsilon ->
     DeepQNetwork.init dims epsilon epsilon_decay gamma memory start_updating
       batch_size learning_rate descent_frequency update_frequency
       use_target target_frequency = Ok self ->
     DeepQNetwork.epsilon_init self = epsilon /\
     DeepQNetwork.epsilon_decay self = epsilon_decay /\
     DeepQNetwork.epsilon_invariant self) /\
  (forall self self' : Agent,
     le zero (DeepQNetwork.epsilon_init self) ->
     le zero (DeepQNetwork.epsilon_decay self) ->
     le (DeepQNetwork.epsilon_decay self) one ->
     DeepQNetwork.epsilon_invariant self ->
     rtc step self self' ->
     DeepQNetwork.epsilon_invariant self').
Proof.
  intros (Hirr & _ & _) Hrange. split.
  - intros * Heps Hinit. unfold DeepQNetwork.init in Hinit.
    bind_inv Hinit. injection Hinit as <-.
    split; [reflexivity|]. split; [reflexivity|].
    split; [exact Heps|]. apply Hirr.
  - intros self self' Hi Hd0 Hd1 Hinv Hrun.
    induction Hrun as [|self s self' Hstep Hrest IH]; [exact Hinv|].
    destruct (step_rates _ _ Hstep) as (Hei & Hed & Heps).
    apply IH; rewrite ?Hei, ?Hed; try assumption.
    unfold DeepQNetwork.epsilon_invariant. rewrite Hei.
    destruct Heps as [->|(episode & episodes & Hep & He)]; [exact Hinv|].
    eapply annealed_in_range; eassumption.
Qed.

End Annealing.

(** ** Construction *)

Section Construction.
Context {F W Opt : Type} `{Numeric F} `{Approximator F W Opt}.

Abbreviation Agent := (DeepQNetwork.t F W Opt).

Lemma replay_init_cases (capacity : Z) :
  (0 <= capacity ->
   ExperienceReplay.init (F := F) capacity =
     Ok (ExperienceReplay.mk (Deque.mk capacity []))) /\
  (capacity < 0 -> ExperienceReplay.init (F := F) capacity = Raise ValueError).
Proof.
  unfold ExperienceReplay.init, Deque.create.
  destruct (Z.ltb_spec capacity 0); split; intros; try lia; reflexivity.
Qed.

(** C7, as the code has it.  [__init__] checks nothing: whatever the batch
    size and the frequencies, and for every capacity from 0 to [2^63 - 1]
    (also one below the batch size), it returns an agent holding the
    arguments as they were given and an empty buffer.  For a capacity from
    [-2^63] to [-1] it fails with the deque's ValueError.  The bounds are
    those of the index type of CPython on a 64-bit platform, in which the
    deque takes its [maxlen]; the statement is about capacities inside
    them. *)
Theorem init_rejects_negative_capacity_only
    (dims : list Z) (epsilon epsilon_decay gamma : F)
    (memory start_updating batch_size : Z) (learning_rate : F)
    (descent_frequency update_frequency : Z) (use_target : bool)
    (target_frequency : Z) :
  (0 <= memory < 2 ^ 63 ->
   exists self : Agent,
     DeepQNetwork.init dims epsilon epsilon_decay gamma memory start_updating
       batch_size learning_rate descent_frequency update_frequency
       use_target target_frequency = Ok self /\
     DeepQNetwork.memory self = memory /\
     DeepQNetwork.batch_size self = batch_size /\
     DeepQNetwork.descent_frequency self = descent_frequency /\
     DeepQNetwork.update_frequency self = update_frequency /\
     DeepQNetwork.target_frequency self =
       (if use_target then Some target_frequency else None) /\
     ExperienceReplay.len (DeepQNetwork.replay self) = 0) /\
  (- 2 ^ 63 <= memory < 0 ->
   DeepQNetwork.init dims epsilon epsilon_decay gamma memory start_updating
     batch_size learning_rate descent_frequency update_frequency
     use_target target_frequency = Raise (A := Agent) ValueError).
Proof.
  destruct (replay_init_cases memory) as [Hok Hneg].
  split; intros Hm; unfold DeepQNetwork.init.
  - rewrite (Hok (proj1 Hm)). eexists. split; [reflexivity|].
    repeat split.
  - rewrite (Hneg (proj2 Hm)). reflexivity.
Qed.

End Construction.

(** ** Persistence *)

Section Persistence.
Context {F W Opt B : Type} `{Numeric F} `{Approximator F W Opt}.
Context `{Pickle (ExperienceReplay.t F) B}.

Abbreviation Agent := (DeepQNetwork.t F W Opt).

(** C9. With a pickle that loads what it dumped and weights that fit the
    model they were saved from: after [save(p); clear_experience();
    load(p)] the replay buffer is the one [save] saw, with the same length
    and the same transitions in the same order.  The agent's capacity is
    not negative, as for every constructed agent. *)
Theorem save_clear_load_roundtrip (self : Agent)
    (fs : DeepQNetwork.FileSystem W B) (path : string) :
  (forall r : ExperienceReplay.t F, pickle_loads (pickle_dumps r) = Some r) ->
  (forall w : W, same_architecture w w = true) ->
  0 <= DeepQNetwork.memory self ->
  exists self1 self2 : Agent,
    DeepQNetwork.clear_experience self = Ok self1 /\
    ExperienceReplay.len (DeepQNetwork.replay self1) = 0 /\
    DeepQNetwork.load self1 (DeepQNetwork.save self fs path) path = Ok self2 /\
    DeepQNetwork.replay self2 = DeepQNetwork.replay self /\
    ExperienceReplay.len (DeepQNetwork.replay self2) =
      ExperienceReplay.len (DeepQNetwork.replay self) /\
    Deque.items (ExperienceReplay.buffer (DeepQNetwork.replay self2)) =
      Deque.items (ExperienceReplay.buffer (DeepQNetwork.replay self)).
Proof.
  intros Hpickle Harch Hmem.
  destruct (replay_init_cases (F := F) (DeepQNetwork.memory self)) as [Hok _].
  exists (DeepQNetwork.set_replay self
            (ExperienceReplay.mk (Deque.mk (DeepQNetwork.memory self) []))).
  exists self.
  split; [|split; [reflexivity|]].
  - unfold DeepQNetwork.clear_experience. rewrite (Hok Hmem). reflexivity.
  - assert (Hload :
      DeepQNetwork.load
        (DeepQNetwork.set_replay self
           (ExperienceReplay.mk (Deque.mk (DeepQNetwork.memory self) [])))
        (DeepQNetwork.save self fs path) path = Ok self).
    { unfold DeepQNetwork.load, DeepQNetwork.save.
      cbn [DeepQNetwork.checkpoints DeepQNetwork.files].
      rewrite !lookup_insert_eq. cbn [of_option mbind result_bind].
      cbn [DeepQNetwork.set_replay DeepQNetwork.q_net].
      rewrite Harch, Hpickle. cbn. destruct self; reflexivity. }
    rewrite Hload. repeat split.
Qed.

End Persistence.

(** ** Zero frequencies *)

Section ZeroFrequencies.
Context {F W Opt E G : Type}.
Context `{Numeric F} `{Approximator F W Opt} `{Environment F E}.
Context `{RandomState F G}.

Abbreviation Agent := (DeepQNetwork.t F W Opt).

Lemma py_range_first (n : Z) :
  0 < n -> exists rest : list Z, py_range n = 0 :: rest.
Proof.
  intros Hn. unfold py_range.
  destruct (Z.to_nat n) as [|m] eqn:Hm; [lia|].
  cbn. eexists. reflexivity.
Qed.

Lemma py_mod_nonzero (a b : Z) : b <> 0 -> py_mod a b = Ok (a mod b).
Proof.
  intros Hb. unfold py_mod. destruct (Z.eqb_spec b 0); [contradiction|].
  reflexivity.
Qed.

Lemma _epsilon_Ok (self : Agent) (episode episodes : Z) :
  episodes <> 0 ->
  exists e : F, DeepQNetwork._epsilon self episode episodes = Ok e.
Proof.
  intros Hne. unfold DeepQNetwork._epsilon.
  destruct (Z.eqb_spec episodes 0); [contradiction|]. eexists. reflexivity.
Qed.

(** The modulo by [render_frequency] comes before [simulate] is called. *)
Lemma train_episode_render_zero (fuel : nat) (self : Agent) (env : E) (g : G)
    (episodes episode : Z) (summary : bool) :
  episodes <> 0 ->
  DeepQNetwork.train_episode fuel self env g episodes 0 summary episode =
    Raise ZeroDivisionError.
Proof.
  intros Hne. unfold DeepQNetwork.train_episode.
  destruct (_epsilon_Ok self episode episodes Hne) as [e ->]. reflexivity.
Qed.

(** The modulo by [update_frequency] is the right operand of [and]: it is
    evaluated only when the buffer holds [start_updating] records. *)
Lemma train_episode_update_zero (fuel : nat) (self self2 : Agent)
    (env env2 : E) (g g2 : G) (episodes render_frequency episode : Z)
    (summary : bool) (e : F) (iters : Z) (total : F)
    (states : list (list F)) :
  render_frequency <> 0 ->
  DeepQNetwork.update_frequency self = 0 ->
  DeepQNetwork._epsilon self episode episodes = Ok e ->
  DeepQNetwork.simulate fuel (DeepQNetwork.set_epsilon self e) env g
    (episode mod render_frequency =? 0) false summary None =
    Ok (iters, total, states, self2, env2, g2) ->
  DeepQNetwork.train_episode fuel self env g episodes render_frequency
    summary episode =
  if DeepQNetwork.start_updating self <=?
       ExperienceReplay.len (DeepQNetwork.replay self2)
  then Raise ZeroDivisionError
  else Ok (self2, env2, g2).
Proof.
  intros Hrf Huf He Hsim. unfold DeepQNetwork.train_episode.
  rewrite He. cbn [mbind result_bind].
  rewrite (py_mod_nonzero episode render_frequency Hrf).
  cbn [mbind result_bind]. rewrite Hsim. cbn [mbind result_bind].
  pose proof (simulate_frame _ _ _ _ _ _ _ _ _ _ _ _ _ _ Hsim) as Hframe.
  assert (Hsu : DeepQNetwork.start_updating self2 =
                DeepQNetwork.start_updating self) by (rewrite Hframe; reflexivity).
  assert (Huf2 : DeepQNetwork.update_frequency self2 = 0)
    by (rewrite Hframe; exact Huf).
  rewrite Hsu, Huf2.
  destruct (DeepQNetwork.start_updating self <=? _); reflexivity.
Qed.

(** With a target network and [target_frequency = 0], the first pass of the
    descent loop raises once its batch has been sampled. *)
Lemma descent_iteration_target_zero (self : Agent) (g g1 : G) (gamma : F)
    (updates : Z) (b : ExperienceReplay.Batch F) :
  DeepQNetwork.use_target self = true ->
  DeepQNetwork.target_frequency self = Some 0 ->
  ExperienceReplay.sample (DeepQNetwork.replay self) g
    (DeepQNetwork.batch_size self) = Ok (b, g1) ->
  DeepQNetwork.descent_iteration self g gamma updates =
    Raise ZeroDivisionError.
Proof.
  intros Hu Htf Hs. unfold DeepQNetwork.descent_iteration.
  rewrite Hs. cbn [mbind result_bind].
  unfold DeepQNetwork.sync_target. rewrite Hu, Htf. reflexivity.
Qed.

(** C10, as the code has it.  Zero frequencies pass the constructor.  With
    [render_frequency = 0], [train] raises ZeroDivisionError in its first
    episode, before simulating.  With [update_frequency = 0] an episode whose
    simulation returns raises ZeroDivisionError when the buffer then holds
    at least [start_updating] records, and completes without an update when
    it holds fewer.  With a target network and [target_frequency = 0],
    [_update_weights] raises ZeroDivisionError in its first pass, provided
    there is a pass ([descent_frequency >= 1]) and its batch can be
    sampled. *)
Theorem zero_frequencies :
  (forall (dims : list Z) (epsilon epsilon_decay gamma : F)
          (memory start_updating batch_size : Z) (learning_rate : F)
          (descent_frequency : Z) (use_target : bool),
     0 <= memory ->
     exists self : Agent,
       DeepQNetwork.init dims epsilon epsilon_decay gamma memory
         start_updating batch_size learning_rate descent_frequency 0
         use_target 0 = Ok self /\
       DeepQNetwork.update_frequency self = 0 /\
       DeepQNetwork.target_frequency self =
         (if use_target then Some 0 else None)) /\
  (forall (fuel : nat) (self : Agent) (env : E) (g : G) (episodes : Z)
          (summary : bool),
     0 < episodes ->
     DeepQNetwork.train fuel self env g episodes 0 summary =
       Raise ZeroDivisionError) /\
  (forall (fuel : nat) (self self2 : Agent) (env env2 : E) (g g2 : G)
          (episodes render_frequency : Z) (summary : bool) (e : F)
          (iters : Z) (total : F) (states : list (list F)),
     0 < episodes ->
     render_frequency <> 0 ->
     DeepQNetwork.update_frequency self = 0 ->
     DeepQNetwork._epsilon self 0 episodes = Ok e ->
     DeepQNetwork.simulate fuel (DeepQNetwork.set_epsilon self e) env g
       (0 mod render_frequency =? 0) false summary None =
       Ok (iters, total, states, self2, env2, g2) ->
     (DeepQNetwork.start_updating self <=
        ExperienceReplay.len (DeepQNetwork.replay self2) ->
      DeepQNetwork.train fuel self env g episodes render_frequency summary =
        Raise ZeroDivisionError) /\
     (ExperienceReplay.len (DeepQNetwork.replay self2) <
        DeepQNetwork.start_updating self ->
      DeepQNetwork.train_episode fuel self env g episodes render_frequency
        summary 0 = Ok (self2, env2, g2))) /\
  (forall (self : Agent) (g g1 : G) (gamma : F)
          (b : ExperienceReplay.Batch F),
     DeepQNetwork.use_target self = true ->
     DeepQNetwork.target_frequency self = Some 0 ->
     1 <= DeepQNetwork.descent_frequency self ->
     ExperienceReplay.sample (DeepQNetwork.replay self) g
       (DeepQNetwork.batch_size self) = Ok (b, g1) ->
     DeepQNetwork._update_weights self g gamma = Raise ZeroDivisionError).
Proof.
  split; [|split; [|split]].
  - intros * Hm. unfold DeepQNetwork.init.
    destruct (replay_init_cases (F := F) memory) as [Hok _].
    rewrite (Hok Hm). eexists. split; [reflexivity|]. split; reflexivity.
  - intros * Hep. unfold DeepQNetwork.train.
    destruct (py_range_first episodes Hep) as [rest ->].
    cbn [DeepQNetwork.train_loop].
    rewrite train_episode_render_zero by lia. reflexivity.
  - intros * Hep Hrf Huf He Hsim.
    pose proof (train_episode_update_zero fuel self self2 env env2 g g2
                  episodes render_frequency 0 summary e iters total states
                  Hrf Huf He Hsim) as Hrun.
    split; intros Hlen.
    + unfold DeepQNetwork.train.
      destruct (py_range_first episodes Hep) as [rest ->].
      cbn [DeepQNetwork.train_loop]. rewrite Hrun.
      destruct (Z.leb_spec (DeepQNetwork.start_updating self)
                  (ExperienceReplay.len (DeepQNetwork.replay self2)));
        [reflexivity|lia].
    + rewrite Hrun.
      destruct (Z.leb_spec (DeepQNetwork.start_updating self)
                  (ExperienceReplay.len (DeepQNetwork.replay self2)));
        [lia|reflexivity].
  - intros * Hu Htf Hdf Hs. unfold DeepQNetwork._update_weights.
    destruct (py_range_first (DeepQNetwork.descent_frequency self))
      as [rest ->]; [lia|].
    cbn [DeepQNetwork.descent_loop].
    rewrite (descent_iteration_target_zero self g g1 gamma 0 b Hu Htf Hs).
    reflexivity.
Qed.

End ZeroFrequencies.

(** ** The laws in the small world *)

Section WorldLaws.
Import World.
Open Scope R_scope.

Lemma real_ltb_true (x y : R) : x < y -> real_ltb x y = true.
Proof. intros Hxy. unfold real_ltb. destruct (Rlt_dec x y); [reflexivity|lra]. Qed.

Lemma real_ltb_false (x y : R) : y <= x -> real_ltb x y = false.
Proof. intros Hxy. unfold real_ltb. destruct (Rlt_dec x y); [lra|reflexivity]. Qed.

Lemma real_le_iff (x y : R) : le x y <-> x <= y.
Proof.
  unfold le. cbn [ltb real_numeric]. unfold real_ltb.
  destruct (Rlt_dec y x); split; intros; try lra; try reflexivity; discriminate.
Qed.

Lemma real_ltb_iff (x y : R) : ltb x y = true <-> x < y.
Proof.
  cbn [ltb real_numeric]. unfold real_ltb.
  destruct (Rlt_dec x y); split; intros; try lra; try reflexivity; discriminate.
Qed.

Lemma world_order_laws : order_laws (F := R).
Proof.
  split; [|split].
  - intros x. apply real_ltb_false. lra.
  - intros x y z. rewrite !real_ltb_iff. lra.
  - intros x y z. rewrite !real_le_iff. lra.
Qed.

Lemma real_power_0 (d : R) : real_power d 0 = 1.
Proof. unfold real_power. destruct (Req_dec_T 0 0); [reflexivity|lra]. Qed.

Lemma real_power_1 (d : R) : real_power d 1 = d.
Proof.
  unfold real_power. destruct (Req_dec_T 1 0); [lra|].
  destruct (Rlt_dec 0 d); [apply Rpower_1; assumption|].
  destruct (Req_dec_T 1 1); [reflexivity|lra].
Qed.

Lemma real_power_positive (d t : R) :
  0 < d -> t <> 0 -> real_power d t = Rpower d t.
Proof.
  intros Hd Ht. unfold real_power. destruct (Req_dec_T t 0); [lra|].
  destruct (Rlt_dec 0 d); [reflexivity|lra].
Qed.

Lemma world_unit_laws : unit_laws (F := R).
Proof.
  split; [|split].
  - intros n Hn. cbn [truediv zero one real_numeric].
    apply not_0_IZR in Hn. split; field; exact Hn.
  - intros d. split; [apply real_power_0|apply real_power_1].
  - intros e. apply Rmult_1_r.
Qed.

Lemma real_power_unit_interval (d t : R) :
  0 <= d <= 1 -> 0 <= t -> 0 <= real_power d t <= 1.
Proof.
  intros [Hd0 Hd1] Ht. unfold real_power.
  destruct (Req_dec_T t 0); [lra|].
  destruct (Rlt_dec 0 d) as [Hpos|Hnpos].
  - unfold Rpower. split; [left; apply exp_pos|].
    rewrite <- exp_0.
    assert (Hln : ln d <= 0).
    { destruct (Req_dec_T d 1) as [->|Hne]; [rewrite ln_1; lra|].
      left. rewrite <- ln_1. apply ln_increasing; lra. }
    assert (Hprod : t * ln d <= 0) by nra.
    destruct Hprod as [Hlt|Heq].
    + left. apply exp_increasing. exact Hlt.
    + rewrite Heq. lra.
  - destruct (Req_dec_T t 1); lra.
Qed.

Lemma world_range_laws : range_laws (F := R).
Proof.
  split; [|split].
  - intros a b Ha Hb. apply real_le_iff. cbn [truediv zero real_numeric].
    apply IZR_le in Ha. apply IZR_lt in Hb.
    apply Rmult_le_pos; [exact Ha|]. left. apply Rinv_0_lt_compat. exact Hb.
  - intros d t. rewrite !real_le_iff. cbn [zero one power real_numeric].
    intros Hd0 Hd1 Ht. apply real_power_unit_interval; lra.
  - intros e p. rewrite !real_le_iff. cbn [zero one mul real_numeric].
    intros He Hp0 Hp1. split; nra.
Qed.

Lemma world_permutation_law : permutation_law (F := R) (G := nat).
Proof. intros g n. cbn. apply reverse_Permutation. Qed.

(** [4 ** (1 / 2)] is larger than 1. *)
Lemma real_power_4_half : 1 < real_power 4 (IZR 1 / IZR 2).
Proof.
  rewrite real_power_positive by lra. unfold Rpower.
  rewrite <- exp_0 at 1. apply exp_increasing.
  assert (Hln : 0 < ln 4) by (rewrite <- ln_1; apply ln_increasing; lra).
  nra.
Qed.

End WorldLaws.

(** ** Runs in the small world *)

Section WorldRuns.
Import World.

(** An exploring episode of [train]: the action is [randint]'s draw 0, the
    environment ends the episode after this one step, and no update follows
    while the buffer holds fewer than [start_updating] records. *)
Lemma world_episode (fuel : nat) (self : Agent) (env g : nat)
    (episodes render_frequency episode n : Z) (summary : bool) (e : R) :
  let record := ExperienceReplay.mkExperience [0%R] 0 1%R true [1%R] in
  let replay := ExperienceReplay.append (DeepQNetwork.replay self) record in
  render_frequency <> 0 ->
  DeepQNetwork._epsilon self episode episodes = Ok e ->
  (/ 2 < e)%R ->
  py_last (DeepQNetwork.dims self) = Ok n -> 0 < n ->
  ExperienceReplay.len replay < DeepQNetwork.start_updating self ->
  DeepQNetwork.train_episode (S fuel) self env g episodes render_frequency
    summary episode =
  Ok (DeepQNetwork.set_replay (DeepQNetwork.set_epsilon self e) replay,
      S env, S (S g)).
Proof.
  intros record replay Hrf He Hexp Hlast Hn Hlen.
  unfold DeepQNetwork.train_episode. rewrite He. cbn [mbind result_bind].
  rewrite (py_mod_nonzero episode render_frequency Hrf).
  cbn [mbind result_bind].
  unfold DeepQNetwork.simulate. cbn [env_reset one_step_env].
  cbn [DeepQNetwork.simulate_loop]. unfold DeepQNetwork.act.
  cbn [negb uniform fixed_draws DeepQNetwork.set_epsilon DeepQNetwork.epsilon
       DeepQNetwork.dims ltb real_numeric].
  rewrite (real_ltb_true _ _ Hexp), Hlast. cbn [mbind result_bind].
  unfold np_random_randint. destruct (Z.leb_spec n 0); [lia|].
  cbn [randint_draw fixed_draws mbind result_bind env_step one_step_env
       env_render env_show].
  destruct (episode `mod` render_frequency =? 0);
    cbn [mbind result_bind mret result_ret DeepQNetwork.set_replay
         DeepQNetwork.start_updating DeepQNetwork.replay
         DeepQNetwork.set_epsilon];
    fold record; fold replay;
    (destruct (Z.leb_spec (DeepQNetwork.start_updating self)
                 (ExperienceReplay.len replay)); [lia|]);
    reflexivity.
Qed.

End WorldRuns.

(** ** Instances of the theorems, and inputs on which the claims fail *)

Section Instances.
Import World.

(** The end-to-end scenario of the specification: capacity 3, rewards 1 to
    4 appended in order. *)
Lemma append_keeps_last_records_witness :
  exists r0 : ExperienceReplay.t R,
    ExperienceReplay.init 3 = Ok r0 /\
    (forall n : nat,
       ExperienceReplay.len
         (ExperienceReplay.appended r0 (take n four_records)) <= 3) /\
    ExperienceReplay.len (ExperienceReplay.appended r0 four_records) =
      Z.min (Z.of_nat (length four_records)) 3 /\
    Deque.items (ExperienceReplay.buffer
                   (ExperienceReplay.appended r0 four_records)) =
      drop (length four_records - Z.to_nat 3) four_records.
Proof. apply (append_keeps_last_records 3 four_records). lia. Defined.

Example scenario_buffer :
  Deque.items (ExperienceReplay.buffer
     (ExperienceReplay.appended (ExperienceReplay.mk (Deque.mk 3 []))
        four_records)) =
  [transition 2 false; transition 3 false; transition 4 true].
Proof. reflexivity. Qed.

(** C3 fails for [k = 0]: the buffer holds a record, [0 <= len], and
    [sample(0)] raises, on unpacking the empty [zip]. *)
Lemma sample_zero_raises :
  0 <= ExperienceReplay.len one_record /\
  ExperienceReplay.sample one_record 0%nat 0 = Raise ValueError.
Proof.
  split; [unfold ExperienceReplay.len, Deque.len; cbn; lia|reflexivity].
Qed.

(** The scenario of the specification: reward 1, bootstrap value 2 and
    [gamma = 0.9] give the target 2.8. *)
Example scenario_target :
  DeepQNetwork.bellman_y (9 / 10)%R one_sample [2%R] = [(28 / 10)%R].
Proof. cbn. f_equal. lra. Qed.

Lemma epsilon_annealing_witness :
  DeepQNetwork._epsilon (agent 1 (/ 2) 3 1 1 1) 3 10 =
    Ok (mul (DeepQNetwork.epsilon_init (agent 1 (/ 2) 3 1 1 1))
            (power (DeepQNetwork.epsilon_decay (agent 1 (/ 2) 3 1 1 1))
                   (truediv 3 10))) /\
  DeepQNetwork._epsilon (agent 1 (/ 2) 3 1 1 1) 0 10 =
    Ok (DeepQNetwork.epsilon_init (agent 1 (/ 2) 3 1 1 1)) /\
  DeepQNetwork._epsilon (agent 1 (/ 2) 3 1 1 1) 10 10 =
    Ok (mul (DeepQNetwork.epsilon_init (agent 1 (/ 2) 3 1 1 1))
            (DeepQNetwork.epsilon_decay (agent 1 (/ 2) 3 1 1 1))).
Proof.
  apply (epsilon_annealing (agent 1 (/ 2) 3 1 1 1) 3 10 world_unit_laws).
  lia.
Defined.

Lemma act_evaluation_deterministic_witness :
  exists (a : Z) (m : R),
    DeepQNetwork.act (tied 1) 0%nat [0%R] true = Ok (a, 0%nat) /\
    DeepQNetwork.act (tied 0) 7%nat [0%R] true = Ok (a, 7%nat) /\
    0 <= a /\
    call (DeepQNetwork.q_net (tied 1)) [0%R] !! Z.to_nat a = Some m /\
    (forall (j : nat) (y : R),
       call (DeepQNetwork.q_net (tied 1)) [0%R] !! j = Some y -> le y m) /\
    (forall (j : nat) (y : R),
       (j < Z.to_nat a)%nat ->
       call (DeepQNetwork.q_net (tied 1)) [0%R] !! j = Some y ->
       ltb y m = true).
Proof.
  apply (act_evaluation_deterministic (tied 1) (tied 0) 0%nat 7%nat [0%R]
           world_order_laws);
    [reflexivity|discriminate].
Defined.

(** C7 fails: capacity 0, a batch size above the capacity and frequencies
    that are all 0 construct an agent. *)
Lemma init_accepts_invalid_ranges :
  exists self : Agent,
    DeepQNetwork.init [1; 2] 1%R (/ 2)%R 1%R 0 0 5 (/ 1000)%R 0 0 true 0 =
      Ok self /\
    DeepQNetwork.memory self = 0 /\
    DeepQNetwork.batch_size self = 5 /\
    DeepQNetwork.descent_frequency self = 0 /\
    DeepQNetwork.update_frequency self = 0 /\
    DeepQNetwork.target_frequency self = Some 0.
Proof. eexists. split; [reflexivity|]. repeat split. Qed.

End Instances.

Section Counterexamples.
Import World.

Abbreviation step :=
  (DeepQNetwork.step (E := nat) (G := nat) (B := ExperienceReplay.t R)).

Lemma real_power_zero_quotient (d : R) (n : Z) :
  real_power d (IZR 0 / IZR n) = 1%R.
Proof.
  replace (IZR 0 / IZR n)%R with 0%R by (unfold Rdiv; rewrite Rmult_0_l; reflexivity).
  apply real_power_0.
Qed.

Lemma valid_rates_invariant (memory start_updating batch_size uf : Z) :
  DeepQNetwork.epsilon_invariant (agent 1 (/ 2) memory start_updating batch_size uf).
Proof. split; apply real_le_iff; cbn; lra. Qed.

Lemma epsilon_invariant_kept_witness :
  DeepQNetwork.epsilon_invariant (agent 1 (/ 2) 10 100 1 1) /\
  (forall self' : Agent,
     rtc step (agent 1 (/ 2) 10 100 1 1) self' ->
     DeepQNetwork.epsilon_invariant self').
Proof.
  split.
  - apply (proj1 (epsilon_invariant_kept (E := nat) (G := nat)
                    (B := ExperienceReplay.t R)
                    world_order_laws world_range_laws)
             [1; 2] 1%R (/ 2)%R 1%R 10 100 1 (/ 1000)%R 1 1 false 1).
    + apply real_le_iff. cbn. lra.
    + reflexivity.
  - intros self'.
    apply (proj2 (epsilon_invariant_kept world_order_laws world_range_laws)).
    + apply real_le_iff. cbn. lra.
    + apply real_le_iff. cbn. lra.
    + apply real_le_iff. cbn. lra.
    + apply valid_rates_invariant.
Defined.

(** C8 fails for [epsilon_decay = 4]: the agent is constructed with
    [epsilon = epsilon_init = 1], and the second episode of a training of
    two assigns [epsilon = 1 * 4 ** (1 / 2)], above [epsilon_init]. *)
Lemma epsilon_exceeds_initial :
  DeepQNetwork.init [1; 2] 1%R 4%R 1%R 10 100 1 (/ 1000)%R 1 1 false 1 =
    Ok (agent 1 4 10 100 1 1) /\
  DeepQNetwork.epsilon_invariant (agent 1 4 10 100 1 1) /\
  exists (self' : Agent) (env' g' : nat),
    DeepQNetwork.train 1 (agent 1 4 10 100 1 1) 0%nat 0%nat 2 1 false =
      Ok (self', env', g') /\
    DeepQNetwork.epsilon_init self' = 1%R /\
    DeepQNetwork.epsilon self' = (1 * real_power 4 (IZR 1 / IZR 2))%R /\
    ltb (DeepQNetwork.epsilon_init self') (DeepQNetwork.epsilon self') = true /\
    ~ DeepQNetwork.epsilon_invariant self'.
Proof.
  split; [reflexivity|]. split.
  { split; apply real_le_iff; cbn; lra. }
  pose proof real_power_4_half as Hhalf.
  set (record := ExperienceReplay.mkExperience [0%R] 0 1%R true [1%R]).
  set (a := agent 1 4 10 100 1 1).
  set (e0 := (1 * real_power 4 (IZR 0 / IZR 2))%R).
  set (a1 := DeepQNetwork.set_replay (DeepQNetwork.set_epsilon a e0)
               (ExperienceReplay.append (DeepQNetwork.replay a) record)).
  set (e1 := (1 * real_power 4 (IZR 1 / IZR 2))%R).
  set (a2 := DeepQNetwork.set_replay (DeepQNetwork.set_epsilon a1 e1)
               (ExperienceReplay.append (DeepQNetwork.replay a1) record)).
  assert (Hrun : DeepQNetwork.train 1 a 0%nat 0%nat 2 1 false =
                 Ok (a2, 2%nat, 4%nat)).
  { unfold DeepQNetwork.train.
    change (py_range 2) with [0; 1]. cbn [DeepQNetwork.train_loop].
    rewrite (world_episode 0 a 0 0 2 1 0 2 false e0);
      [|lia|reflexivity
       |unfold e0; rewrite real_power_zero_quotient; lra
       |reflexivity|lia
       |reflexivity].
    cbn [mbind result_bind]. fold record. fold a1.
    rewrite (world_episode 0 a1 1 2 2 1 1 2 false e1);
      [|lia|reflexivity
       |unfold e1; lra
       |reflexivity|lia
       |reflexivity].
    reflexivity. }
  exists a2, 2%nat, 4%nat. split; [exact Hrun|].
  split; [reflexivity|]. split; [reflexivity|].
  assert (Hlt : ltb (DeepQNetwork.epsilon_init a2) (DeepQNetwork.epsilon a2) = true).
  { apply real_ltb_iff. cbn [DeepQNetwork.epsilon_init DeepQNetwork.epsilon
      DeepQNetwork.set_replay DeepQNetwork.set_epsilon a2 a1 a agent].
    unfold e1. lra. }
  split; [exact Hlt|].
  intros [_ Hle]. unfold le in Hle. rewrite Hlt in Hle. discriminate.
Qed.

Lemma save_clear_load_roundtrip_witness :
  exists self1 self2 : Agent,
    DeepQNetwork.clear_experience
      (DeepQNetwork.set_replay (agent 1 (/ 2) 3 1 1 1) one_record) = Ok self1 /\
    ExperienceReplay.len (DeepQNetwork.replay self1) = 0 /\
    DeepQNetwork.load self1
      (DeepQNetwork.save
         (DeepQNetwork.set_replay (agent 1 (/ 2) 3 1 1 1) one_record)
         no_files "model/") "model/" = Ok self2 /\
    DeepQNetwork.replay self2 =
      DeepQNetwork.replay
        (DeepQNetwork.set_replay (agent 1 (/ 2) 3 1 1 1) one_record) /\
    ExperienceReplay.len (DeepQNetwork.replay self2) =
      ExperienceReplay.len
        (DeepQNetwork.replay
           (DeepQNetwork.set_replay (agent 1 (/ 2) 3 1 1 1) one_record)) /\
    Deque.items (ExperienceReplay.buffer (DeepQNetwork.replay self2)) =
      Deque.items
        (ExperienceReplay.buffer
           (DeepQNetwork.replay
              (DeepQNetwork.set_replay (agent 1 (/ 2) 3 1 1 1) one_record))).
Proof.
  apply (save_clear_load_roundtrip
           (DeepQNetwork.set_replay (agent 1 (/ 2) 3 1 1 1) one_record)
           no_files "model/").
  - intros r. reflexivity.
  - intros w. apply bool_decide_eq_true_2. reflexivity.
  - cbn. lia.
Defined.

(** C10 fails for [update_frequency = 0] with [start_updating = 100]: the
    constructor accepts the agent, and the first (and only) episode of
    [train] completes with one record in the buffer; the modulo is never
    evaluated. *)
Lemma zero_update_frequency_episode_completes :
  DeepQNetwork.init [1; 2] 1%R (/ 2)%R 1%R 10 100 1 (/ 1000)%R 1 0 false 1 =
    Ok (agent 1 (/ 2) 10 100 1 0) /\
  DeepQNetwork.update_frequency (agent 1 (/ 2) 10 100 1 0) = 0 /\
  exists self' : Agent,
    DeepQNetwork.train 1 (agent 1 (/ 2) 10 100 1 0) 0%nat 0%nat 1 1 false =
      Ok (self', 1%nat, 2%nat) /\
    ExperienceReplay.len (DeepQNetwork.replay self') = 1.
Proof.
  split; [reflexivity|]. split; [reflexivity|].
  set (record := ExperienceReplay.mkExperience [0%R] 0 1%R true [1%R]).
  set (a := agent 1 (/ 2) 10 100 1 0).
  set (e0 := (1 * real_power (/ 2) (IZR 0 / IZR 1))%R).
  exists (DeepQNetwork.set_replay (DeepQNetwork.set_epsilon a e0)
            (ExperienceReplay.append (DeepQNetwork.replay a) record)).
  split; [|reflexivity].
  unfold DeepQNetwork.train.
  change (py_range 1) with [0]. cbn [DeepQNetwork.train_loop].
  rewrite (world_episode 0 a 0 0 1 1 0 2 false e0);
    [|lia|reflexivity
     |unfold e0; rewrite real_power_zero_quotient; lra
     |reflexivity|lia
     |reflexivity].
  reflexivity.
Qed.

End Counterexamples.

(** * Further properties of the code

    ** The replay buffer from any state *)

Section ReplayMore.
Context {F G : Type} `{Numeric F} `{RandomState F G}.

Abbreviation Experience := (ExperienceReplay.Experience F).

(** A buffer as the deque keeps it: a capacity that is not negative and no
    more records than that. *)
Lemma appended_within_capacity (r : ExperienceReplay.t F)
    (xs : list Experience) :
  let C := Deque.maxlen (ExperienceReplay.buffer r) in
  let old := Deque.items (ExperienceReplay.buffer r) in
  0 <= C -> ExperienceReplay.len r <= C ->
  Deque.maxlen (ExperienceReplay.buffer (ExperienceReplay.appended r xs)) = C /\
  Deque.items (ExperienceReplay.buffer (ExperienceReplay.appended r xs)) =
    drop (length (old ++ xs) - Z.to_nat C) (old ++ xs) /\
  ExperienceReplay.len (ExperienceReplay.appended r xs) =
    Z.min (ExperienceReplay.len r + Z.of_nat (length xs)) C.
Proof.
  intros C old HC Hlen. unfold ExperienceReplay.len, Deque.len in *.
  rewrite appended_buffer.
  destruct (deque_foldl_append xs (ExperienceReplay.buffer r)) as [Hm Hi];
    [exact HC|unfold C, old in *; lia|].
  split; [exact Hm|]. split; [exact Hi|].
  rewrite Hi, length_drop, length_app. unfold C, old in *. lia.
Qed.

(** [sample(k)] raises ValueError for every [k <= 0], and for every [k] when
    the buffer is empty, whatever the generator draws. *)
Lemma sample_nothing_raises (self : ExperienceReplay.t F) (g : G) (k : Z) :
  k <= 0 \/ ExperienceReplay.len self = 0 ->
  ExperienceReplay.sample self g k = Raise ValueError.
Proof.
  intros Hk. unfold ExperienceReplay.sample, np_random_choice.
  assert (Hlen : 0 <= ExperienceReplay.len self)
    by (unfold ExperienceReplay.len, Deque.len; lia).
  destruct (Z.eqb_spec k 0) as [->|Hne].
  - rewrite andb_false_r.
    destruct (Z.ltb_spec (ExperienceReplay.len self) 0); [lia|].
    cbn [Z.ltb Z.compare]. destruct (permutation g _) as [p g1].
    reflexivity.
  - destruct (Z.leb_spec (ExperienceReplay.len self) 0); cbn [andb negb].
    + reflexivity.
    + destruct (Z.ltb_spec (ExperienceReplay.len self) k); [reflexivity|].
      destruct (Z.ltb_spec k 0); [reflexivity|lia].
Qed.

End ReplayMore.

Section PermutedLookups.
Context {A B : Type} (R : A -> B -> Prop).

Lemma Forall2_Permutation_l (l l' : list A) (k : list B) :
  l ≡ₚ l' -> Forall2 R l k ->
  exists k' : list B, k ≡ₚ k' /\ Forall2 R l' k'.
Proof.
  intros Hperm. revert k.
  induction Hperm as [|x l l' _ IH|x y l|l l' l'' _ IH1 _ IH2]; intros k Hk.
  - exists k. split; [reflexivity|exact Hk].
  - inversion Hk as [|? y ? k0 Hxy Hrest]; subst.
    destruct (IH k0 Hrest) as (k' & Hp & Hf).
    exists (y :: k'). split; [constructor; exact Hp|constructor; assumption].
  - inversion Hk as [|? b1 ? k1 Hy Hrest1]; subst.
    inversion Hrest1 as [|? b2 ? k2 Hx Hrest2]; subst.
    exists (b2 :: b1 :: k2). split; [apply perm_swap|].
    constructor; [exact Hx|constructor; assumption].
  - destruct (IH1 k Hk) as (k' & Hp1 & Hf1).
    destruct (IH2 k' Hf1) as (k'' & Hp2 & Hf2).
    exists k''. split; [etransitivity; eassumption|exact Hf2].
Qed.

End PermutedLookups.

Section SampleAll.
Context {F G : Type} `{Numeric F} `{RandomState F G}.

Lemma lookups_of_range {A : Type} (items k : list A) :
  Forall2 (fun i r => items !! i = Some r) (seq 0 (length items)) k ->
  k = items.
Proof.
  intros Hf. pose proof (Forall2_length _ _ _ Hf) as Hlen.
  rewrite length_seq in Hlen.
  apply list_eq. intros j.
  destruct (decide (j < length items)%nat) as [Hj|Hj].
  - destruct (lookup_lt_is_Some_2 k j) as [r Hr]; [lia|].
    pose proof (Forall2_lookup_lr _ _ _ j j r Hf (lookup_seq_lt 0 _ j Hj) Hr)
      as Hi.
    cbn in Hi. congruence.
  - rewrite !lookup_ge_None_2 by lia. reflexivity.
Qed.

(** What [sample(k)] returns for [1 <= k <= len]: the columns of the
    records at the first [k] entries of the generator's permutation. *)
Lemma sample_drawn (self : ExperienceReplay.t F) (g : G) (k : Z) :
  let items := Deque.items (ExperienceReplay.buffer self) in
  let drawn := permutation g (length items) in
  permutation_law ->
  1 <= k <= ExperienceReplay.len self ->
  exists records : list (ExperienceReplay.Experience F),
    ExperienceReplay.sample self g k =
      Ok (ExperienceReplay.mkBatch
            (ExperienceReplay.state <$> records)
            (ExperienceReplay.action <$> records)
            (float32 ∘ ExperienceReplay.reward <$> records)
            (ExperienceReplay.done <$> records)
            (ExperienceReplay.new_state <$> records), drawn.2) /\
    Forall2 (fun i r => items !! i = Some r)
            (take (Z.to_nat k) drawn.1) records.
Proof.
  intros items drawn Hperm Hk.
  unfold ExperienceReplay.len, Deque.len in Hk. fold items in Hk.
  destruct (drawn_indices g (length items) (Z.to_nat k) Hperm)
    as (_ & Hlen & Hlt); [lia|].
  destruct (Forall2_lookup_total items _ Hlt) as [records Hrec].
  exists records. split; [|exact Hrec].
  unfold ExperienceReplay.sample.
  rewrite np_random_choice_ok
    by (unfold ExperienceReplay.len, Deque.len; fold items; lia).
  unfold ExperienceReplay.len, Deque.len. fold items.
  rewrite Nat2Z.id. fold drawn. cbn [mbind result_bind].
  rewrite (mapM_result_Forall2 _ _ records).
  - cbn [mbind result_bind]. unfold ExperienceReplay.unzip5.
    destruct records as [|r records]; [|reflexivity].
    apply Forall2_length in Hrec. rewrite Hlen in Hrec.
    cbn [length] in Hrec. lia.
  - eapply Forall2_impl; [exact Hrec|].
    intros i r Hir. unfold Deque.index. fold items. rewrite Hir. reflexivity.
Qed.

(** C3, as the code has it.  With a generator whose permutations are
    permutations: for [1 <= k <= len], [sample(k)] returns the columns of
    the records at the first [k] entries of the permutation the generator
    draws, in that order; these [k] indices are pairwise distinct, so no
    position of the buffer is returned twice.  For [k > len] it raises
    ValueError (NumPy's refusal to draw more than the population).  [sample]
    reads the buffer and returns no new one. *)
Theorem sample_distinct_records (self : ExperienceReplay.t F) (g : G) (k : Z) :
  let items := Deque.items (ExperienceReplay.buffer self) in
  let drawn := permutation g (length items) in
  let indices := take (Z.to_nat k) drawn.1 in
  permutation_law ->
  (1 <= k <= ExperienceReplay.len self ->
   exists records : list (ExperienceReplay.Experience F),
     ExperienceReplay.sample self g k =
       Ok (ExperienceReplay.mkBatch
             (ExperienceReplay.state <$> records)
             (ExperienceReplay.action <$> records)
             (float32 ∘ ExperienceReplay.reward <$> records)
             (ExperienceReplay.done <$> records)
             (ExperienceReplay.new_state <$> records), drawn.2) /\
     Forall2 (fun i r => items !! i = Some r) indices records /\
     NoDup indices /\
     length indices = Z.to_nat k /\
     length records = Z.to_nat k) /\
  (ExperienceReplay.len self < k ->
   ExperienceReplay.sample self g k = Raise ValueError).
Proof.
  intros items drawn indices Hperm. split.
  - intros Hk.
    destruct (sample_drawn self g k Hperm Hk) as (records & Hs & Hrec).
    unfold ExperienceReplay.len, Deque.len in Hk. fold items in Hk.
    destruct (drawn_indices g (length items) (Z.to_nat k) Hperm)
      as (Hnd & Hlen & _); [lia|].
    exists records. split; [exact Hs|]. split; [exact Hrec|].
    split; [exact Hnd|]. split; [exact Hlen|].
    apply Forall2_length in Hrec. rewrite <- Hrec. exact Hlen.
  - intros Hk. unfold ExperienceReplay.sample.
    rewrite np_random_choice_larger by exact Hk. reflexivity.
Qed.

(** Sampling the whole buffer returns every record exactly once: the
    batch is the columns of a permutation of the buffer. *)
Lemma sample_whole_buffer (self : ExperienceReplay.t F) (g : G) :
  permutation_law ->
  1 <= ExperienceReplay.len self ->
  exists (records : list (ExperienceReplay.Experience F)) (g' : G),
    ExperienceReplay.sample self g (ExperienceReplay.len self) =
      Ok (ExperienceReplay.mkBatch
            (ExperienceReplay.state <$> records)
            (ExperienceReplay.action <$> records)
            (float32 ∘ ExperienceReplay.reward <$> records)
            (ExperienceReplay.done <$> records)
            (ExperienceReplay.new_state <$> records), g') /\
    records ≡ₚ Deque.items (ExperienceReplay.buffer self).
Proof.
  intros Hperm Hlen.
  destruct (sample_drawn self g (ExperienceReplay.len self) Hperm)
    as (records & Hs & Hrec); [lia|].
  eexists records, _. split; [exact Hs|].
  set (items := Deque.items (ExperienceReplay.buffer self)) in *.
  pose proof (Hperm g (length items)) as Hp.
  assert (Hpl : length (permutation g (length items)).1 = length items)
    by (rewrite Hp; apply length_seq).
  unfold ExperienceReplay.len, Deque.len in Hrec. fold items in Hrec.
  rewrite Nat2Z.id, take_ge in Hrec by lia.
  destruct (Forall2_Permutation_l _ _ _ _ Hp Hrec) as (k' & Hpk & Hf).
  apply lookups_of_range in Hf. subst k'. exact Hpk.
Qed.

End SampleAll.

(** ** Action selection and the episode loop *)

Section ActRange.
Context {F W Opt G : Type}.
Context `{Numeric F} `{Approximator F W Opt} `{RandomState F G}.

(** The scan of [tf.argmax] stays on the index it holds or moves to one of
    the positions it reads. *)
Lemma argmax_from_range (l : list F) : forall (best : F) (besti i : Z),
  argmax_from best besti i l = besti \/
  i <= argmax_from best besti i l < i + Z.of_nat (length l).
Proof.
  induction l as [|x r IH]; intros best besti i; cbn [argmax_from length].
  - left. reflexivity.
  - destruct (ltb best x).
    + right. destruct (IH x i (i + 1)) as [->|Hr]; lia.
    + destruct (IH best besti (i + 1)) as [->|Hr]; [left; reflexivity|].
      right. lia.
Qed.

Lemma tf_argmax_range (output : list F) :
  output <> [] ->
  exists a : Z,
    tf_argmax output = Ok a /\ 0 <= a < Z.of_nat (length output).
Proof.
  destruct output as [|x r]; [congruence|]. intros _.
  cbn [tf_argmax length]. eexists. split; [reflexivity|].
  destruct (argmax_from_range r x 0 1) as [->|Hr]; lia.
Qed.

(** In either mode, for a network with one output per action
    ([dims[-1] = n >= 1] of them), [act] returns an action in [[0, n)]:
    the greedy index, or a draw of [randint(0, n)]. *)
Theorem act_returns_valid_action (self : DeepQNetwork.t F W Opt) (g : G)
    (state : list F) (evaluation : bool) (n : Z) :
  randint_law ->
  py_last (DeepQNetwork.dims self) = Ok n ->
  1 <= n ->
  Z.of_nat (length (call (DeepQNetwork.q_net self) state)) = n ->
  exists (a : Z) (g' : G),
    DeepQNetwork.act self g state evaluation = Ok (a, g') /\ 0 <= a < n.
Proof.
  intros Hrand Hlast Hn Hout. unfold DeepQNetwork.act.
  assert (Hne : call (DeepQNetwork.q_net self) state <> [])
    by (intros Hnil; rewrite Hnil in Hout; cbn in Hout; lia).
  destruct (tf_argmax_range _ Hne) as (a & Harg & Ha).
  destruct (negb evaluation).
  - destruct (uniform g) as [u g1].
    destruct (ltb u (DeepQNetwork.epsilon self)).
    + rewrite Hlast. cbn [mbind result_bind]. unfold np_random_randint.
      destruct (Z.leb_spec n 0); [lia|].
      pose proof (Hrand g1 0 n ltac:(lia)) as Hdraw.
      destruct (randint_draw g1 0 n) as [r g2]. cbn [fst] in Hdraw.
      exists r, g2. split; [reflexivity|lia].
    + rewrite Harg. exists a, g1. split; [reflexivity|lia].
  - rewrite Harg. exists a, g. split; [reflexivity|lia].
Qed.

End ActRange.

Section Episode.
Context {F W Opt E G : Type}.
Context `{Numeric F} `{Approximator F W Opt} `{Environment F E}.
Context `{RandomState F G}.

Abbreviation Agent := (DeepQNetwork.t F W Opt).
Abbreviation Experience := (ExperienceReplay.Experience F).

(** What a run of the [while not done] loop leaves behind. *)
Lemma simulate_loop_records (fuel : nat) :
  forall (self : Agent) (env : E) (g : G) (render evaluation : bool)
         (state : list F) (iters : Z) (total : F) (states : list (list F))
         iters' total' states' self' env' g',
  DeepQNetwork.simulate_loop fuel self env g render evaluation state
    iters total states = Ok (iters', total', states', self', env', g') ->
  exists records : list Experience,
    (1 <= length records <= fuel)%nat /\
    iters' = iters + Z.of_nat (length records) /\
    states' = states ++ (ExperienceReplay.new_state <$> records) /\
    total' = foldl add total (ExperienceReplay.reward <$> records) /\
    DeepQNetwork.replay self' =
      ExperienceReplay.appended (DeepQNetwork.replay self) records /\
    ExperienceReplay.done <$> records =
      replicate (length records - 1) false ++ [true] /\
    ExperienceReplay.state <$> records =
      take (length records)
           (state :: (ExperienceReplay.new_state <$> records)).
Proof.
  induction fuel as [|fuel IH]; intros * Hrun; [discriminate|].
  cbn [DeepQNetwork.simulate_loop] in Hrun.
  apply bind_Ok in Hrun. destruct Hrun as ([action g1] & _ & Hrun).
  destruct (env_step _ action) as [[[new_state reward] done] env2].
  destruct done.
  - injection Hrun as <- <- <- <- <- <-.
    exists [ExperienceReplay.mkExperience state action reward true new_state].
    cbn. repeat split; lia.
  - apply IH in Hrun.
    destruct Hrun as (rest & Hlen & Hit & Hst & Htot & Hrep & Hdone & Hchain).
    exists (ExperienceReplay.mkExperience state action reward false new_state
              :: rest).
    cbn [length fmap list_fmap ExperienceReplay.new_state
         ExperienceReplay.reward ExperienceReplay.done ExperienceReplay.state
         foldl].
    split; [lia|]. split; [lia|].
    split; [rewrite Hst, <- (assoc_L (++)); reflexivity|].
    split; [exact Htot|]. split; [exact Hrep|]. split.
    + change (list_fmap _ _ ExperienceReplay.done rest)
        with (ExperienceReplay.done <$> rest).
      rewrite Hdone.
      destruct (length rest) as [|m] eqn:Hm; [lia|].
      cbn. rewrite Nat.sub_0_r. reflexivity.
    + cbn [take]. f_equal.
      change (list_fmap _ _ ExperienceReplay.state rest)
        with (ExperienceReplay.state <$> rest).
      exact Hchain.
Qed.

(** An episode that returns has taken [iters >= 1] steps and appended one
    record per step to the replay buffer, in evaluation mode as in
    training mode.  The trajectory returned is the records' new states and
    the total reward their rewards added up from 0; only the last record
    is terminal; the first record starts from the state [reset] gave and
    each later one from the new state of the record before it. *)
Theorem simulate_records_episode (fuel : nat) (self self' : Agent)
    (env env' : E) (g g' : G) (render evaluation graph : bool)
    (path : option string) (iters : Z) (total : F)
    (states : list (list F)) :
  DeepQNetwork.simulate fuel self env g render evaluation graph path =
    Ok (iters, total, states, self', env', g') ->
  exists records : list Experience,
    1 <= iters /\
    iters = Z.of_nat (length records) /\
    states = ExperienceReplay.new_state <$> records /\
    total = foldl add zero (ExperienceReplay.reward <$> records) /\
    DeepQNetwork.replay self' =
      ExperienceReplay.appended (DeepQNetwork.replay self) records /\
    ExperienceReplay.done <$> records =
      replicate (length records - 1) false ++ [true] /\
    ExperienceReplay.state <$> records =
      take (length records)
           ((env_reset env).1 :: (ExperienceReplay.new_state <$> records)).
Proof.
  unfold DeepQNetwork.simulate. destruct (env_reset env) as [state env0].
  intros Hrun. apply bind_Ok in Hrun.
  destruct Hrun as ([[[[[iters1 total1] states1] self1] env1] g1] & Hloop & Hrun).
  injection Hrun as <- <- <- <- <- <-.
  apply simulate_loop_records in Hloop.
  destruct Hloop as (records & Hlen & Hit & Hst & Htot & Hrep & Hdone & Hchain).
  exists records.
  split; [lia|]. split; [lia|]. split; [exact Hst|].
  split; [exact Htot|]. split; [exact Hrep|]. split; assumption.
Qed.

End Episode.

(** ** The descent loop *)

Section Descent.
Context {F W Opt G : Type}.
Context `{Numeric F} `{Approximator F W Opt} `{RandomState F G}.

Abbreviation Agent := (DeepQNetwork.t F W Opt).

(** The agent with other weights, target weights and optimizer state. *)
Lemma descent_iteration_frame (self self' : Agent) (g g' : G)
    (gamma loss : F) (updates : Z) :
  DeepQNetwork.descent_iteration self g gamma updates = Ok (loss, self', g') ->
  exists (w : W) (o : Opt),
    self' = DeepQNetwork.set_optimizer (DeepQNetwork.set_q_net self w) o \/
    self' = DeepQNetwork.set_optimizer
              (DeepQNetwork.set_q_net
                 (DeepQNetwork.set_q_target self (DeepQNetwork.q_net self)) w)
              o.
Proof.
  intros Hit. apply descent_iteration_inv in Hit.
  destruct Hit as (b & self1 & tq & nq & _ & Hsync & _ & _ & _ & ->).
  apply sync_target_cases in Hsync. eexists _, _.
  destruct Hsync as [->|[_ ->]]; [left|right]; reflexivity.
Qed.

Lemma descent_loop_frame (indices : list Z) :
  forall (self self' : Agent) (g g' : G) (gamma : F) (loss loss' : option F),
  DeepQNetwork.descent_loop self g gamma indices loss = Ok (loss', self', g') ->
  DeepQNetwork.set_optimizer
    (DeepQNetwork.set_q_net (DeepQNetwork.without_target self')
       (DeepQNetwork.q_net self))
    (DeepQNetwork.optimizer self) =
  DeepQNetwork.without_target self /\
  DeepQNetwork.use_target self' = DeepQNetwork.use_target self /\
  DeepQNetwork.target_frequency self' = DeepQNetwork.target_frequency self.
Proof.
  induction indices as [|updates rest IH]; intros * Hrun.
  - injection Hrun as <- <- <-. destruct self; repeat split.
  - cbn [DeepQNetwork.descent_loop] in Hrun.
    apply bind_Ok in Hrun. destruct Hrun as ([[l self1] g1] & Hit & Hrun).
    apply IH in Hrun. destruct Hrun as (Hrest & Hu & Htf).
    apply descent_iteration_frame in Hit. destruct Hit as (w & o & Hit).
    rewrite Hu, Htf.
    assert (Hw : DeepQNetwork.without_target self1 =
                 DeepQNetwork.set_optimizer
                   (DeepQNetwork.set_q_net (DeepQNetwork.without_target self) w) o)
      by (destruct Hit as [->| ->]; reflexivity).
    split; [|destruct Hit as [->| ->]; split; reflexivity].
    apply (f_equal (fun a => DeepQNetwork.set_optimizer
                               (DeepQNetwork.set_q_net a (DeepQNetwork.q_net self))
                               (DeepQNetwork.optimizer self))) in Hrest.
    rewrite Hw in Hrest. cbn in Hrest. cbn. exact Hrest.
Qed.

Lemma _update_weights_frame (self self' : Agent) (g g' : G) (gamma loss : F) :
  DeepQNetwork._update_weights self g gamma = Ok (loss, self', g') ->
  DeepQNetwork.set_optimizer
    (DeepQNetwork.set_q_net (DeepQNetwork.without_target self')
       (DeepQNetwork.q_net self))
    (DeepQNetwork.optimizer self) =
  DeepQNetwork.without_target self.
Proof.
  unfold DeepQNetwork._update_weights. intros Hrun.
  apply bind_Ok in Hrun. destruct Hrun as ([[l self1] g1] & Hloop & Hrun).
  apply bind_Ok in Hrun. destruct Hrun as (l' & _ & Hrun).
  injection Hrun as <- <- <-.
  apply descent_loop_frame in Hloop. apply Hloop.
Qed.

(** [_update_weights] assigns the online weights, the target weights and
    the optimizer state and nothing else: the replay buffer, [epsilon] and
    the hyperparameters are as before. *)
Theorem _update_weights_assigns_weights_only (self self' : Agent) (g g' : G)
    (gamma loss : F) :
  DeepQNetwork._update_weights self g gamma = Ok (loss, self', g') ->
  DeepQNetwork.replay self' = DeepQNetwork.replay self /\
  DeepQNetwork.epsilon self' = DeepQNetwork.epsilon self /\
  DeepQNetwork.epsilon_init self' = DeepQNetwork.epsilon_init self /\
  DeepQNetwork.epsilon_decay self' = DeepQNetwork.epsilon_decay self /\
  DeepQNetwork.gamma self' = DeepQNetwork.gamma self /\
  DeepQNetwork.dims self' = DeepQNetwork.dims self /\
  DeepQNetwork.memory self' = DeepQNetwork.memory self /\
  DeepQNetwork.start_updating self' = DeepQNetwork.start_updating self /\
  DeepQNetwork.batch_size self' = DeepQNetwork.batch_size self /\
  DeepQNetwork.descent_frequency self' = DeepQNetwork.descent_frequency self /\
  DeepQNetwork.update_frequency self' = DeepQNetwork.update_frequency self /\
  DeepQNetwork.use_target self' = DeepQNetwork.use_target self /\
  DeepQNetwork.target_frequency self' = DeepQNetwork.target_frequency self.
Proof.
  unfold DeepQNetwork._update_weights. intros Hrun.
  apply bind_Ok in Hrun. destruct Hrun as ([[l self1] g1] & Hloop & Hrun).
  apply bind_Ok in Hrun. destruct Hrun as (l' & _ & Hrun).
  injection Hrun as <- <- <-.
  apply descent_loop_frame in Hloop. destruct Hloop as (Hframe & Hu & Htf).
  pose proof (f_equal DeepQNetwork.replay Hframe) as Hr.
  pose proof (f_equal DeepQNetwork.epsilon Hframe) as He.
  pose proof (f_equal DeepQNetwork.epsilon_init Hframe) as Hei.
  pose proof (f_equal DeepQNetwork.epsilon_decay Hframe) as Hed.
  pose proof (f_equal DeepQNetwork.gamma Hframe) as Hg.
  pose proof (f_equal DeepQNetwork.dims Hframe) as Hd.
  pose proof (f_equal DeepQNetwork.memory Hframe) as Hm.
  pose proof (f_equal DeepQNetwork.start_updating Hframe) as Hs.
  pose proof (f_equal DeepQNetwork.batch_size Hframe) as Hb.
  pose proof (f_equal DeepQNetwork.descent_frequency Hframe) as Hdf.
  pose proof (f_equal DeepQNetwork.update_frequency Hframe) as Huf.
  cbn in *. repeat split; assumption.
Qed.

Lemma py_range_last (n : Z) :
  1 <= n -> py_range n = py_range (n - 1) ++ [n - 1].
Proof.
  intros Hn. unfold py_range.
  replace (Z.to_nat n) with (S (Z.to_nat (n - 1))) by lia.
  rewrite seq_S, fmap_app. cbn. f_equal. f_equal. lia.
Qed.

Lemma py_range_empty (n : Z) : n <= 0 -> py_range n = [].
Proof.
  intros Hn. unfold py_range.
  replace (Z.to_nat n) with 0%nat by lia. reflexivity.
Qed.

Lemma descent_loop_app (l1 l2 : list Z) :
  forall (self : Agent) (g : G) (gamma : F) (loss : option F),
  DeepQNetwork.descent_loop self g gamma (l1 ++ l2) loss =
  DeepQNetwork.descent_loop self g gamma l1 loss ≫=
    (fun '(loss1, self1, g1) =>
       DeepQNetwork.descent_loop self1 g1 gamma l2 loss1).
Proof.
  induction l1 as [|updates rest IH]; intros self g gamma loss;
    [reflexivity|].
  cbn [app DeepQNetwork.descent_loop].
  destruct (DeepQNetwork.descent_iteration self g gamma updates)
    as [[[l self1] g1]| |]; [|reflexivity|reflexivity].
  cbn [mbind result_bind]. apply IH.
Qed.

(** The loss [_update_weights] returns, and the agent it leaves, are those
    of the last pass, the one with index [descent_frequency - 1]. *)
Theorem _update_weights_returns_last_pass (self self' : Agent) (g g' : G)
    (gamma loss : F) :
  DeepQNetwork._update_weights self g gamma = Ok (loss, self', g') ->
  1 <= DeepQNetwork.descent_frequency self /\
  exists (before : Agent) (g0 : G),
    DeepQNetwork.descent_iteration before g0 gamma
      (DeepQNetwork.descent_frequency self - 1) = Ok (loss, self', g').
Proof.
  unfold DeepQNetwork._update_weights. intros Hrun.
  apply bind_Ok in Hrun. destruct Hrun as ([[l self1] g1] & Hloop & Hrun).
  apply bind_Ok in Hrun. destruct Hrun as (l' & Hl & Hrun).
  apply of_option_Ok in Hl. injection Hrun as <- <- <-. subst l.
  destruct (Z_lt_le_dec (DeepQNetwork.descent_frequency self) 1) as [Hlt|Hge].
  - rewrite py_range_empty in Hloop by lia. discriminate.
  - split; [exact Hge|].
    rewrite (py_range_last _ Hge), descent_loop_app in Hloop.
    apply bind_Ok in Hloop.
    destruct Hloop as ([[l0 before] g0] & _ & Hlast).
    cbn [DeepQNetwork.descent_loop] in Hlast.
    apply bind_Ok in Hlast. destruct Hlast as ([[l2 self2] g2] & Hit & Hlast).
    injection Hlast as <- <- <-.
    exists before, g0. exact Hit.
Qed.

(** With no pass to run ([descent_frequency <= 0]) the [return loss] of
    [_update_weights] finds [loss] unbound. *)
Theorem _update_weights_without_pass (self : Agent) (g : G) (gamma : F) :
  DeepQNetwork.descent_frequency self <= 0 ->
  DeepQNetwork._update_weights self g gamma = Raise UnboundLocalError.
Proof.
  intros Hdf. unfold DeepQNetwork._update_weights.
  rewrite py_range_empty by exact Hdf. reflexivity.
Qed.

Lemma sample_nonpositive_raises (self : Agent) (g : G) :
  DeepQNetwork.batch_size self <= 0 ->
  ExperienceReplay.sample (DeepQNetwork.replay self) g
    (DeepQNetwork.batch_size self) = Raise ValueError.
Proof.
  intros Hk. unfold ExperienceReplay.sample, np_random_choice.
  set (k := DeepQNetwork.batch_size self) in *.
  set (n := ExperienceReplay.len (DeepQNetwork.replay self)).
  assert (Hn : 0 <= n)
    by (unfold n, ExperienceReplay.len, Deque.len; lia).
  destruct ((n <=? 0) && negb (k =? 0)); [reflexivity|].
  destruct (Z.ltb_spec n k); [reflexivity|].
  destruct (Z.ltb_spec k 0); [reflexivity|].
  assert (k = 0) as -> by lia.
  destruct (permutation g (Z.to_nat n)) as [p g1]. reflexivity.
Qed.

(** [_update_weights] does not guard its sampling: with a pass to run and a
    batch size above the number of stored records, or not positive, the
    ValueError of [sample] comes out of the first pass. *)
Theorem _update_weights_propagates_sampling_error (self : Agent) (g : G)
    (gamma : F) :
  1 <= DeepQNetwork.descent_frequency self ->
  ExperienceReplay.len (DeepQNetwork.replay self) <
    DeepQNetwork.batch_size self \/
  DeepQNetwork.batch_size self <= 0 ->
  DeepQNetwork._update_weights self g gamma = Raise ValueError.
Proof.
  intros Hdf Hb. unfold DeepQNetwork._update_weights.
  destruct (py_range_first (DeepQNetwork.descent_frequency self))
    as [rest ->]; [lia|].
  cbn [DeepQNetwork.descent_loop]. unfold DeepQNetwork.descent_iteration.
  destruct Hb as [Hb|Hb].
  - unfold ExperienceReplay.sample.
    rewrite np_random_choice_larger by exact Hb. reflexivity.
  - rewrite sample_nonpositive_raises by exact Hb. reflexivity.
Qed.

End Descent.

(** ** The targets of a descent pass *)

Section SampleInv.
Context {A B : Type}.

Lemma mapM_result_Ok_inv (f : A -> result B) (l : list A) :
  forall k : list B,
  mapM (M := result) f l = Ok k -> Forall2 (fun x y => f x = Ok y) l k.
Proof.
  induction l as [|x l IH]; intros k Hk.
  - injection Hk as <-. constructor.
  - change (mapM (M := result) f (x :: l))
      with (f x ≫= λ y', mapM (M := result) f l ≫= λ k', mret (y' :: k'))
      in Hk.
    bind_inv Hk. bind_inv Hk. injection Hk as <-.
    constructor; [exact Ha|apply IH; exact Ha0].
Qed.

End SampleInv.

Section BellmanPass.
Context {F W Opt G : Type}.
Context `{Numeric F} `{Approximator F W Opt} `{RandomState F G}.

Abbreviation Agent := (DeepQNetwork.t F W Opt).

(** What [sample] returns, when it returns: the columns of records read
    from the buffer, with the rewards cast to float32. *)
Lemma sample_inv (self : ExperienceReplay.t F) (g g' : G) (k : Z)
    (b : ExperienceReplay.Batch F) :
  ExperienceReplay.sample self g k = Ok (b, g') ->
  exists (indices : list nat) (records : list (ExperienceReplay.Experience F)),
    np_random_choice g (ExperienceReplay.len self) k = Ok (indices, g') /\
    Forall2 (fun i r => Deque.items (ExperienceReplay.buffer self) !! i = Some r)
            indices records /\
    b = ExperienceReplay.mkBatch
          (ExperienceReplay.state <$> records)
          (ExperienceReplay.action <$> records)
          (float32 ∘ ExperienceReplay.reward <$> records)
          (ExperienceReplay.done <$> records)
          (ExperienceReplay.new_state <$> records).
Proof.
  unfold ExperienceReplay.sample. intros Hs.
  bind_inv Hs. destruct a as [indices g1].
  bind_inv Hs. bind_inv Hs. injection Hs as <- <-.
  exists indices, a. split; [exact Ha|]. split.
  - apply mapM_result_Ok_inv in Ha0.
    eapply Forall2_impl; [exact Ha0|].
    intros i r Hir. unfold Deque.index in Hir.
    apply of_option_Ok in Hir. exact Hir.
  - unfold ExperienceReplay.unzip5 in Ha1.
    destruct a as [|r records]; [discriminate|].
    injection Ha1 as <-. reflexivity.
Qed.

Lemma py_range_split (n u : Z) :
  0 <= u < n ->
  exists rest : list Z,
    py_range n = py_range u ++ u :: rest /\ (u = n - 1 -> rest = []).
Proof.
  intros Hu. unfold py_range.
  exists (Z.of_nat <$> seq (S (Z.to_nat u)) (Z.to_nat (n - u - 1))).
  split.
  - replace (Z.to_nat n)
      with (Z.to_nat u + S (Z.to_nat (n - u - 1)))%nat by lia.
    rewrite seq_app, fmap_app. cbn [seq fmap list_fmap].
    rewrite Nat.add_0_l, Z2Nat.id by lia. reflexivity.
  - intros ->. replace (n - (n - 1) - 1) with 0 by lia. reflexivity.
Qed.

(** [np.where(dones, rewards, rewards + gamma * next_Q)] on the columns of
    the sampled records, entry by entry. *)
Lemma bellman_y_records (gamma : F) (Q' : W)
    (records : list (ExperienceReplay.Experience F)) :
  DeepQNetwork.bellman_y gamma
    (ExperienceReplay.mkBatch
       (ExperienceReplay.state <$> records)
       (ExperienceReplay.action <$> records)
       (float32 ∘ ExperienceReplay.reward <$> records)
       (ExperienceReplay.done <$> records)
       (ExperienceReplay.new_state <$> records))
    (reduce_max ∘ call Q' <$> (ExperienceReplay.new_state <$> records)) =
  (fun r : ExperienceReplay.Experience F =>
     if ExperienceReplay.done r then float32 (ExperienceReplay.reward r)
     else add (float32 (ExperienceReplay.reward r))
              (mul gamma
                 (reduce_max (call Q' (ExperienceReplay.new_state r)))))
    <$> records.
Proof.
  unfold DeepQNetwork.bellman_y, np_where.
  cbn [ExperienceReplay.dones ExperienceReplay.rewards].
  induction records as [|r records IH]; [reflexivity|].
  cbn [fmap list_fmap zip_with]. cbn [fmap list_fmap] in IH.
  rewrite IH. reflexivity.
Qed.

(** A terminal record's entry of [y] is its reward, whatever the discount
    and the bootstrap values. *)
Lemma bellman_y_terminal (gamma : F) (nq : list F)
    (records : list (ExperienceReplay.Experience F)) (i : nat)
    (r : ExperienceReplay.Experience F) :
  length nq = length records ->
  records !! i = Some r ->
  ExperienceReplay.done r = true ->
  DeepQNetwork.bellman_y gamma
    (ExperienceReplay.mkBatch
       (ExperienceReplay.state <$> records)
       (ExperienceReplay.action <$> records)
       (float32 ∘ ExperienceReplay.reward <$> records)
       (ExperienceReplay.done <$> records)
       (ExperienceReplay.new_state <$> records)) nq !! i =
  Some (float32 (ExperienceReplay.reward r)).
Proof.
  intros Hlen Hr Hd.
  assert (Hlt : (i < length nq)%nat).
  { rewrite Hlen. apply lookup_lt_is_Some. eauto. }
  destruct (lookup_lt_is_Some_2 nq i Hlt) as [q Hq].
  unfold DeepQNetwork.bellman_y.
  cbn [ExperienceReplay.dones ExperienceReplay.rewards].
  rewrite (np_where_lookup _ _ _ i true
             (float32 (ExperienceReplay.reward r))
             (add (float32 (ExperienceReplay.reward r)) (mul gamma q))).
  - reflexivity.
  - rewrite list_lookup_fmap, Hr. cbn. rewrite Hd. reflexivity.
  - rewrite list_lookup_fmap, Hr. reflexivity.
  - assert (Hx : (float32 ∘ ExperienceReplay.reward <$> records) !! i =
                 Some (float32 (ExperienceReplay.reward r)))
      by (rewrite list_lookup_fmap, Hr; reflexivity).
    assert (Hy : (mul gamma <$> nq) !! i = Some (mul gamma q))
      by (rewrite list_lookup_fmap, Hq; reflexivity).
    rewrite lookup_zip_with, Hx. cbn. rewrite Hy. reflexivity.
Qed.

(** C1.  Every pass of the descent loop of [_update_weights] regresses on
    these targets.  Take a call that returns and a pass index [updates] of
    its loop.  The pass starts from the agent [before] the earlier passes
    left, draws [records] from the replay buffer (which is the one the call
    started with), makes the copy into the target network if it is due, and
    then, with [Q'] the target network when [use_target] is set and the
    online network otherwise, computes its loss and its gradient step from
    the targets [y] with one entry per sampled record: the reward (as
    [sample] returns it, cast to float32) when [done] is true, and the
    reward plus [gamma * max Q'(new_state)] when it is false.  The entry of
    a terminal record is its reward whatever the discount and the bootstrap
    values are.  The last pass gives the loss the call returns and the agent
    it leaves. *)
Theorem bellman_target_per_sample (self self' : Agent) (g g' : G)
    (gamma loss : F) (updates : Z) :
  DeepQNetwork._update_weights self g gamma = Ok (loss, self', g') ->
  0 <= updates < DeepQNetwork.descent_frequency self ->
  exists (before after self1 : Agent) (g0 g1 : G) (loss0 : option F)
         (loss1 : F) (records : list (ExperienceReplay.Experience F))
         (Q' : W) (tq nq : list F),
    let b := ExperienceReplay.mkBatch
               (ExperienceReplay.state <$> records)
               (ExperienceReplay.action <$> records)
               (float32 ∘ ExperienceReplay.reward <$> records)
               (ExperienceReplay.done <$> records)
               (ExperienceReplay.new_state <$> records) in
    let y := (fun r : ExperienceReplay.Experience F =>
                if ExperienceReplay.done r
                then float32 (ExperienceReplay.reward r)
                else add (float32 (ExperienceReplay.reward r))
                         (mul gamma
                            (reduce_max
                               (call Q' (ExperienceReplay.new_state r)))))
               <$> records in
    let step := apply_gradients (DeepQNetwork.optimizer self1)
                  (DeepQNetwork.q_net self1) (ExperienceReplay.states b)
                  (ExperienceReplay.actions b) y in
    DeepQNetwork.descent_loop self g gamma (py_range updates) None =
      Ok (loss0, before, g0) /\
    DeepQNetwork.descent_iteration before g0 gamma updates =
      Ok (loss1, after, g1) /\
    (updates = DeepQNetwork.descent_frequency self - 1 ->
     loss = loss1 /\ self' = after /\ g' = g1) /\
    DeepQNetwork.replay before = DeepQNetwork.replay self /\
    ExperienceReplay.sample (DeepQNetwork.replay before) g0
      (DeepQNetwork.batch_size before) = Ok (b, g1) /\
    Forall (fun r => r ∈ Deque.items
                          (ExperienceReplay.buffer (DeepQNetwork.replay self)))
           records /\
    DeepQNetwork.sync_target before updates = Ok self1 /\
    (if DeepQNetwork.use_target before
     then DeepQNetwork.q_target self1 = Some Q'
     else DeepQNetwork.q_net self1 = Q') /\
    DeepQNetwork.this_Q self1 b = Ok tq /\
    DeepQNetwork.next_Q self1 b = Ok nq /\
    DeepQNetwork.bellman_y gamma b nq = y /\
    loss1 = DeepQNetwork.bellman_loss y tq /\
    after = DeepQNetwork.set_optimizer
              (DeepQNetwork.set_q_net self1 step.2) step.1 /\
    (forall (i : nat) (r : ExperienceReplay.Experience F),
       records !! i = Some r -> ExperienceReplay.done r = true ->
       forall (gamma' : F) (nq' : list F),
         length nq' = length nq ->
         DeepQNetwork.bellman_y gamma' b nq' !! i =
           Some (float32 (ExperienceReplay.reward r))).
Proof.
  intros Hrun Hu. unfold DeepQNetwork._update_weights in Hrun.
  apply bind_Ok in Hrun. destruct Hrun as ([[l selfn] gn] & Hloop & Hrun).
  apply bind_Ok in Hrun. destruct Hrun as (l' & Hl & Hrun).
  apply of_option_Ok in Hl. injection Hrun as -> -> ->. subst l.
  destruct (py_range_split _ _ Hu) as (rest & Hsplit & Hlast).
  rewrite Hsplit, descent_loop_app in Hloop.
  apply bind_Ok in Hloop.
  destruct Hloop as ([[loss0 before] g0] & Hbefore & Hloop).
  cbn [DeepQNetwork.descent_loop] in Hloop.
  apply bind_Ok in Hloop.
  destruct Hloop as ([[loss1 after] g1] & Hit & Hrest).
  pose proof (descent_loop_frame _ _ _ _ _ _ _ _ Hbefore) as (Hframe & _ & _).
  apply (f_equal DeepQNetwork.replay) in Hframe. cbn in Hframe.
  pose proof (descent_iteration_inv _ _ _ _ _ _ _ Hit)
    as (b & self1 & tq & nq & Hsample & Hsync & Htq & Hnq & Hloss & Hafter).
  destruct (sample_inv _ _ _ _ _ Hsample)
    as (indices & records & _ & Hrec & ->).
  pose proof Hnq as Hnq'. unfold DeepQNetwork.next_Q in Hnq'.
  apply bind_Ok in Hnq'. destruct Hnq' as (Q' & HQ & Hnq').
  injection Hnq' as Hnq'. cbn [ExperienceReplay.next_states] in Hnq'.
  assert (Hy := bellman_y_records gamma Q' records). rewrite Hnq' in Hy.
  exists before, after, self1, g0, g1, loss0, loss1, records, Q', tq, nq.
  cbn zeta.
  split; [exact Hbefore|]. split; [exact Hit|]. split.
  { intros Heq. rewrite (Hlast Heq) in Hrest.
    injection Hrest as -> -> ->. repeat split. }
  split; [exact Hframe|]. split; [exact Hsample|]. split.
  { rewrite <- Hframe. apply Forall_forall. intros r Hr.
    apply list_elem_of_lookup in Hr. destruct Hr as [j Hj].
    destruct (Forall2_lookup_r _ _ _ _ _ Hrec Hj) as (i & _ & Hi).
    apply list_elem_of_lookup. exists i. exact Hi. }
  split; [exact Hsync|]. split.
  { unfold DeepQNetwork.bootstrap_net in HQ.
    apply sync_target_cases in Hsync.
    assert (Hut : DeepQNetwork.use_target self1 =
                  DeepQNetwork.use_target before)
      by (destruct Hsync as [->|[_ ->]]; reflexivity).
    rewrite Hut in HQ.
    destruct (DeepQNetwork.use_target before).
    - apply of_option_Ok in HQ. exact HQ.
    - injection HQ as HQ. exact HQ. }
  split; [exact Htq|]. split; [exact Hnq|]. split; [exact Hy|].
  cbn zeta in Hloss, Hafter. rewrite Hy in Hloss, Hafter.
  split; [exact Hloss|]. split; [exact Hafter|].
  intros i r Hr Hd gamma' nq'' Hlen.
  apply bellman_y_terminal; [|exact Hr|exact Hd].
  rewrite Hlen, <- Hnq', !length_fmap. reflexivity.
Qed.

End BellmanPass.

(** ** The target network in the descent loop *)

Section TargetSchedule.
Context {F W Opt G : Type}.
Context `{Numeric F} `{Approximator F W Opt} `{RandomState F G}.

Abbreviation Agent := (DeepQNetwork.t F W Opt).

(** Pass 0 copies the online weights before anything reads the target. *)
Lemma first_pass_ignores_target (self : Agent) (g : G) (gamma : F) (w : W)
    (frequency : Z) :
  DeepQNetwork.use_target self = true ->
  DeepQNetwork.target_frequency self = Some frequency ->
  frequency <> 0 ->
  is_Some (DeepQNetwork.q_target self) ->
  DeepQNetwork.descent_iteration (DeepQNetwork.set_q_target self w) g gamma 0 =
  DeepQNetwork.descent_iteration self g gamma 0.
Proof.
  intros Hu Htf Hf [t Ht]. unfold DeepQNetwork.descent_iteration.
  cbn [DeepQNetwork.set_q_target DeepQNetwork.replay DeepQNetwork.batch_size].
  destruct (ExperienceReplay.sample _ g _) as [[b g1]| |];
    [|reflexivity|reflexivity].
  cbn [mbind result_bind]. unfold DeepQNetwork.sync_target.
  cbn [DeepQNetwork.set_q_target DeepQNetwork.use_target
       DeepQNetwork.target_frequency DeepQNetwork.q_target DeepQNetwork.q_net].
  rewrite Hu, Htf, Ht. cbn [of_option mbind result_bind].
  rewrite (py_mod_nonzero 0 frequency Hf). reflexivity.
Qed.

(** With a target network and a frequency other than 0, [_update_weights]
    never reads the target weights it starts with (such as those
    [clone_model] initialised): replacing them changes nothing of what it
    returns or raises. *)
Theorem _update_weights_ignores_initial_target (self : Agent) (g : G)
    (gamma : F) (w : W) (frequency : Z) :
  DeepQNetwork.use_target self = true ->
  DeepQNetwork.target_frequency self = Some frequency ->
  frequency <> 0 ->
  is_Some (DeepQNetwork.q_target self) ->
  DeepQNetwork._update_weights (DeepQNetwork.set_q_target self w) g gamma =
  DeepQNetwork._update_weights self g gamma.
Proof.
  intros Hu Htf Hf Ht. unfold DeepQNetwork._update_weights.
  cbn [DeepQNetwork.set_q_target DeepQNetwork.descent_frequency].
  destruct (Z_lt_le_dec (DeepQNetwork.descent_frequency self) 1) as [Hlt|Hge].
  - rewrite py_range_empty by lia. reflexivity.
  - destruct (py_range_first (DeepQNetwork.descent_frequency self))
      as [rest ->]; [lia|].
    cbn [DeepQNetwork.descent_loop].
    rewrite (first_pass_ignores_target self g gamma w frequency Hu Htf Hf Ht).
    reflexivity.
Qed.

(** One pass with [target_frequency = 1] computes what the pass of the
    agent without a target network computes. *)
Lemma descent_iteration_frequency_one (self : Agent) (g : G) (gamma : F)
    (updates : Z) :
  DeepQNetwork.use_target self = true ->
  DeepQNetwork.target_frequency self = Some 1 ->
  is_Some (DeepQNetwork.q_target self) ->
  DeepQNetwork.descent_iteration (DeepQNetwork.without_target self) g gamma
    updates =
  DeepQNetwork.forget_target
    (DeepQNetwork.descent_iteration self g gamma updates).
Proof.
  intros Hu Htf [t Ht].
  unfold DeepQNetwork.descent_iteration, DeepQNetwork.sync_target,
    DeepQNetwork.this_Q, DeepQNetwork.next_Q, DeepQNetwork.bootstrap_net,
    DeepQNetwork.without_target.
  cbn [DeepQNetwork.replay DeepQNetwork.batch_size DeepQNetwork.use_target
       DeepQNetwork.q_net DeepQNetwork.optimizer].
  destruct (ExperienceReplay.sample _ g _) as [[b g1]| |];
    [|reflexivity|reflexivity].
  cbn [mbind result_bind mret result_ret].
  rewrite Hu, Htf, Ht. cbn [of_option mbind result_bind].
  unfold py_mod. cbn [Z.eqb]. rewrite Z.mod_1_r.
  cbn [Z.eqb mbind result_bind mret result_ret].
  cbn [DeepQNetwork.set_q_target DeepQNetwork.q_net DeepQNetwork.use_target
       DeepQNetwork.q_target DeepQNetwork.optimizer of_option].
  rewrite Hu.
  destruct (mapM _ _) as [tq| |]; [|reflexivity|reflexivity].
  cbn [mbind result_bind mret result_ret of_option].
  destruct (apply_gradients _ _ _ _ _) as [opt w'].
  reflexivity.
Qed.

Lemma descent_iteration_keeps_target (self self' : Agent) (g g' : G)
    (gamma loss : F) (updates : Z) :
  DeepQNetwork.descent_iteration self g gamma updates = Ok (loss, self', g') ->
  DeepQNetwork.use_target self' = DeepQNetwork.use_target self /\
  DeepQNetwork.target_frequency self' = DeepQNetwork.target_frequency self /\
  (is_Some (DeepQNetwork.q_target self) ->
   is_Some (DeepQNetwork.q_target self')).
Proof.
  intros Hit. apply descent_iteration_frame in Hit.
  destruct Hit as (w & o & [->| ->]); cbn; repeat split; eauto.
Qed.

Lemma descent_loop_frequency_one (indices : list Z) :
  forall (self : Agent) (g : G) (gamma : F) (loss : option F),
  DeepQNetwork.use_target self = true ->
  DeepQNetwork.target_frequency self = Some 1 ->
  is_Some (DeepQNetwork.q_target self) ->
  DeepQNetwork.descent_loop (DeepQNetwork.without_target self) g gamma
    indices loss =
  DeepQNetwork.descent_loop self g gamma indices loss ≫=
    (fun '(l, s, g1) => mret (l, DeepQNetwork.without_target s, g1)).
Proof.
  induction indices as [|updates rest IH]; intros self g gamma loss Hu Htf Ht;
    [reflexivity|].
  cbn [DeepQNetwork.descent_loop].
  rewrite (descent_iteration_frequency_one self g gamma updates Hu Htf Ht).
  destruct (DeepQNetwork.descent_iteration self g gamma updates)
    as [[[l self1] g1]| |] eqn:Hit; [|reflexivity|reflexivity].
  cbn [DeepQNetwork.forget_target mbind result_bind mret result_ret].
  destruct (descent_iteration_keeps_target _ _ _ _ _ _ _ Hit)
    as (Hu1 & Htf1 & Ht1).
  apply IH; [congruence|congruence|auto].
Qed.

(** The docstring of [__init__] has it that [use_target=False] has the
    effect of [target_frequency=1].  It does: with a target network synced
    on every pass, [_update_weights] returns the loss, online weights and
    optimizer state, or raises the error, that it does for the same agent
    without a target network. *)
Theorem target_frequency_one_is_no_target (self : Agent) (g : G) (gamma : F) :
  DeepQNetwork.use_target self = true ->
  DeepQNetwork.target_frequency self = Some 1 ->
  is_Some (DeepQNetwork.q_target self) ->
  DeepQNetwork._update_weights (DeepQNetwork.without_target self) g gamma =
  DeepQNetwork.forget_target (DeepQNetwork._update_weights self g gamma).
Proof.
  intros Hu Htf Ht. unfold DeepQNetwork._update_weights.
  cbn [DeepQNetwork.without_target DeepQNetwork.descent_frequency].
  rewrite (descent_loop_frequency_one _ self g gamma None Hu Htf Ht).
  destruct (DeepQNetwork.descent_loop self g gamma _ None)
    as [[[l s] g1]| |]; [|reflexivity|reflexivity].
  cbn [mbind result_bind mret result_ret].
  destruct l; reflexivity.
Qed.

End TargetSchedule.

(** ** The training loop *)

Section Training.
Context {F W Opt E G : Type}.
Context `{Numeric F} `{Approximator F W Opt} `{Environment F E}.
Context `{RandomState F G}.

Abbreviation Agent := (DeepQNetwork.t F W Opt).

(** An episode of [train], taken apart: the assignment of [epsilon], the
    simulation, and then either no update or [_update_weights]. *)
Lemma train_episode_inv (fuel : nat) (self self' : Agent) (env env' : E)
    (g g' : G) (episodes render_frequency episode : Z) (summary : bool) :
  DeepQNetwork.train_episode fuel self env g episodes render_frequency
    summary episode = Ok (self', env', g') ->
  exists (e : F) (iters : Z) (total : F) (states : list (list F))
         (self2 : Agent) (g2 : G),
    DeepQNetwork._epsilon self episode episodes = Ok e /\
    DeepQNetwork.simulate fuel (DeepQNetwork.set_epsilon self e) env g
      (episode mod render_frequency =? 0) false summary None =
      Ok (iters, total, states, self2, env', g2) /\
    ((self' = self2 /\ g' = g2) \/
     (DeepQNetwork.start_updating self2 <=
        ExperienceReplay.len (DeepQNetwork.replay self2) /\
      DeepQNetwork.update_frequency self2 <> 0 /\
      episode mod DeepQNetwork.update_frequency self2 = 0 /\
      exists loss : F,
        DeepQNetwork._update_weights self2 g2 (DeepQNetwork.gamma self2) =
          Ok (loss, self', g'))).
Proof.
  unfold DeepQNetwork.train_episode. intros Hrun.
  apply bind_Ok in Hrun. destruct Hrun as (e & He & Hrun).
  apply bind_Ok in Hrun. destruct Hrun as (r & Hr & Hrun).
  apply bind_Ok in Hrun.
  destruct Hrun as ([[[[[iters total] states] self2] env2] g2] & Hsim & Hrun).
  apply bind_Ok in Hrun. destruct Hrun as (update & Hup & Hrun).
  unfold py_mod in Hr.
  destruct (render_frequency =? 0); [discriminate|]. injection Hr as <-.
  exists e, iters, total, states, self2, g2.
  destruct update.
  - apply bind_Ok in Hrun. destruct Hrun as ([[loss self3] g3] & Hupd & Hrun).
    injection Hrun as <- <- <-.
    split; [exact He|]. split; [exact Hsim|]. right.
    destruct (Z.leb_spec (DeepQNetwork.start_updating self2)
                (ExperienceReplay.len (DeepQNetwork.replay self2)));
      [|discriminate].
    apply bind_Ok in Hup. destruct Hup as (m & Hm & Hup).
    unfold py_mod in Hm.
    destruct (Z.eqb_spec (DeepQNetwork.update_frequency self2) 0);
      [discriminate|].
    injection Hm as <-. injection Hup as Hup.
    apply Z.eqb_eq in Hup.
    split; [assumption|]. split; [assumption|]. split; [exact Hup|].
    exists loss. exact Hupd.
  - injection Hrun as <- <- <-.
    split; [exact He|]. split; [exact Hsim|]. left. split; reflexivity.
Qed.

(** An episode of [train] changes the online weights or the optimizer
    state only if, after its simulation, the buffer holds at least
    [start_updating] records and the episode index is a multiple of
    [update_frequency]; an update leaves the buffer as the simulation left
    it. *)
Theorem train_episode_updates_only_when_due (fuel : nat) (self self' : Agent)
    (env env' : E) (g g' : G) (episodes render_frequency episode : Z)
    (summary : bool) :
  DeepQNetwork.train_episode fuel self env g episodes render_frequency
    summary episode = Ok (self', env', g') ->
  (DeepQNetwork.q_net self' = DeepQNetwork.q_net self /\
   DeepQNetwork.optimizer self' = DeepQNetwork.optimizer self /\
   DeepQNetwork.q_target self' = DeepQNetwork.q_target self) \/
  (DeepQNetwork.start_updating self <=
     ExperienceReplay.len (DeepQNetwork.replay self') /\
   DeepQNetwork.update_frequency self <> 0 /\
   episode mod DeepQNetwork.update_frequency self = 0).
Proof.
  intros Hrun. apply train_episode_inv in Hrun.
  destruct Hrun as (e & iters & total & states & self2 & g2 & _ & Hsim & Hcases).
  apply simulate_frame in Hsim.
  destruct Hcases as [[-> _]|(Hlen & Huf & Hmod & loss & Hupd)].
  - left. rewrite Hsim. repeat split.
  - right. apply _update_weights_frame in Hupd.
    pose proof (f_equal DeepQNetwork.replay Hupd) as Hrep. cbn in Hrep.
    rewrite Hrep. rewrite Hsim in Hlen, Huf, Hmod. cbn in Hlen, Huf, Hmod.
    rewrite Hsim. cbn. repeat split; assumption.
Qed.

(** Gating on [start_updating] does not cover the batch size: an episode
    due for an update whose simulation leaves at least [start_updating]
    but fewer than [batch_size] records raises the ValueError of
    [sample]. *)
Theorem train_episode_batch_above_buffer (fuel : nat) (self self2 : Agent)
    (env env2 : E) (g g2 : G) (episodes render_frequency episode : Z)
    (summary : bool) (e : F) (iters : Z) (total : F)
    (states : list (list F)) :
  DeepQNetwork._epsilon self episode episodes = Ok e ->
  render_frequency <> 0 ->
  DeepQNetwork.simulate fuel (DeepQNetwork.set_epsilon self e) env g
    (episode mod render_frequency =? 0) false summary None =
    Ok (iters, total, states, self2, env2, g2) ->
  DeepQNetwork.start_updating self <=
    ExperienceReplay.len (DeepQNetwork.replay self2) ->
  ExperienceReplay.len (DeepQNetwork.replay self2) <
    DeepQNetwork.batch_size self ->
  DeepQNetwork.update_frequency self <> 0 ->
  episode mod DeepQNetwork.update_frequency self = 0 ->
  1 <= DeepQNetwork.descent_frequency self ->
  DeepQNetwork.train_episode fuel self env g episodes render_frequency
    summary episode = Raise ValueError.
Proof.
  intros He Hrf Hsim Hlen Hbatch Huf Hmod Hdf.
  unfold DeepQNetwork.train_episode. rewrite He. cbn [mbind result_bind].
  rewrite (py_mod_nonzero episode render_frequency Hrf).
  cbn [mbind result_bind]. rewrite Hsim. cbn [mbind result_bind].
  pose proof (simulate_frame _ _ _ _ _ _ _ _ _ _ _ _ _ _ Hsim) as Hframe.
  assert (Hsu : DeepQNetwork.start_updating self2 =
                DeepQNetwork.start_updating self) by (rewrite Hframe; reflexivity).
  assert (Huf2 : DeepQNetwork.update_frequency self2 =
                 DeepQNetwork.update_frequency self)
    by (rewrite Hframe; reflexivity).
  assert (Hb2 : DeepQNetwork.batch_size self2 = DeepQNetwork.batch_size self)
    by (rewrite Hframe; reflexivity).
  assert (Hdf2 : DeepQNetwork.descent_frequency self2 =
                 DeepQNetwork.descent_frequency self)
    by (rewrite Hframe; reflexivity).
  rewrite Hsu, Huf2.
  destruct (Z.leb_spec (DeepQNetwork.start_updating self)
              (ExperienceReplay.len (DeepQNetwork.replay self2))); [|lia].
  rewrite (py_mod_nonzero _ _ Huf), Hmod.
  cbn [mbind result_bind mret result_ret Z.eqb].
  unfold DeepQNetwork._update_weights. rewrite Hdf2.
  destruct (py_range_first (DeepQNetwork.descent_frequency self))
    as [rest ->]; [lia|].
  cbn [DeepQNetwork.descent_loop]. unfold DeepQNetwork.descent_iteration.
  unfold ExperienceReplay.sample.
  rewrite np_random_choice_larger by (rewrite Hb2; exact Hbatch).
  reflexivity.
Qed.

(** [train] with no episode to run ([episodes <= 0]) returns at once and
    assigns nothing, whatever the frequencies, 0 included. *)
Theorem train_without_episodes (fuel : nat) (self : Agent) (env : E) (g : G)
    (episodes render_frequency : Z) (summary : bool) :
  episodes <= 0 ->
  DeepQNetwork.train fuel self env g episodes render_frequency summary =
    Ok (self, env, g).
Proof.
  intros Hep. unfold DeepQNetwork.train.
  rewrite py_range_empty by exact Hep. reflexivity.
Qed.

Lemma train_loop_app (fuel : nat) (episodes render_frequency : Z)
    (summary : bool) (l1 l2 : list Z) :
  forall (self : Agent) (env : E) (g : G),
  DeepQNetwork.train_loop fuel self env g episodes render_frequency summary
    (l1 ++ l2) =
  DeepQNetwork.train_loop fuel self env g episodes render_frequency summary l1
    ≫= (fun '(self1, env1, g1) =>
          DeepQNetwork.train_loop fuel self1 env1 g1 episodes
            render_frequency summary l2).
Proof.
  induction l1 as [|episode rest IH]; intros self env g; [reflexivity|].
  cbn [app DeepQNetwork.train_loop].
  destruct (DeepQNetwork.train_episode _ _ _ _ _ _ _ _)
    as [[[self1 env1] g1]| |]; [|reflexivity|reflexivity].
  cbn [mbind result_bind]. apply IH.
Qed.

(** An episode keeps [epsilon_init] and [epsilon_decay] and leaves in
    [epsilon] the value it assigned at its start. *)
Lemma train_episode_rates (fuel : nat) (self self' : Agent) (env env' : E)
    (g g' : G) (episodes render_frequency episode : Z) (summary : bool) :
  DeepQNetwork.train_episode fuel self env g episodes render_frequency
    summary episode = Ok (self', env', g') ->
  DeepQNetwork.epsilon_init self' = DeepQNetwork.epsilon_init self /\
  DeepQNetwork.epsilon_decay self' = DeepQNetwork.epsilon_decay self /\
  DeepQNetwork._epsilon self episode episodes =
    Ok (DeepQNetwork.epsilon self').
Proof.
  intros Hrun. apply train_episode_inv in Hrun.
  destruct Hrun as (e & iters & total & states & self2 & g2 & He & Hsim & Hcases).
  apply simulate_frame in Hsim.
  destruct Hcases as [[-> _]|(_ & _ & _ & loss & Hupd)].
  - rewrite Hsim. cbn. repeat split. exact He.
  - apply _update_weights_frame in Hupd.
    pose proof (f_equal DeepQNetwork.epsilon_init Hupd) as H1'.
    pose proof (f_equal DeepQNetwork.epsilon_decay Hupd) as H2'.
    pose proof (f_equal DeepQNetwork.epsilon Hupd) as H3'.
    cbn in H1', H2', H3'. rewrite H1', H2', H3', Hsim. cbn.
    repeat split. exact He.
Qed.

Lemma train_loop_rates (fuel : nat) (episodes render_frequency : Z)
    (summary : bool) (indices : list Z) :
  forall (self self' : Agent) (env env' : E) (g g' : G),
  DeepQNetwork.train_loop fuel self env g episodes render_frequency summary
    indices = Ok (self', env', g') ->
  DeepQNetwork.epsilon_init self' = DeepQNetwork.epsilon_init self /\
  DeepQNetwork.epsilon_decay self' = DeepQNetwork.epsilon_decay self.
Proof.
  induction indices as [|episode rest IH]; intros * Hrun.
  - injection Hrun as <- <- <-. split; reflexivity.
  - cbn [DeepQNetwork.train_loop] in Hrun. apply bind_Ok in Hrun.
    destruct Hrun as ([[self1 env1] g1] & Hep & Hrun).
    apply train_episode_rates in Hep. destruct Hep as (Hi & Hd & _).
    apply IH in Hrun. destruct Hrun as [Hi' Hd']. split; congruence.
Qed.

(** After [train] has run its [episodes >= 1] episodes, [epsilon] is
    [_epsilon(episodes - 1, episodes)]: the annealing stops one step short
    of [epsilon_init * epsilon_decay]. *)
Theorem train_leaves_last_epsilon (fuel : nat) (self self' : Agent)
    (env env' : E) (g g' : G) (episodes render_frequency : Z)
    (summary : bool) :
  1 <= episodes ->
  DeepQNetwork.train fuel self env g episodes render_frequency summary =
    Ok (self', env', g') ->
  DeepQNetwork.epsilon self' =
    mul (DeepQNetwork.epsilon_init self)
        (power (DeepQNetwork.epsilon_decay self)
               (truediv (episodes - 1) episodes)) /\
  DeepQNetwork.epsilon_init self' = DeepQNetwork.epsilon_init self /\
  DeepQNetwork.epsilon_decay self' = DeepQNetwork.epsilon_decay self.
Proof.
  intros Hep Hrun. unfold DeepQNetwork.train in Hrun.
  pose proof Hrun as Hall. apply train_loop_rates in Hall.
  rewrite (py_range_last _ Hep), train_loop_app in Hrun.
  apply bind_Ok in Hrun. destruct Hrun as ([[self1 env1] g1] & Hfirst & Hlast).
  apply train_loop_rates in Hfirst. destruct Hfirst as [Hi Hd].
  cbn [DeepQNetwork.train_loop] in Hlast. apply bind_Ok in Hlast.
  destruct Hlast as ([[self2 env2] g2] & Hlast & Hend).
  injection Hend as <- <- <-.
  apply train_episode_rates in Hlast. destruct Hlast as (_ & _ & He).
  unfold DeepQNetwork._epsilon in He.
  destruct (Z.eqb_spec episodes 0); [lia|]. injection He as He.
  split; [|exact Hall]. rewrite <- He, Hi, Hd. reflexivity.
Qed.

End Training.

(** ** Training below the update threshold *)

Section BelowThreshold.
Context {F W Opt E G : Type}.
Context `{Numeric F} `{Approximator F W Opt} `{Environment F E}.
Context `{RandomState F G}.

Abbreviation Agent := (DeepQNetwork.t F W Opt).

Lemma appended_bounds (r : ExperienceReplay.t F)
    (xs : list (ExperienceReplay.Experience F)) (C : Z) :
  Deque.maxlen (ExperienceReplay.buffer r) = C ->
  0 <= C -> ExperienceReplay.len r <= C ->
  Deque.maxlen (ExperienceReplay.buffer (ExperienceReplay.appended r xs)) = C /\
  ExperienceReplay.len (ExperienceReplay.appended r xs) <= C.
Proof.
  intros HC Hnn Hlen. unfold ExperienceReplay.len, Deque.len in *.
  rewrite appended_buffer.
  destruct (deque_foldl_append xs (ExperienceReplay.buffer r)) as [Hm Hi];
    [lia|lia|].
  split; [congruence|]. rewrite Hi, length_drop, length_app. lia.
Qed.

Lemma simulate_appends (fuel : nat) (self self' : Agent) (env env' : E)
    (g g' : G) (render evaluation graph : bool) (path : option string)
    (iters : Z) (total : F) (states : list (list F)) :
  DeepQNetwork.simulate fuel self env g render evaluation graph path =
    Ok (iters, total, states, self', env', g') ->
  exists records : list (ExperienceReplay.Experience F),
    self' = DeepQNetwork.set_replay self
              (ExperienceReplay.appended (DeepQNetwork.replay self) records).
Proof.
  intros Hrun. pose proof (simulate_frame _ _ _ _ _ _ _ _ _ _ _ _ _ _ Hrun)
    as Hframe.
  unfold DeepQNetwork.simulate in Hrun. destruct (env_reset env) as [s env0].
  apply bind_Ok in Hrun.
  destruct Hrun as ([[[[[i1 t1] s1] self1] env1] g1] & Hloop & Hrun).
  injection Hrun as <- <- <- <- <- <-.
  apply simulate_loop_records in Hloop.
  destruct Hloop as (records & _ & _ & _ & _ & Hrep & _).
  exists records. rewrite <- Hrep. exact Hframe.
Qed.

Lemma train_loop_below_threshold (fuel : nat) (episodes render_frequency : Z)
    (summary : bool) (C : Z) (indices : list Z) :
  forall (self self' : Agent) (env env' : E) (g g' : G),
  Deque.maxlen (ExperienceReplay.buffer (DeepQNetwork.replay self)) = C ->
  0 <= C ->
  ExperienceReplay.len (DeepQNetwork.replay self) <= C ->
  C < DeepQNetwork.start_updating self ->
  DeepQNetwork.train_loop fuel self env g episodes render_frequency summary
    indices = Ok (self', env', g') ->
  DeepQNetwork.q_net self' = DeepQNetwork.q_net self /\
  DeepQNetwork.optimizer self' = DeepQNetwork.optimizer self /\
  DeepQNetwork.q_target self' = DeepQNetwork.q_target self.
Proof.
  induction indices as [|episode rest IH]; intros * HC Hnn Hlen Hsu Hrun.
  - injection Hrun as <- <- <-. repeat split.
  - cbn [DeepQNetwork.train_loop] in Hrun. apply bind_Ok in Hrun.
    destruct Hrun as ([[self1 env1] g1] & Hep & Hrun).
    apply train_episode_inv in Hep.
    destruct Hep as (e & iters & total & states & self2 & g2 & _ & Hsim & Hcases).
    apply simulate_appends in Hsim. destruct Hsim as [records Hself2].
    cbn [DeepQNetwork.set_epsilon DeepQNetwork.replay] in Hself2.
    destruct (appended_bounds (DeepQNetwork.replay self) records C HC Hnn Hlen)
      as [Hm2 Hl2].
    assert (Hself1 : self1 = self2).
    { destruct Hcases as [[-> _]|(Hge & _)]; [reflexivity|].
      rewrite Hself2 in Hge. cbn in Hge. lia. }
    subst self1.
    assert (I1 : Deque.maxlen
                   (ExperienceReplay.buffer (DeepQNetwork.replay self2)) = C)
      by (rewrite Hself2; exact Hm2).
    assert (I2 : ExperienceReplay.len (DeepQNetwork.replay self2) <= C)
      by (rewrite Hself2; exact Hl2).
    assert (I3 : C < DeepQNetwork.start_updating self2)
      by (rewrite Hself2; exact Hsu).
    destruct (IH _ _ _ _ _ _ I1 Hnn I2 I3 Hrun) as (Hq & Ho & Ht).
    rewrite Hq, Ho, Ht, Hself2. repeat split.
Qed.

(** When [start_updating] is above the capacity of the replay buffer, no
    episode of [train] is ever due for an update: however many episodes
    run, the online weights, the optimizer state and the target weights
    stay as they were. *)
Theorem train_never_updates_above_capacity (fuel : nat) (self self' : Agent)
    (env env' : E) (g g' : G) (episodes render_frequency : Z)
    (summary : bool) :
  let capacity :=
    Deque.maxlen (ExperienceReplay.buffer (DeepQNetwork.replay self)) in
  0 <= capacity ->
  ExperienceReplay.len (DeepQNetwork.replay self) <= capacity ->
  capacity < DeepQNetwork.start_updating self ->
  DeepQNetwork.train fuel self env g episodes render_frequency summary =
    Ok (self', env', g') ->
  DeepQNetwork.q_net self' = DeepQNetwork.q_net self /\
  DeepQNetwork.optimizer self' = DeepQNetwork.optimizer self /\
  DeepQNetwork.q_target self' = DeepQNetwork.q_target self.
Proof.
  intros capacity Hnn Hlen Hsu Hrun. unfold DeepQNetwork.train in Hrun.
  eapply (train_loop_below_threshold fuel episodes render_frequency summary
            capacity); try eassumption. reflexivity.
Qed.

End BelowThreshold.

(** ** Target attributes *)

Section TargetAttributes.
Context {F W Opt E G B : Type}.
Context `{Numeric F} `{Approximator F W Opt} `{Environment F E}.
Context `{RandomState F G} `{Pickle (ExperienceReplay.t F) B}.

Abbreviation Agent := (DeepQNetwork.t F W Opt).
Abbreviation step := (DeepQNetwork.step (E := E) (G := G) (B := B)).

Lemma mapM_Raise {X Y : Type} (f : X -> result Y) (l : list X) (e : exn) :
  mapM (M := result) f l = Raise e -> exists x : X, f x = Raise e.
Proof.
  induction l as [|x l IH]; [discriminate|].
  change (mapM (M := result) f (x :: l))
    with (f x ≫= λ y', mapM (M := result) f l ≫= λ k', mret (y' :: k')).
  destruct (f x) as [y| |] eqn:Hx; cbn [mbind result_bind].
  - destruct (mapM f l) as [k| |]; cbn; try discriminate.
    intros [= <-]. apply IH. reflexivity.
  - intros [= <-]. exists x. exact Hx.
  - discriminate.
Qed.

Lemma sample_raises (self : ExperienceReplay.t F) (g : G) (k : Z) (e : exn) :
  ExperienceReplay.sample self g k = Raise e ->
  e = ValueError \/ e = IndexError.
Proof.
  unfold ExperienceReplay.sample, np_random_choice.
  destruct ((_ <=? 0) && _); [intros [= <-]; left; reflexivity|].
  destruct (_ <? k); [intros [= <-]; left; reflexivity|].
  destruct (k <? 0); [intros [= <-]; left; reflexivity|].
  destruct (permutation g _) as [p g1]. cbn [mbind result_bind].
  destruct (mapM _ _) as [records| |] eqn:Hm; cbn [mbind result_bind].
  - destruct records; cbn; [intros [= <-]; left; reflexivity|discriminate].
  - intros [= <-]. apply mapM_Raise in Hm. destruct Hm as [i Hi].
    unfold Deque.index in Hi. destruct (_ !! i); [discriminate|].
    injection Hi as <-. right. reflexivity.
  - discriminate.
Qed.

Lemma tensor_item_raises (q : list F) (a : Z) (e : exn) :
  tensor_item q a = Raise e -> e = InvalidArgumentError.
Proof.
  unfold tensor_item.
  destruct ((0 <=? a) && (a <? Z.of_nat (length q))).
  - destruct (q !! Z.to_nat a); cbn; congruence.
  - destruct ((- Z.of_nat (length q) <=? a) && (a <? 0)); [|congruence].
    destruct (q !! Z.to_nat (Z.of_nat (length q) + a)); cbn; congruence.
Qed.

Lemma descent_iteration_raises (self : Agent) (g : G) (gamma : F)
    (updates : Z) (e : exn) :
  DeepQNetwork.target_defined self ->
  DeepQNetwork.descent_iteration self g gamma updates = Raise e ->
  e <> AttributeError.
Proof.
  intros Hdef. unfold DeepQNetwork.descent_iteration.
  destruct (ExperienceReplay.sample _ g _) as [[b g1]|e'|] eqn:Hs;
    cbn [mbind result_bind]; [| |discriminate].
  2:{ intros [= <-]. apply sample_raises in Hs. destruct Hs; congruence. }
  assert (Hsync : (exists self1 : Agent,
             DeepQNetwork.sync_target self updates = Ok self1 /\
             DeepQNetwork.q_net self1 = DeepQNetwork.q_net self /\
             exists w : W, DeepQNetwork.bootstrap_net self1 = Ok w) \/
          DeepQNetwork.sync_target self updates = Raise ZeroDivisionError).
  { unfold DeepQNetwork.sync_target, DeepQNetwork.bootstrap_net,
      DeepQNetwork.target_defined in *.
    destruct (DeepQNetwork.use_target self) eqn:Hu.
    - destruct (Hdef eq_refl) as [[t Ht] [f Hf]]. rewrite Ht, Hf.
      cbn [of_option mbind result_bind]. unfold py_mod.
      destruct (f =? 0); [right; reflexivity|]. cbn [mbind result_bind].
      destruct (_ =? 0); cbn [mret result_ret]; left; eexists;
        (split; [reflexivity|]); cbn; rewrite Hu;
        (split; [reflexivity|]); [|rewrite Ht]; eexists; reflexivity.
    - left. exists self. split; [reflexivity|]. rewrite Hu.
      split; [reflexivity|]. eexists. reflexivity. }
  destruct Hsync as [(self1 & -> & Hq & w & Hw)| ->];
    cbn [mbind result_bind]; [|congruence].
  unfold DeepQNetwork.this_Q, DeepQNetwork.next_Q. rewrite Hw.
  destruct (mapM _ _) as [tq|e'|] eqn:Hm; cbn [mbind result_bind];
    [| |discriminate].
  - cbn [mbind result_bind mret result_ret].
    match goal with
    | |- context [apply_gradients ?o ?q ?s ?a ?y] =>
        destruct (apply_gradients o q s a y)
    end.
    discriminate.
  - intros [= <-]. apply mapM_Raise in Hm. destruct Hm as [qa Hqa].
    apply tensor_item_raises in Hqa. congruence.
Qed.

Lemma descent_loop_raises (indices : list Z) :
  forall (self : Agent) (g : G) (gamma : F) (loss : option F) (e : exn),
  DeepQNetwork.target_defined self ->
  DeepQNetwork.descent_loop self g gamma indices loss = Raise e ->
  e <> AttributeError.
Proof.
  induction indices as [|updates rest IH]; intros * Hdef; [discriminate|].
  cbn [DeepQNetwork.descent_loop].
  destruct (DeepQNetwork.descent_iteration self g gamma updates)
    as [[[l self1] g1]|e'|] eqn:Hit; cbn [mbind result_bind];
    [| |discriminate].
  - apply IH. destruct (descent_iteration_keeps_target _ _ _ _ _ _ _ Hit)
      as (Hu & Htf & Ht).
    unfold DeepQNetwork.target_defined in *. rewrite Hu, Htf.
    intros Hon. destruct (Hdef Hon) as [Hsome Hf]. split; auto.
  - intros [= <-]. eapply descent_iteration_raises; eassumption.
Qed.

Lemma step_target_defined (self self' : Agent) :
  step self self' ->
  DeepQNetwork.target_defined self -> DeepQNetwork.target_defined self'.
Proof.
  unfold DeepQNetwork.target_defined.
  intros [fuel s env g render evaluation graph path iters total states s' env' g' Hrun
         |s g gamma updates loss s' g' Hit
         |s episode episodes e _ _
         |s fs path s' Hl
         |s s' Hc] Hdef.
  - apply simulate_frame in Hrun. rewrite Hrun. exact Hdef.
  - destruct (descent_iteration_keeps_target _ _ _ _ _ _ _ Hit)
      as (Hu & Htf & Ht).
    rewrite Hu, Htf. intros Hon. destruct (Hdef Hon). split; auto.
  - exact Hdef.
  - apply load_inv in Hl. destruct Hl as (saved & w & file & r & _ & _ & _ & _ & ->).
    exact Hdef.
  - apply clear_experience_inv in Hc. destruct Hc as (r & _ & ->). exact Hdef.
Qed.

(** An agent that [__init__] built, after any steps of its methods, has a
    target network and a target frequency whenever [use_target] is set:
    [_update_weights] never fails on a missing attribute. *)
Theorem target_attributes_stay_defined
    (dims : list Z) (epsilon epsilon_decay gamma0 : F)
    (memory start_updating batch_size : Z) (learning_rate : F)
    (descent_frequency update_frequency : Z) (use_target : bool)
    (target_frequency : Z) (self0 self : Agent) (g : G) (gamma : F) :
  DeepQNetwork.init dims epsilon epsilon_decay gamma0 memory start_updating
    batch_size learning_rate descent_frequency update_frequency
    use_target target_frequency = Ok self0 ->
  rtc step self0 self ->
  DeepQNetwork.target_defined self /\
  DeepQNetwork._update_weights self g gamma <> Raise AttributeError.
Proof.
  intros Hinit Hrun.
  assert (Hdef0 : DeepQNetwork.target_defined self0).
  { unfold DeepQNetwork.init in Hinit. apply bind_Ok in Hinit.
    destruct Hinit as (r & _ & Hinit). injection Hinit as <-.
    unfold DeepQNetwork.target_defined. cbn. intros ->. split; eauto. }
  assert (Hdef : DeepQNetwork.target_defined self).
  { clear Hinit. induction Hrun as [|a b c Hstep _ IH]; [exact Hdef0|].
    apply IH. eapply step_target_defined; eassumption. }
  split; [exact Hdef|].
  unfold DeepQNetwork._update_weights.
  destruct (DeepQNetwork.descent_loop self g gamma _ None)
    as [[[l s] g1]|e|] eqn:Hloop; cbn [mbind result_bind]; [| |discriminate].
  - destruct l; cbn; discriminate.
  - intros [= ->]. eapply descent_loop_raises; [exact Hdef|exact Hloop|].
    reflexivity.
Qed.

End TargetAttributes.

(** ** Saving and loading across agents *)

Section LoadMore.
Context {F W Opt B : Type} `{Numeric F} `{Approximator F W Opt}.
Context `{Pickle (ExperienceReplay.t F) B}.

Abbreviation Agent := (DeepQNetwork.t F W Opt).

(** What [load] returns when the files are there and fit. *)
Lemma load_found (other : Agent) (fs : DeepQNetwork.FileSystem W B)
    (path : string) (w : W) (file : B) (r : ExperienceReplay.t F) :
  DeepQNetwork.checkpoints fs !! path = Some w ->
  same_architecture (DeepQNetwork.q_net other) w = true ->
  DeepQNetwork.files fs !! (path +:+ "experience.pk") = Some file ->
  pickle_loads file = Some r ->
  DeepQNetwork.load other fs path =
    Ok (DeepQNetwork.set_replay (DeepQNetwork.set_q_net other w) r).
Proof.
  intros Hw Hfit Hfile Hr. unfold DeepQNetwork.load.
  rewrite Hw. cbn [of_option mbind result_bind]. rewrite Hfit.
  cbn [mbind result_bind]. rewrite Hfile. cbn [of_option mbind result_bind].
  rewrite Hr. reflexivity.
Qed.

(** [load] restores the online weights and the replay buffer that [save]
    wrote, into any agent whose network they fit, and nothing else: the
    loading agent keeps its own [epsilon], target weights, optimizer state
    and configured capacity. *)
Theorem load_restores_weights_and_buffer_only (self other : Agent)
    (fs : DeepQNetwork.FileSystem W B) (path : string) :
  (forall r : ExperienceReplay.t F, pickle_loads (pickle_dumps r) = Some r) ->
  same_architecture (DeepQNetwork.q_net other) (DeepQNetwork.q_net self) =
    true ->
  exists other' : Agent,
    DeepQNetwork.load other (DeepQNetwork.save self fs path) path =
      Ok other' /\
    DeepQNetwork.q_net other' = DeepQNetwork.q_net self /\
    DeepQNetwork.replay other' = DeepQNetwork.replay self /\
    DeepQNetwork.epsilon other' = DeepQNetwork.epsilon other /\
    DeepQNetwork.q_target other' = DeepQNetwork.q_target other /\
    DeepQNetwork.optimizer other' = DeepQNetwork.optimizer other /\
    DeepQNetwork.memory other' = DeepQNetwork.memory other.
Proof.
  intros Hpickle Hfit. eexists. split.
  - apply (load_found other _ path (DeepQNetwork.q_net self)
             (pickle_dumps (DeepQNetwork.replay self))
             (DeepQNetwork.replay self)).
    + unfold DeepQNetwork.save. cbn. apply lookup_insert_eq.
    + exact Hfit.
    + unfold DeepQNetwork.save. cbn. apply lookup_insert_eq.
    + apply Hpickle.
  - repeat split.
Qed.

End LoadMore.

(** ** Instances of the further properties *)

Section MoreRuns.
Import World.

Lemma world_randint_law : randint_law (F := R) (G := nat).
Proof. intros g low high Hlt. cbn. lia. Qed.

(** An exploring episode in the small world. *)
Lemma world_simulate (fuel : nat) (self : Agent) (env g : nat)
    (render graph : bool) (path : option string) (n : Z) :
  let record := ExperienceReplay.mkExperience [0%R] 0 1%R true [1%R] in
  (/ 2 < DeepQNetwork.epsilon self)%R ->
  py_last (DeepQNetwork.dims self) = Ok n -> 0 < n ->
  DeepQNetwork.simulate (S fuel) self env g render false graph path =
  Ok (1, add zero 1%R, [[1%R]],
      DeepQNetwork.set_replay self
        (ExperienceReplay.append (DeepQNetwork.replay self) record),
      S env, S (S g)).
Proof.
  intros record Hexp Hlast Hn.
  unfold DeepQNetwork.simulate. cbn [env_reset one_step_env].
  cbn [DeepQNetwork.simulate_loop]. unfold DeepQNetwork.act.
  cbn [negb uniform fixed_draws ltb real_numeric].
  rewrite (real_ltb_true _ _ Hexp), Hlast. cbn [mbind result_bind].
  unfold np_random_randint. destruct (Z.leb_spec n 0); [lia|].
  cbn [randint_draw fixed_draws mbind result_bind env_step one_step_env
       env_render env_show].
  destruct render; reflexivity.
Qed.

(** A training of one episode that is not due for an update. *)
Lemma world_train_once :
  DeepQNetwork.train 1 (agent 1 (/ 2) 10 100 1 1) 0%nat 0%nat 1 1 false =
  Ok (DeepQNetwork.set_replay
        (DeepQNetwork.set_epsilon (agent 1 (/ 2) 10 100 1 1)
           (1 * real_power (/ 2) (IZR 0 / IZR 1))%R)
        (ExperienceReplay.append
           (DeepQNetwork.replay (agent 1 (/ 2) 10 100 1 1))
           (ExperienceReplay.mkExperience [0%R] 0 1%R true [1%R])),
      1%nat, 2%nat).
Proof.
  unfold DeepQNetwork.train.
  change (py_range 1) with [0]. cbn [DeepQNetwork.train_loop].
  rewrite (world_episode 0 (agent 1 (/ 2) 10 100 1 1) 0 0 1 1 0 2 false
             (1 * real_power (/ 2) (IZR 0 / IZR 1))%R);
    [reflexivity|lia|reflexivity
    |rewrite real_power_zero_quotient; lra
    |reflexivity|lia|reflexivity].
Qed.

Lemma world_pickle_law (r : ExperienceReplay.t R) :
  pickle_loads (pickle_dumps r) = Some r.
Proof. reflexivity. Qed.

Lemma appended_within_capacity_witness :
  Deque.maxlen (ExperienceReplay.buffer
                  (ExperienceReplay.appended one_record four_records)) =
    Deque.maxlen (ExperienceReplay.buffer one_record) /\
  Deque.items (ExperienceReplay.buffer
                 (ExperienceReplay.appended one_record four_records)) =
    drop (length (Deque.items (ExperienceReplay.buffer one_record)
                    ++ four_records) -
          Z.to_nat (Deque.maxlen (ExperienceReplay.buffer one_record)))
         (Deque.items (ExperienceReplay.buffer one_record) ++ four_records) /\
  ExperienceReplay.len (ExperienceReplay.appended one_record four_records) =
    Z.min (ExperienceReplay.len one_record + Z.of_nat (length four_records))
          (Deque.maxlen (ExperienceReplay.buffer one_record)).
Proof.
  apply (appended_within_capacity one_record four_records).
  - cbn. lia.
  - unfold ExperienceReplay.len, Deque.len. cbn. lia.
Defined.

Lemma sample_nothing_raises_witness :
  ExperienceReplay.sample one_record 0%nat (-1) = Raise ValueError /\
  ExperienceReplay.sample (ExperienceReplay.mk (Deque.mk 3 [])) 0%nat 2 =
    Raise (A := ExperienceReplay.Batch R * nat) ValueError.
Proof.
  split.
  - apply (sample_nothing_raises one_record 0%nat (-1)). left. lia.
  - apply (sample_nothing_raises (ExperienceReplay.mk (Deque.mk 3 []))
             0%nat 2).
    right. reflexivity.
Defined.

Lemma sample_whole_buffer_witness :
  exists (records : list (ExperienceReplay.Experience R)) (g' : nat),
    ExperienceReplay.sample one_record 0%nat (ExperienceReplay.len one_record) =
      Ok (ExperienceReplay.mkBatch
            (ExperienceReplay.state <$> records)
            (ExperienceReplay.action <$> records)
            (float32 ∘ ExperienceReplay.reward <$> records)
            (ExperienceReplay.done <$> records)
            (ExperienceReplay.new_state <$> records), g') /\
    records ≡ₚ Deque.items (ExperienceReplay.buffer one_record).
Proof.
  apply (sample_whole_buffer one_record 0%nat world_permutation_law).
  unfold ExperienceReplay.len, Deque.len. cbn. lia.
Defined.

Lemma act_returns_valid_action_witness :
  exists (a : Z) (g' : nat),
    DeepQNetwork.act (agent 1 (/ 2) 3 1 1 1) 0%nat [0%R] false = Ok (a, g') /\
    0 <= a < 2.
Proof.
  apply (act_returns_valid_action (agent 1 (/ 2) 3 1 1 1) 0%nat [0%R] false 2
           world_randint_law).
  - reflexivity.
  - lia.
  - reflexivity.
Defined.

Lemma simulate_records_episode_witness :
  exists records : list (ExperienceReplay.Experience R),
    1 <= 1 /\
    1 = Z.of_nat (length records) /\
    [[1%R]] = ExperienceReplay.new_state <$> records /\
    add zero 1%R = foldl add zero (ExperienceReplay.reward <$> records) /\
    DeepQNetwork.replay
      (DeepQNetwork.set_replay (agent 1 (/ 2) 3 1 1 1)
         (ExperienceReplay.append
            (DeepQNetwork.replay (agent 1 (/ 2) 3 1 1 1))
            (ExperienceReplay.mkExperience [0%R] 0 1%R true [1%R]))) =
      ExperienceReplay.appended
        (DeepQNetwork.replay (agent 1 (/ 2) 3 1 1 1)) records /\
    ExperienceReplay.done <$> records =
      replicate (length records - 1) false ++ [true] /\
    ExperienceReplay.state <$> records =
      take (length records)
           ((env_reset 0%nat).1 :: (ExperienceReplay.new_state <$> records)).
Proof.
  apply (simulate_records_episode 1 (agent 1 (/ 2) 3 1 1 1) _ 0%nat 1%nat
           0%nat 2%nat true false false None).
  apply (world_simulate 0 (agent 1 (/ 2) 3 1 1 1) 0 0 true false None 2).
  - cbn. lra.
  - reflexivity.
  - lia.
Defined.

End MoreRuns.

Section MoreInstances.
Import World.

Abbreviation step :=
  (DeepQNetwork.step (E := nat) (G := nat) (B := ExperienceReplay.t R)).

(** One pass over the one record of the buffer. *)
Lemma world_update :
  exists (loss : R) (self' : Agent),
    DeepQNetwork._update_weights (learner 1 1 false 1) 0%nat 1%R =
      Ok (loss, self', 1%nat).
Proof. eexists _, _. reflexivity. Qed.

Lemma _update_weights_assigns_weights_only_witness :
  exists (loss : R) (self' : Agent),
    DeepQNetwork._update_weights (learner 1 1 false 1) 0%nat 1%R =
      Ok (loss, self', 1%nat) /\
    DeepQNetwork.replay self' = DeepQNetwork.replay (learner 1 1 false 1) /\
    DeepQNetwork.epsilon self' = DeepQNetwork.epsilon (learner 1 1 false 1).
Proof.
  destruct world_update as (loss & self' & Hrun).
  exists loss, self'. split; [exact Hrun|].
  pose proof (_update_weights_assigns_weights_only
                (learner 1 1 false 1) self' 0%nat 1%nat 1%R loss Hrun)
    as (Hr & He & _).
  split; assumption.
Defined.

Lemma _update_weights_returns_last_pass_witness :
  exists (loss : R) (self' : Agent),
    DeepQNetwork._update_weights (learner 1 1 false 1) 0%nat 1%R =
      Ok (loss, self', 1%nat) /\
    1 <= DeepQNetwork.descent_frequency (learner 1 1 false 1) /\
    exists (before : Agent) (g0 : nat),
      DeepQNetwork.descent_iteration before g0 1%R
        (DeepQNetwork.descent_frequency (learner 1 1 false 1) - 1) =
        Ok (loss, self', 1%nat).
Proof.
  destruct world_update as (loss & self' & Hrun).
  exists loss, self'. split; [exact Hrun|].
  apply (_update_weights_returns_last_pass
           (learner 1 1 false 1) self' 0%nat 1%nat 1%R loss Hrun).
Defined.

Lemma _update_weights_without_pass_witness :
  DeepQNetwork._update_weights (learner 1 0 false 1) 0%nat 1%R =
    Raise UnboundLocalError.
Proof.
  apply (_update_weights_without_pass (learner 1 0 false 1) 0%nat 1%R).
  cbn. lia.
Defined.

Lemma _update_weights_propagates_sampling_error_witness :
  DeepQNetwork._update_weights (learner 5 1 false 1) 0%nat 1%R =
    Raise ValueError.
Proof.
  apply (_update_weights_propagates_sampling_error
           (learner 5 1 false 1) 0%nat 1%R).
  - cbn. lia.
  - left. unfold ExperienceReplay.len, Deque.len. cbn. lia.
Defined.

Lemma _update_weights_ignores_initial_target_witness :
  DeepQNetwork._update_weights
    (DeepQNetwork.set_q_target (learner 1 1 true 2) [7%R; 7%R]) 0%nat 1%R =
  DeepQNetwork._update_weights (learner 1 1 true 2) 0%nat 1%R.
Proof.
  apply (_update_weights_ignores_initial_target
           (learner 1 1 true 2) 0%nat 1%R [7%R; 7%R] 2).
  - reflexivity.
  - reflexivity.
  - lia.
  - cbn. eauto.
Defined.

Lemma target_frequency_one_is_no_target_witness :
  DeepQNetwork._update_weights
    (DeepQNetwork.without_target (learner 1 1 true 1)) 0%nat 1%R =
  DeepQNetwork.forget_target
    (DeepQNetwork._update_weights (learner 1 1 true 1) 0%nat 1%R).
Proof.
  apply (target_frequency_one_is_no_target (learner 1 1 true 1) 0%nat 1%R).
  - reflexivity.
  - reflexivity.
  - cbn. eauto.
Defined.

Lemma train_episode_updates_only_when_due_witness :
  exists self' : Agent,
    DeepQNetwork.train_episode 1 (agent 1 (/ 2) 10 100 1 1) 0%nat 0%nat
      1 1 false 0 = Ok (self', 1%nat, 2%nat) /\
    ((DeepQNetwork.q_net self' = DeepQNetwork.q_net (agent 1 (/ 2) 10 100 1 1) /\
      DeepQNetwork.optimizer self' =
        DeepQNetwork.optimizer (agent 1 (/ 2) 10 100 1 1) /\
      DeepQNetwork.q_target self' =
        DeepQNetwork.q_target (agent 1 (/ 2) 10 100 1 1)) \/
     (DeepQNetwork.start_updating (agent 1 (/ 2) 10 100 1 1) <=
        ExperienceReplay.len (DeepQNetwork.replay self') /\
      DeepQNetwork.update_frequency (agent 1 (/ 2) 10 100 1 1) <> 0 /\
      0 mod DeepQNetwork.update_frequency (agent 1 (/ 2) 10 100 1 1) = 0)).
Proof.
  assert (Hrun :
    DeepQNetwork.train_episode 1 (agent 1 (/ 2) 10 100 1 1) 0%nat 0%nat
      1 1 false 0 =
    Ok (DeepQNetwork.set_replay
          (DeepQNetwork.set_epsilon (agent 1 (/ 2) 10 100 1 1)
             (1 * real_power (/ 2) (IZR 0 / IZR 1))%R)
          (ExperienceReplay.append
             (DeepQNetwork.replay (agent 1 (/ 2) 10 100 1 1))
             (ExperienceReplay.mkExperience [0%R] 0 1%R true [1%R])),
        1%nat, 2%nat)).
  { apply (world_episode 0 (agent 1 (/ 2) 10 100 1 1) 0 0 1 1 0 2 false);
      [lia|reflexivity|rewrite real_power_zero_quotient; lra
      |reflexivity|lia|reflexivity]. }
  eexists. split; [exact Hrun|].
  apply (train_episode_updates_only_when_due _ _ _ _ _ _ _ _ _ _ _ Hrun).
Defined.

Lemma train_episode_batch_above_buffer_witness :
  DeepQNetwork.train_episode 1 (agent 1 (/ 2) 10 1 5 1) 0%nat 0%nat
    1 1 false 0 = Raise ValueError.
Proof.
  eapply (train_episode_batch_above_buffer 1 (agent 1 (/ 2) 10 1 5 1) _
            0%nat _ 0%nat _ 1 1 0 false
            (1 * real_power (/ 2) (IZR 0 / IZR 1))%R).
  - reflexivity.
  - lia.
  - apply (world_simulate 0 _ 0 0 _ false None 2).
    + cbn. rewrite real_power_zero_quotient. lra.
    + reflexivity.
    + lia.
  - reflexivity.
  - reflexivity.
  - cbn. lia.
  - reflexivity.
  - cbn. lia.
Defined.

Lemma train_without_episodes_witness :
  DeepQNetwork.train 0 (agent 1 (/ 2) 10 100 1 1) 0%nat 0%nat 0 0 false =
    Ok (agent 1 (/ 2) 10 100 1 1, 0%nat, 0%nat).
Proof.
  apply (train_without_episodes 0 (agent 1 (/ 2) 10 100 1 1) 0%nat 0%nat
           0 0 false).
  lia.
Defined.

Lemma train_leaves_last_epsilon_witness :
  exists self' : Agent,
    DeepQNetwork.train 1 (agent 1 (/ 2) 10 100 1 1) 0%nat 0%nat 1 1 false =
      Ok (self', 1%nat, 2%nat) /\
    DeepQNetwork.epsilon self' =
      mul (DeepQNetwork.epsilon_init (agent 1 (/ 2) 10 100 1 1))
          (power (DeepQNetwork.epsilon_decay (agent 1 (/ 2) 10 100 1 1))
                 (truediv (1 - 1) 1)) /\
    DeepQNetwork.epsilon_init self' =
      DeepQNetwork.epsilon_init (agent 1 (/ 2) 10 100 1 1) /\
    DeepQNetwork.epsilon_decay self' =
      DeepQNetwork.epsilon_decay (agent 1 (/ 2) 10 100 1 1).
Proof.
  eexists. split; [exact world_train_once|].
  eapply (train_leaves_last_epsilon 1 (agent 1 (/ 2) 10 100 1 1));
    [|exact world_train_once].
  lia.
Defined.

Lemma train_never_updates_above_capacity_witness :
  exists self' : Agent,
    DeepQNetwork.train 1 (agent 1 (/ 2) 10 100 1 1) 0%nat 0%nat 1 1 false =
      Ok (self', 1%nat, 2%nat) /\
    DeepQNetwork.q_net self' = DeepQNetwork.q_net (agent 1 (/ 2) 10 100 1 1) /\
    DeepQNetwork.optimizer self' =
      DeepQNetwork.optimizer (agent 1 (/ 2) 10 100 1 1) /\
    DeepQNetwork.q_target self' =
      DeepQNetwork.q_target (agent 1 (/ 2) 10 100 1 1).
Proof.
  eexists. split; [exact world_train_once|].
  eapply (train_never_updates_above_capacity 1 (agent 1 (/ 2) 10 100 1 1));
    [cbn; lia|unfold ExperienceReplay.len, Deque.len; cbn; lia|cbn; lia
    |exact world_train_once].
Defined.

Lemma target_attributes_stay_defined_witness :
  exists self0 self : Agent,
    DeepQNetwork.init [1; 2] 1%R (/ 2)%R 1%R 3 1 1 (/ 1000)%R 1 1 true 2 =
      Ok self0 /\
    rtc step self0 self /\
    DeepQNetwork.replay self = one_record /\
    DeepQNetwork.target_defined self /\
    DeepQNetwork._update_weights self 0%nat 1%R <> Raise AttributeError.
Proof.
  assert (Hrun :
    exists self0 self : Agent,
      DeepQNetwork.init [1; 2] 1%R (/ 2)%R 1%R 3 1 1 (/ 1000)%R 1 1 true 2 =
        Ok self0 /\
      rtc step self0 self /\
      DeepQNetwork.replay self = one_record).
  { eexists _, _. split; [reflexivity|]. split.
    - eapply rtc_l; [|apply rtc_refl].
      eapply (DeepQNetwork.step_load _
                (DeepQNetwork.save (learner 1 1 true 2) no_files "m") "m").
      reflexivity.
    - reflexivity. }
  destruct Hrun as (self0 & self & Hinit & Hrun & Hrep).
  exists self0, self. split; [exact Hinit|]. split; [exact Hrun|].
  split; [exact Hrep|].
  apply (target_attributes_stay_defined _ _ _ _ _ _ _ _ _ _ _ _ self0
           self 0%nat 1%R Hinit Hrun).
Defined.

Lemma load_restores_weights_and_buffer_only_witness :
  exists other' : Agent,
    DeepQNetwork.load (agent 0 (/ 2) 10 100 1 1)
      (DeepQNetwork.save (learner 1 1 true 2) no_files "model/") "model/" =
      Ok other' /\
    DeepQNetwork.q_net other' = DeepQNetwork.q_net (learner 1 1 true 2) /\
    DeepQNetwork.replay other' = DeepQNetwork.replay (learner 1 1 true 2) /\
    DeepQNetwork.epsilon other' =
      DeepQNetwork.epsilon (agent 0 (/ 2) 10 100 1 1) /\
    DeepQNetwork.q_target other' =
      DeepQNetwork.q_target (agent 0 (/ 2) 10 100 1 1) /\
    DeepQNetwork.optimizer other' =
      DeepQNetwork.optimizer (agent 0 (/ 2) 10 100 1 1) /\
    DeepQNetwork.memory other' = DeepQNetwork.memory (agent 0 (/ 2) 10 100 1 1).
Proof.
  apply (load_restores_weights_and_buffer_only (learner 1 1 true 2)
           (agent 0 (/ 2) 10 100 1 1) no_files "model/" world_pickle_law).
  reflexivity.
Defined.

(** Two of the three records of the scenario buffer: the generator's
    permutation is 2, 1, 0, so the draw is the records at positions 2 and
    1. *)
Lemma sample_distinct_records_witness :
  (exists records : list (ExperienceReplay.Experience R),
     ExperienceReplay.sample last_three 0%nat 2 =
       Ok (ExperienceReplay.mkBatch
             (ExperienceReplay.state <$> records)
             (ExperienceReplay.action <$> records)
             (float32 ∘ ExperienceReplay.reward <$> records)
             (ExperienceReplay.done <$> records)
             (ExperienceReplay.new_state <$> records), 1%nat) /\
     Forall2 (fun i r =>
                Deque.items (ExperienceReplay.buffer last_three) !! i = Some r)
             [2%nat; 1%nat] records /\
     NoDup [2%nat; 1%nat] /\
     length [2%nat; 1%nat] = Z.to_nat 2 /\
     length records = Z.to_nat 2) /\
  ExperienceReplay.sample last_three 0%nat 5 = Raise ValueError.
Proof.
  split.
  - apply (proj1 (sample_distinct_records last_three 0%nat 2
                    world_permutation_law)).
    unfold ExperienceReplay.len, Deque.len. cbn. lia.
  - apply (proj2 (sample_distinct_records last_three 0%nat 5
                    world_permutation_law)).
    unfold ExperienceReplay.len, Deque.len. cbn. lia.
Defined.

Example scenario_sample :
  ExperienceReplay.sample last_three 0%nat 2 =
    Ok (ExperienceReplay.mkBatch [[0%R]; [0%R]] [0; 0] [4%R; 3%R]
          [true; false] [[1%R]; [1%R]], 1%nat).
Proof. reflexivity. Qed.

(** The first of the two passes of [regressor]: the optimizer step of this
    world leaves the weights as they were. *)
Lemma world_first_pass :
  exists l : R,
    DeepQNetwork.descent_loop regressor 0%nat (9 / 10)%R (py_range 1) None =
      Ok (Some l, regressor, 1%nat).
Proof. eexists. reflexivity. Qed.

Lemma world_two_passes :
  exists (loss : R) (self' : Agent),
    DeepQNetwork._update_weights regressor 0%nat (9 / 10)%R =
      Ok (loss, self', 2%nat).
Proof. eexists _, _. reflexivity. Qed.

(** The second pass of [regressor] samples the non-terminal record with
    reward 1 and the terminal one with reward 5.  Its targets are
    [1 + 0.9 * max(2, 0)] and 5, and the loss the call returns is computed
    from them; the second target is 5 for every discount and every
    bootstrap value. *)
Lemma bellman_target_per_sample_witness :
  exists (loss : R) (self' : Agent) (tq : list R),
    DeepQNetwork._update_weights regressor 0%nat (9 / 10)%R =
      Ok (loss, self', 2%nat) /\
    ExperienceReplay.sample (DeepQNetwork.replay regressor) 1%nat 2 =
      Ok (both_sampled, 2%nat) /\
    DeepQNetwork.this_Q regressor both_sampled = Ok tq /\
    loss = DeepQNetwork.bellman_loss
             [(1 + 9 / 10 * reduce_max [2; 0])%R; 5%R] tq /\
    (forall (gamma' : R) (nq' : list R),
       length nq' = 2%nat ->
       DeepQNetwork.bellman_y gamma' both_sampled nq' !! 1%nat = Some 5%R).
Proof.
  destruct world_two_passes as (loss & self' & Hrun).
  destruct (bellman_target_per_sample regressor self' 0%nat 2%nat
              (9 / 10)%R loss 1 Hrun)
    as (before & after & self1 & g0 & g1 & loss0 & loss1 & records & Q' &
        tq & nq & Hbefore & Hit & Hlast & Hrep & Hsample & Hin & Hsync &
        HQ & Htq & Hnq & Hy & Hloss & Hafter & Hterm);
    [cbn; lia|].
  destruct world_first_pass as (l & Hfirst).
  rewrite Hfirst in Hbefore. injection Hbefore as <- <- <-.
  injection Hsync as <-. cbn in HQ. subst Q'.
  destruct (Hlast eq_refl) as (-> & _ & _).
  assert (Hs : ExperienceReplay.sample (DeepQNetwork.replay regressor) 1%nat 2 =
               Ok (both_sampled, 2%nat)) by reflexivity.
  change (DeepQNetwork.batch_size regressor) with 2 in Hsample.
  rewrite Hs in Hsample. injection Hsample as Hst Hac Hrw Hdn Hns <-.
  assert (Hrecords : records = [transition 1 false; transition 5 true]).
  { destruct records as [|[s1 a1 r1 d1 n1] [|[s2 a2 r2 d2 n2] [|r3 records]]];
      try discriminate.
    cbn in Hst, Hac, Hrw, Hdn, Hns.
    injection Hst as <- <-. injection Hac as <- <-. injection Hrw as <- <-.
    injection Hdn as <- <-. injection Hns as <- <-. reflexivity. }
  subst records.
  exists loss1, self', tq.
  split; [exact Hrun|]. split; [exact Hs|]. split; [exact Htq|].
  split; [exact Hloss|].
  intros gamma' nq' Hlen.
  apply (Hterm 1%nat (transition 5 true) eq_refl eq_refl gamma' nq').
  rewrite Hlen. injection Hnq as <-. reflexivity.
Defined.

Lemma init_rejects_negative_capacity_only_witness :
  (exists self : Agent,
     DeepQNetwork.init [1; 2] 1%R (/ 2)%R 1%R 3 1 5 (/ 1000)%R 0 0 true 0 =
       Ok self /\
     DeepQNetwork.memory self = 3 /\
     DeepQNetwork.batch_size self = 5 /\
     DeepQNetwork.descent_frequency self = 0 /\
     DeepQNetwork.update_frequency self = 0 /\
     DeepQNetwork.target_frequency self = (if true then Some 0 else None) /\
     ExperienceReplay.len (DeepQNetwork.replay self) = 0) /\
  DeepQNetwork.init [1; 2] 1%R (/ 2)%R 1%R (-1) 1 5 (/ 1000)%R 0 0 true 0 =
    Raise (A := Agent) ValueError.
Proof.
  split.
  - apply (proj1 (init_rejects_negative_capacity_only [1; 2] 1%R (/ 2)%R 1%R
                    3 1 5 (/ 1000)%R 0 0 true 0)).
    lia.
  - apply (proj2 (init_rejects_negative_capacity_only [1; 2] 1%R (/ 2)%R 1%R
                    (-1) 1 5 (/ 1000)%R 0 0 true 0)).
    lia.
Defined.

End MoreInstances.
